(** * ResQ-AI agentic dispatcher: the agent pipeline, the resilient invoker
      and the deterministic fallback planner

    A shallow embedding of [backend/app/relief_tools.py],
    [backend/app/agents.py] and [backend/app/state.py].

    Conventions of the embedding.
    - Python values that flow through dynamically typed places (envelope
      content, decoded JSON, incident fields) are terms of [PyVal].
    - A Python [str] is a [string]; a character is an 8-bit code point.
    - Exceptions are explicit: a computation yields [Ok v] or [Raise e].
    - Module-level mutable state ([_gemini_backoff_until], [_UNIT_STATUS])
      lives in a [World] that is threaded through a small state-and-error
      monad [M].  Objects that own mutable attributes (agents, sessions)
      are records that are passed in and handed back.
    - Everything outside the repository (the system clock, the random
      number generator, the generative backend, [json.loads], [str()] of a
      non-string) is a field of a [Platform]; every read of the clock and
      every random draw is numbered, so a platform is a deterministic
      script of what the outside world answers.
    - Clock readings and scores are floats in the source; they only take
      part in comparisons and in additions of integers, and are modelled
      in [Z].  The backoff window, the one integer that is read from the
      environment and added to the clock, is taken to be within the range
      of floats. *)

From Stdlib Require Import ZArith List String Ascii Bool Lia Floats.
From Stdlib Require Import Sorting.Sorted Sorting.Permutation.
From stdpp Require Import gmap strings pretty.

Set Warnings "-register-all".
Local Open Scope Z_scope.

(* ===================================================================== *)
(** * Python strings *)
(* ===================================================================== *)

Module PyStr.

(** [str.isspace] on one code point below 256. *)
Definition is_space (c : ascii) : bool :=
  let n := nat_of_ascii c in
  ((9 <=? n) && (n <=? 13) || (28 <=? n) && (n <=? 32)
   || (n =? 133) || (n =? 160))%nat.

(** [str.lower] on one code point below 256. *)
Definition lower_char (c : ascii) : ascii :=
  let n := nat_of_ascii c in
  if ((65 <=? n) && (n <=? 90)
      || (192 <=? n) && (n <=? 222) && negb (n =? 215))%nat
  then ascii_of_nat (n + 32) else c.

Fixpoint lower (s : string) : string :=
  match s with
  | EmptyString => EmptyString
  | String c t => String (lower_char c) (lower t)
  end.

Fixpoint lstrip (s : string) : string :=
  match s with
  | EmptyString => EmptyString
  | String c t => if is_space c then lstrip t else s
  end.

Fixpoint rstrip (s : string) : string :=
  match s with
  | EmptyString => EmptyString
  | String c t =>
      match rstrip t with
      | EmptyString => if is_space c then EmptyString else String c EmptyString
      | t' => String c t'
      end
  end.

(** [s.strip()] *)
Definition strip (s : string) : string := rstrip (lstrip s).

Definition is_empty (s : string) : bool :=
  match s with EmptyString => true | _ => false end.

(** [s.startswith(p)] *)
Definition startswith (s p : string) : bool := String.prefix p s.

(** [sub in s] *)
Fixpoint contains (sub s : string) : bool :=
  String.prefix sub s
  || match s with
     | EmptyString => false
     | String _ t => contains sub t
     end.

(** [s[:n]] for [n >= 0] *)
Fixpoint take (n : nat) (s : string) : string :=
  match n, s with
  | S n', String c t => String c (take n' t)
  | _, _ => EmptyString
  end.

(** [sep.join(l)] *)
Definition join (sep : string) (l : list string) : string :=
  String.concat sep l.

(** [s.split(sep)] for a one-character separator. *)
Fixpoint split (sep : ascii) (s : string) : list string :=
  match s with
  | EmptyString => [EmptyString]
  | String c t =>
      if Ascii.eqb c sep then EmptyString :: split sep t
      else match split sep t with
           | [] => [String c EmptyString]
           | w :: ws => String c w :: ws
           end
  end.

End PyStr.

(* ===================================================================== *)
(** * Python values, dictionaries and exceptions *)
(* ===================================================================== *)

Inductive PyVal : Type :=
| VNone
| VBool (b : bool)
| VInt (z : Z)
| VFloat (f : float)
| VStr (s : string)
| VList (l : list PyVal)
| VDict (d : list (string * PyVal)).

(** A [dict] with string keys, in insertion order. *)
Definition Dict (A : Type) : Type := list (string * A).

Fixpoint dict_lookup {A} (k : string) (d : Dict A) : option A :=
  match d with
  | [] => None
  | (k', v) :: d' => if String.eqb k k' then Some v else dict_lookup k d'
  end.

(** [d.get(k, default)] *)
Definition dict_get {A} (k : string) (default : A) (d : Dict A) : A :=
  match dict_lookup k d with Some v => v | None => default end.

(** [d[k] = v]: an existing key keeps its place, a new key goes last. *)
Fixpoint dict_set {A} (k : string) (v : A) (d : Dict A) : Dict A :=
  match d with
  | [] => [(k, v)]
  | (k', v') :: d' =>
      if String.eqb k k' then (k, v) :: d' else (k', v') :: dict_set k v d'
  end.

Definition dict_keys {A} (d : Dict A) : list string := map fst d.

(** [bool(v)] *)
Definition truthy (v : PyVal) : bool :=
  match v with
  | VNone => false
  | VBool b => b
  | VInt z => negb (z =? 0)
  | VFloat f => negb (PrimFloat.eqb f 0%float)
  | VStr s => negb (PyStr.is_empty s)
  | VList l => match l with [] => false | _ => true end
  | VDict d => match d with [] => false | _ => true end
  end.

(** [a or b] *)
Definition py_or (a b : PyVal) : PyVal := if truthy a then a else b.

Inductive Exn : Type :=
| AttributeError (what : string)
| KeyError (key : string).

Inductive Res (A : Type) : Type :=
| Ok (a : A)
| Raise (e : Exn).
Arguments Ok {A} a.
Arguments Raise {A} e.

(** [obj.get(k, default)]: only a [dict] has the method. *)
Definition py_get (obj : PyVal) (k : string) (default : PyVal) : Res PyVal :=
  match obj with
  | VDict d => Ok (dict_get k default d)
  | _ => Raise (AttributeError "get")
  end.

(** [l[:n]] with Python's reading of a negative bound. *)
Definition slice_to {A} (n : Z) (l : list A) : list A :=
  if 0 <=? n then firstn (Z.to_nat n) l
  else firstn (length l - Z.to_nat (- n)) l.

(** [l[-n:]] for [n > 0]: the last [n] elements. *)
Definition last_n {A} (n : nat) (l : list A) : list A :=
  skipn (length l - n) l.

(** [list.sort(key=...)]: stable, ascending in the key.  An element that
    comes first in the input stays first among equal keys. *)
Section Sort.
Context {A : Type} (key : A -> Z).

Fixpoint insert_by (x : A) (l : list A) : list A :=
  match l with
  | [] => [x]
  | y :: l' => if key x <=? key y then x :: l else y :: insert_by x l'
  end.

Fixpoint sort_by (l : list A) : list A :=
  match l with
  | [] => []
  | x :: l' => insert_by x (sort_by l')
  end.
End Sort.

(** [list.sort(key=..., reverse=True)]: descending in the key, equal keys
    keep their input order. *)
Definition sort_by_desc {A} (key : A -> Z) (l : list A) : list A :=
  sort_by (fun x => - key x) l.

(* ===================================================================== *)
(** * The outside world *)
(* ===================================================================== *)

(** What [model.generate_content(prompt)] hands back: the [text] attribute
    (absent, [None] or a string) and the candidates, each with the texts of
    its parts (a part may have no text). *)
Record Response : Type := {
  resp_text : option string;
  resp_candidates : option (list (list (option string)))
}.

(** The [try] block of [_run_gemini] either gets a response or raises;
    [Raises msg] carries [str(e)]. *)
Inductive Outcome : Type :=
| Responds (r : Response)
| Raises (msg : string).

Record Platform : Type := {
  (** [json.loads]; [None] when it raises *)
  json_loads : string -> option PyVal;
  (** [str(v)] of a value that is not a string *)
  py_str : PyVal -> string;
  (** the answer to the k-th generation request, for a model and a prompt *)
  generate_content : nat -> string -> string -> Outcome;
  (** [time.time()] at the k-th reading of a clock *)
  time_time : nat -> Z;
  (** [datetime.datetime.now()] and [datetime.utcnow()] at the k-th reading *)
  datetime_now : nat -> Z;
  datetime_utcnow : nat -> Z;
  (** [datetime.isoformat] *)
  isoformat : Z -> string;
  (** the k-th raw draw of the random number generator *)
  random_source : nat -> Z
}.

(** Status of one responder unit in [_UNIT_STATUS]. *)
Record UnitStatus : Type := {
  status : string;
  incident_id : PyVal;
  last_updated : Z
}.

Record World : Type := {
  _gemini_backoff_until : Z;
  _UNIT_STATUS : gmap string UnitStatus;
  (** clock readings taken so far *)
  ticks : nat;
  (** random draws taken so far *)
  draws : nat;
  (** generation requests issued so far, oldest first: (model, prompt) *)
  requests : list (string * string)
}.

Definition set_backoff (t : Z) (w : World) : World :=
  {| _gemini_backoff_until := t; _UNIT_STATUS := _UNIT_STATUS w;
     ticks := ticks w; draws := draws w; requests := requests w |}.

Definition set_unit_status (m : gmap string UnitStatus) (w : World) : World :=
  {| _gemini_backoff_until := _gemini_backoff_until w; _UNIT_STATUS := m;
     ticks := ticks w; draws := draws w; requests := requests w |}.

Definition tick (w : World) : World :=
  {| _gemini_backoff_until := _gemini_backoff_until w;
     _UNIT_STATUS := _UNIT_STATUS w;
     ticks := S (ticks w); draws := draws w; requests := requests w |}.

Definition draw (w : World) : World :=
  {| _gemini_backoff_until := _gemini_backoff_until w;
     _UNIT_STATUS := _UNIT_STATUS w;
     ticks := ticks w; draws := S (draws w); requests := requests w |}.

Definition log_request (model prompt : string) (w : World) : World :=
  {| _gemini_backoff_until := _gemini_backoff_until w;
     _UNIT_STATUS := _UNIT_STATUS w;
     ticks := ticks w; draws := draws w;
     requests := requests w ++ [(model, prompt)] |}.

(* ===================================================================== *)
(** * The state-and-error monad *)
(* ===================================================================== *)

Definition M (A : Type) : Type := World -> Res A * World.

Definition ret {A} (a : A) : M A := fun w => (Ok a, w).

Definition bind {A B} (m : M A) (k : A -> M B) : M B :=
  fun w =>
    match m w with
    | (Ok a, w') => k a w'
    | (Raise e, w') => (Raise e, w')
    end.

Definition lift {A} (r : Res A) : M A := fun w => (r, w).

Definition gets {A} (f : World -> A) : M A := fun w => (Ok (f w), w).

Definition modify (f : World -> World) : M unit := fun w => (Ok tt, f w).

Declare Scope py_scope.
Delimit Scope py_scope with py.
Notation "x <- c ;; k" := (bind c (fun x => k))
  (at level 100, c at next level, right associativity) : py_scope.
Notation "c ;;; k" := (bind c (fun _ => k))
  (at level 100, right associativity) : py_scope.
Local Open Scope py_scope.

(** Bind on plain results, for code that touches no state. *)
Definition rbind {A B} (r : Res A) (k : A -> Res B) : Res B :=
  match r with Ok a => k a | Raise e => Raise e end.
Notation "x <-- c ;; k" := (rbind c (fun x => k))
  (at level 100, c at next level, right associativity) : py_scope.

Section WithPlatform.
Variable P : Platform.

(** [time.time()] *)
Definition read_time : M Z :=
  fun w => (Ok (time_time P (ticks w)), tick w).

(** [datetime.utcnow()] *)
Definition read_utcnow : M Z :=
  fun w => (Ok (datetime_utcnow P (ticks w)), tick w).

(** [datetime.datetime.now()] *)
Definition read_now : M Z :=
  fun w => (Ok (datetime_now P (ticks w)), tick w).

(** [random.randint(a, b)] for [a <= b] *)
Definition randint (a b : Z) : M Z :=
  fun w => (Ok (a + random_source P (draws w) mod (b - a + 1)), draw w).

(** What an f-string prints for [{v}]. *)
Definition fmt (v : PyVal) : string :=
  match v with VStr s => s | _ => py_str P v end.


(* ===================================================================== *)
(** * relief_tools.py *)
(* ===================================================================== *)

(** An entry of [_UNIT_REGISTRY], with its keys [id], [type], [location],
    [capabilities] and [base_eta].  Every entry has a [base_eta], so the
    default 6 of [unit.get("base_eta", 6)] is never taken. *)
Record Unit : Type := {
  u_id : string;
  u_type : string;
  u_location : string;
  u_capabilities : gset string;
  u_base_eta : Z
}.

(** [dict(unit)] with the extra key [eta_minutes]. *)
Record Enriched : Type := {
  base : Unit;
  eta_minutes : Z
}.

Definition _UNIT_REGISTRY : list Unit :=
  [ {| u_id := "Fire-1"; u_type := "fire"; u_location := "Station Alpha";
       u_capabilities := {[ "structure"; "industrial" ]}; u_base_eta := 5 |};
    {| u_id := "Fire-2"; u_type := "fire"; u_location := "Station Bravo";
       u_capabilities := {[ "wildfire"; "structure" ]}; u_base_eta := 7 |};
    {| u_id := "Ambulance-2"; u_type := "ems"; u_location := "Medic Hub";
       u_capabilities := {[ "medical"; "triage" ]}; u_base_eta := 6 |};
    {| u_id := "Rescue-3"; u_type := "rescue"; u_location := "Urban SAR";
       u_capabilities := {[ "collapse"; "water" ]}; u_base_eta := 8 |} ].

Definition _SECTOR_MODIFIERS : Dict Z :=
  [ ("sector 1", 3); ("sector 2", 4); ("sector 3", 5); ("sector 4", 6);
    ("sector 5", 7); ("sector 6", 8); ("sector 7", 4); ("sector 8", 5) ].

(** [_UNIT_STATUS] as the module builds it on import: one clock reading
    per unit, in registry order. *)
Fixpoint initial_status (units : list Unit) (k : nat)
  (acc : gmap string UnitStatus) : gmap string UnitStatus :=
  match units with
  | [] => acc
  | u :: rest =>
      initial_status rest (S k)
        (<[ u_id u := {| status := "available"; incident_id := VNone;
                         last_updated := datetime_utcnow P k |} ]> acc)
  end.

Definition initial_world : World :=
  {| _gemini_backoff_until := 0;
     _UNIT_STATUS := initial_status _UNIT_REGISTRY 0 ∅;
     ticks := length _UNIT_REGISTRY; draws := 0%nat; requests := [] |}.

(** [(value or "unknown").strip().lower()] *)
Definition _normalize (value : PyVal) : Res string :=
  match py_or value (VStr "unknown") with
  | VStr s => Ok (PyStr.lower (PyStr.strip s))
  | _ => Raise (AttributeError "strip")
  end.

Definition _estimate_arrival_minutes (unit : Unit) (location : PyVal) : M Z :=
  sector <- lift (_normalize location) ;;
  let modifier := dict_get sector 6 _SECTOR_MODIFIERS in
  let eta := u_base_eta unit in
  jitter <- randint (-1) 1 ;;
  ret (Z.max 3 (eta + modifier / 2 + jitter)).

Definition _score_unit (unit : Unit) (incident : PyVal) : Res Z :=
  ty <-- py_get incident "type" VNone ;;
  incident_type <-- _normalize ty ;;
  ur <-- py_get incident "urgency" VNone ;;
  urgency <-- _normalize ur ;;
  let score := 0 in
  let score :=
    if negb (PyStr.is_empty incident_type)
       && bool_decide (incident_type ∈ u_capabilities unit)
    then score + 4 else score in
  let score :=
    if PyStr.contains incident_type (u_type unit) then score + 3 else score in
  let score :=
    if String.eqb urgency "critical" || String.eqb urgency "high"
    then score + 2 else score in
  Ok score.

(** The loop of [get_available_units] over the registry. *)
Fixpoint collect_candidates (units : list Unit) (unit_type : PyVal)
  : M (list Enriched) :=
  match units with
  | [] => ret []
  | unit :: rest =>
      entry <- gets (fun w => _UNIT_STATUS w !! u_id unit) ;;
      match entry with
      | None => lift (Raise (KeyError (u_id unit)))
      | Some st =>
          if negb (String.eqb (status st) "available")
          then collect_candidates rest unit_type
          else
            skip <- (if truthy unit_type
                     then wanted <- lift (_normalize unit_type) ;;
                          ret (negb (PyStr.contains wanted (u_type unit)))
                     else ret false) ;;
            if (skip : bool) then collect_candidates rest unit_type
            else
              eta <- _estimate_arrival_minutes unit (VStr (u_location unit)) ;;
              more <- collect_candidates rest unit_type ;;
              ret ({| base := unit; eta_minutes := eta |} :: more)
      end
  end.

(** [limit] is [None] or an [int]. *)
Definition get_available_units (unit_type : PyVal) (limit : option Z)
  : M (list Enriched) :=
  candidates <- collect_candidates _UNIT_REGISTRY unit_type ;;
  let candidates := sort_by eta_minutes candidates in
  match limit with
  | Some n => if negb (n =? 0) then ret (slice_to n candidates)
              else ret candidates
  | None => ret candidates
  end.

(** The loop of [recommend_units_for_incident] that scores the candidates
    and drops the ones that score nothing. *)
Fixpoint score_candidates (units : list Enriched) (incident : PyVal)
  : Res (list (Z * Enriched)) :=
  match units with
  | [] => Ok []
  | unit :: rest =>
      score <-- _score_unit (base unit) incident ;;
      ranked <-- score_candidates rest incident ;;
      if score <=? 0 then Ok ranked else Ok ((score, unit) :: ranked)
  end.

Definition recommend_units_for_incident (incident : PyVal) (limit : Z)
  : M (list Enriched) :=
  units <- get_available_units VNone None ;;
  ranked <- lift (score_candidates units incident) ;;
  let ranked := sort_by_desc fst ranked in
  ret (map snd (slice_to limit ranked)).

Definition generate_incident_brief (incident : PyVal) : Res string :=
  incident_type <-- py_get incident "type" (VStr "Incident") ;;
  location <-- py_get incident "location" (VStr "unknown area") ;;
  d1 <-- py_get incident "details" VNone ;;
  details <-- (if truthy d1 then Ok d1
               else d2 <-- py_get incident "description" VNone ;;
                    Ok (py_or d2 (VStr ""))) ;;
  urgency <-- py_get incident "urgency" (VStr "CRITICAL") ;;
  let extra := if truthy details then " Details: " +:+ fmt details else "" in
  Ok (PyStr.strip (fmt incident_type +:+ " at " +:+ fmt location
                   +:+ " - urgency " +:+ fmt urgency +:+ "." +:+ extra)).

(** The dictionary [plan_relief_response] returns. *)
Record ReliefPlan : Type := {
  rp_summary : string;
  rp_recommendation : string;
  rp_resources : list string;
  rp_resource_summary : string
}.

(** [f"{unit['id']} ({unit['type']}, ETA {unit['eta_minutes']}m)"] *)
Definition describe_unit (unit : Enriched) : string :=
  u_id (base unit) +:+ " (" +:+ u_type (base unit) +:+ ", ETA "
  +:+ fmt (VInt (eta_minutes unit)) +:+ "m)".

Definition plan_relief_response (incident : PyVal) (limit : Z)
  : M ReliefPlan :=
  summary <- lift (generate_incident_brief incident) ;;
  ranked_units <- recommend_units_for_incident incident limit ;;
  location <- lift (py_get incident "location" (VStr "the scene")) ;;
  match ranked_units with
  | first :: _ =>
      ret {| rp_summary := summary;
             rp_recommendation :=
               "Dispatch " +:+ u_id (base first) +:+ " to "
               +:+ fmt location +:+ ".";
             rp_resources := map (fun unit => u_id (base unit)) ranked_units;
             rp_resource_summary :=
               "Primary assignments: "
               +:+ PyStr.join ", " (map describe_unit ranked_units) |}
  | [] =>
      ret {| rp_summary := summary;
             rp_recommendation :=
               "Hold and escalate to manual supervisor; no units free.";
             rp_resources := [];
             rp_resource_summary := "All units busy; advise manual review." |}
  end.

Definition format_display_alert
  (summary recommendation incident urgency : PyVal) : Res string :=
  let incident := py_or incident (VDict []) in
  urgency <-- (if truthy urgency then Ok urgency
               else py_get incident "urgency" (VStr "CRITICAL")) ;;
  location <-- py_get incident "location" (VStr "") ;;
  incident_type <-- py_get incident "type" (VStr "") ;;
  let base := PyStr.strip (fmt urgency +:+ " " +:+ fmt incident_type
                           +:+ " " +:+ fmt location) in
  let tail := py_or recommendation summary in
  let message := PyStr.strip (base +:+ ": " +:+ fmt tail) in
  Ok (if (60 <? String.length message)%nat
      then PyStr.take 57 message +:+ "..." else message).

(** The record [notify_dispatch] returns. *)
Record DispatchRecord : Type := {
  dr_unit_id : string;
  dr_incident_id : PyVal;
  dr_location : PyVal;
  dr_timestamp : string;
  dr_status : string
}.

Definition notify_dispatch (unit_id : string) (incident : PyVal)
  : M DispatchRecord :=
  inc_id <- lift (py_get incident "id" VNone) ;;
  location <- lift (py_get incident "location" VNone) ;;
  stamp <- read_utcnow ;;
  let record := {| dr_unit_id := unit_id; dr_incident_id := inc_id;
                   dr_location := location;
                   dr_timestamp := isoformat P stamp;
                   dr_status := "queued" |} in
  known <- gets (fun w => bool_decide (unit_id ∈ dom (_UNIT_STATUS w))) ;;
  (if (known : bool) then
     inc_id' <- lift (py_get incident "id" VNone) ;;
     updated <- read_utcnow ;;
     modify (fun w => set_unit_status
                        (<[ unit_id := {| status := "assigned";
                                          incident_id := inc_id';
                                          last_updated := updated |} ]>
                           (_UNIT_STATUS w)) w)
   else ret tt) ;;;
  ret record.

Definition release_unit (unit_id : string) : M unit :=
  known <- gets (fun w => bool_decide (unit_id ∈ dom (_UNIT_STATUS w))) ;;
  if (known : bool) then
    updated <- read_utcnow ;;
    modify (fun w => set_unit_status
                       (<[ unit_id := {| status := "available";
                                         incident_id := VNone;
                                         last_updated := updated |} ]>
                          (_UNIT_STATUS w)) w)
  else ret tt.

(* ===================================================================== *)
(** * agents.py: configuration and the resilient invoker *)
(* ===================================================================== *)

(** The module-level constants read from the environment on import. *)
Record Config : Type := {
  GOOGLE_API_KEY : option string;
  USE_GEMINI : bool;
  GEMINI_BACKOFF_SECONDS : Z;
  DISPATCH_MODEL_CHAIN : list string;
  RESOURCE_MODEL_CHAIN : list string;
  SUMMARY_MODEL_CHAIN : list string
}.

(** The environment variables the module reads; the backoff window is
    given after [int()]. *)
Record Environ : Type := {
  env_API_KEY : option string;
  env_USE_GEMINI : option string;
  env_GEMINI_BACKOFF_SECONDS : option Z;
  env_DISPATCH_MODELS : option string;
  env_RESOURCE_MODELS : option string;
  env_SUMMARY_MODELS : option string
}.

Definition _parse_model_chain (value : option string) (default : list string)
  : list string :=
  match value with
  | Some (String _ _ as v) =>
      map PyStr.strip
        (List.filter (fun model => negb (PyStr.is_empty (PyStr.strip model)))
                (PyStr.split "," v))
  | _ => default
  end.

Definition load_config (env : Environ) : Config :=
  {| GOOGLE_API_KEY := env_API_KEY env;
     USE_GEMINI :=
       (let v := PyStr.lower (PyStr.strip
                   (match env_USE_GEMINI env with Some s => s | None => "true" end)) in
        negb (String.eqb v "0" || String.eqb v "false"
              || String.eqb v "no" || String.eqb v "off"));
     GEMINI_BACKOFF_SECONDS :=
       match env_GEMINI_BACKOFF_SECONDS env with Some n => n | None => 45 end;
     DISPATCH_MODEL_CHAIN :=
       _parse_model_chain (env_DISPATCH_MODELS env)
         ["models/gemini-2.5-flash"; "models/gemini-1.5-flash"; "models/gemini-lite"];
     RESOURCE_MODEL_CHAIN :=
       _parse_model_chain (env_RESOURCE_MODELS env)
         ["models/gemini-2.5-pro"; "models/gemini-1.5-pro"; "models/gemini-1.5-flash"];
     SUMMARY_MODEL_CHAIN :=
       _parse_model_chain (env_SUMMARY_MODELS env)
         ["models/gemini-2.5-flash"; "models/gemini-1.5-flash"; "models/gemini-lite"] |}.

Variable cfg : Config.

(** [bool(GOOGLE_API_KEY)] *)
Definition has_api_key : bool :=
  match GOOGLE_API_KEY cfg with
  | Some (String _ _) => true
  | _ => false
  end.

(** The clock is read only when the first two conjuncts hold. *)
Definition _gemini_available : M bool :=
  if has_api_key && USE_GEMINI cfg then
    now <- read_time ;;
    until <- gets _gemini_backoff_until ;;
    ret (until <=? now)
  else ret false.

(** The test of [_trip_gemini_backoff] on the lowered message. *)
Definition is_rate_limit (error_message : string) : bool :=
  let lower_msg := PyStr.lower error_message in
  PyStr.contains "429" lower_msg || PyStr.contains "quota" lower_msg
  || PyStr.contains "rate limit" lower_msg.

(** The window is an [int] and the clock a float; the sum is taken in [Z].
    Python converts the window to a float first and raises [OverflowError]
    when it lies beyond the range of floats: the definition covers the
    windows within that range. *)
Definition _trip_gemini_backoff (error_message : string) : M unit :=
  if is_rate_limit error_message then
    now <- read_time ;;
    modify (set_backoff (now + GEMINI_BACKOFF_SECONDS cfg))
  else ret tt.

(** The text [_run_gemini] extracts from a response: the [text] attribute,
    else the joined part texts of the first candidate, else nothing. *)
Definition response_text (r : Response) : string :=
  let text :=
    match resp_text r with
    | Some (String _ _ as t) => Some t
    | text =>
        match resp_candidates r with
        | Some ((_ :: _) as parts :: _) =>
            Some (String.concat ""
                    (omap (fun part : option string => part) parts))
        | _ => text
        end
    end in
  match text with
  | Some t => t
  | None => ""
  end.

(** The [for] loop of [_run_gemini] and the statement after it.  The result
    is paired with the value [last_error] holds when the function leaves. *)
Fixpoint try_models (prompt : string) (model_chain : list string)
  (last_error : string) : M (string * string) :=
  match model_chain with
  | [] =>
      ret ("[Gemini error: "
           +:+ (if PyStr.is_empty last_error then "unavailable" else last_error)
           +:+ "]", last_error)
  | model_name :: rest =>
      k <- gets (fun w => length (requests w)) ;;
      modify (log_request model_name prompt) ;;;
      match generate_content P k model_name prompt with
      | Responds response =>
          ret (PyStr.strip (response_text response), last_error)
      | Raises e =>
          _trip_gemini_backoff e ;;;
          try_models prompt rest e
      end
  end.

(** [_run_gemini] with the final [last_error] kept next to the result. *)
Definition run_gemini_traced (prompt : string) (model_chain : list string)
  : M (string * string) :=
  available <- _gemini_available ;;
  if (available : bool) then try_models prompt model_chain ""
  else ret ("[Gemini disabled]", "").

Definition _run_gemini (prompt : string) (model_chain : list string)
  : M string :=
  out <- run_gemini_traced prompt model_chain ;;
  ret (fst out).

(* ===================================================================== *)
(** * agents.py: envelope, session, memory *)
(* ===================================================================== *)

(** One record of [MessageEnvelope.trace]: [{"agent": ..., "message": ...}]. *)
Record TraceEntry : Type := {
  agent : string;
  message : PyVal
}.

Record MessageEnvelope : Type := {
  content : Dict PyVal;
  sender : PyVal;
  receiver : PyVal;
  trace : list TraceEntry;
  context : Dict PyVal
}.

(** [MessageEnvelope(content, sender, receiver, trace, context)]; an absent
    or empty argument becomes the empty mapping or list. *)
Definition new_envelope (content : option (Dict PyVal)) (sender receiver : PyVal)
  (trace : option (list TraceEntry)) (context : option (Dict PyVal))
  : MessageEnvelope :=
  {| content := match content with Some c => c | None => [] end;
     sender := sender;
     receiver := receiver;
     trace := match trace with Some t => t | None => [] end;
     context := match context with Some c => c | None => [] end |}.

Definition set_content (c : Dict PyVal) (e : MessageEnvelope) : MessageEnvelope :=
  {| content := c; sender := sender e; receiver := receiver e;
     trace := trace e; context := context e |}.

Definition set_routing (s r : PyVal) (e : MessageEnvelope) : MessageEnvelope :=
  {| content := content e; sender := s; receiver := r;
     trace := trace e; context := context e |}.

Definition add_trace (agent : string) (message : PyVal) (e : MessageEnvelope)
  : MessageEnvelope :=
  {| content := content e; sender := sender e; receiver := receiver e;
     trace := trace e ++ [ {| agent := agent; message := message |} ];
     context := context e |}.

Definition trace_entry_value (t : TraceEntry) : PyVal :=
  VDict [("agent", VStr (agent t)); ("message", message t)].

Definition to_dict (e : MessageEnvelope) : Dict PyVal :=
  [ ("content", VDict (content e));
    ("sender", sender e);
    ("receiver", receiver e);
    ("trace", VList (map trace_entry_value (trace e)));
    ("context", VDict (context e)) ].

Record Session : Type := {
  session_id : string;
  session_history : list (string * PyVal)
}.

Definition add_turn (user_msg : string) (agent_msg : PyVal) (s : Session)
  : Session :=
  {| session_id := session_id s;
     session_history := session_history s ++ [(user_msg, agent_msg)] |}.

(** [if session: session.add_turn(...)] *)
Definition add_turn_opt (user_msg : string) (agent_msg : PyVal)
  (s : option Session) : option Session :=
  match s with
  | Some s' => Some (add_turn user_msg agent_msg s')
  | None => None
  end.

(** [Memory.knowledge] *)
Definition Memory : Type := list PyVal.

Definition add_fact (fact : PyVal) (m : Memory) : Memory := m ++ [fact].

(** The interface the orchestrator relies on: a name and [handle_envelope].
    An agent owns mutable attributes, so handling gives the agent back. *)
Class AgentLike (T : Type) : Type := {
  name_of : T -> string;
  handle_envelope :
    T -> MessageEnvelope -> option Session ->
    M (T * MessageEnvelope * option Session)
}.

(* ===================================================================== *)
(** * agents.py: DecisionAgent *)
(* ===================================================================== *)

Record DecisionAgent : Type := {
  decision_name : string;
  history : list PyVal
}.

Definition new_decision_agent : DecisionAgent :=
  {| decision_name := "Decision-Agent"; history := [] |}.

(** [action in ["SEND", "HOLD"]] *)
Definition is_valid_action (action : PyVal) : bool :=
  match action with
  | VStr a => String.eqb a "SEND" || String.eqb a "HOLD"
  | _ => false
  end.

Definition decision_status (action : PyVal) : string :=
  if is_valid_action action then "success" else "error".

Definition decision_message (action : PyVal) : string :=
  if String.eqb (decision_status action) "success"
  then "Action " +:+ fmt action +:+ " processed"
  else "Unknown action: " +:+ fmt action.

(** The history record both entry points build. *)
Definition decision_entry (action incident_id : PyVal) : M PyVal :=
  let status := decision_status action in
  let message := decision_message action in
  now <- read_now ;;
  ret (VDict [ ("action", action); ("status", VStr status);
               ("message", VStr message); ("incident_id", incident_id);
               ("timestamp", VStr (isoformat P now)) ]).

(** [self.history.append(entry); self.history = self.history[-10:]] *)
Definition record_decision (entry : PyVal) (self : DecisionAgent)
  : DecisionAgent :=
  {| decision_name := decision_name self;
     history := last_n 10 (history self ++ [entry]) |}.

Definition decision_handle_envelope (self : DecisionAgent)
  (envelope : MessageEnvelope) (session : option Session)
  : M (DecisionAgent * MessageEnvelope * option Session) :=
  let content := content envelope in
  let action := dict_get "action" VNone content in
  let incident_id := dict_get "incident_id" VNone content in
  entry <- decision_entry action incident_id ;;
  let self := record_decision entry self in
  let content := dict_set "decision_status" (VStr (decision_status action)) content in
  let content := dict_set "decision_message" (VStr (decision_message action)) content in
  let envelope := add_trace (decision_name self) entry envelope in
  let envelope := set_content content envelope in
  ret (self, envelope, session).

Definition handle_decision (self : DecisionAgent) (action incident_id : PyVal)
  : M (DecisionAgent * PyVal) :=
  entry <- decision_entry action incident_id ;;
  ret (record_decision entry self, entry).

Definition get_history (self : DecisionAgent) : list PyVal := history self.

#[export] Instance DecisionAgent_AgentLike : AgentLike DecisionAgent :=
  {| name_of := decision_name; handle_envelope := decision_handle_envelope |}.

(* ===================================================================== *)
(** * agents.py: SummaryAgent *)
(* ===================================================================== *)

Record SummaryAgent : Type := {
  summary_name : string
}.

Definition nl : string := String (ascii_of_nat 10) EmptyString.

Definition summarize_for_display
  (summary recommendation urgency incident : PyVal) : M string :=
  let prompt :=
    "You are a UI assistant for a tiny dispatch terminal. "
    +:+ "Given this summary: " +:+ fmt summary +:+ nl
    +:+ "and this recommendation: " +:+ fmt recommendation +:+ nl
    +:+ "and this urgency: " +:+ fmt urgency +:+ nl
    +:+ "Generate a concise, plain-language alert (max 60 chars) for a small screen. "
    +:+ "Do not include JSON, just the message." in
  response_text <- _run_gemini prompt (SUMMARY_MODEL_CHAIN cfg) ;;
  if PyStr.startswith response_text "[Gemini"
  then lift (format_display_alert summary recommendation incident urgency)
  else ret (PyStr.strip response_text).

Definition summary_handle_envelope (self : SummaryAgent)
  (envelope : MessageEnvelope) (session : option Session)
  : M (SummaryAgent * MessageEnvelope * option Session) :=
  let content := content envelope in
  let summary := dict_get "summary" (VStr "") content in
  let recommendation := dict_get "recommendation" (VStr "") content in
  let urgency := dict_get "urgency" (VStr "CRITICAL") content in
  let incident := dict_get "incident" (VDict []) content in
  display_summary <- summarize_for_display summary recommendation urgency incident ;;
  let content := dict_set "display_summary" (VStr display_summary) content in
  let envelope :=
    add_trace (summary_name self)
      (VDict [("display_summary", VStr display_summary)]) envelope in
  let envelope := set_content content envelope in
  ret (self, envelope, session).

#[export] Instance SummaryAgent_AgentLike : AgentLike SummaryAgent :=
  {| name_of := summary_name; handle_envelope := summary_handle_envelope |}.

Definition get_summary_agent : SummaryAgent :=
  {| summary_name := "Summary-Agent" |}.

(* ===================================================================== *)
(** * agents.py: DispatchAgent *)
(* ===================================================================== *)

(** [tools] is a list of functions the agent never calls; it is left out. *)
Record DispatchAgent : Type := {
  dispatch_name : string;
  dispatch_memory : Memory
}.

(** The local dictionary [plan] of [_plan_dispatch]. *)
Record Plan : Type := {
  plan_summary : PyVal;
  plan_recommendation : PyVal
}.

Definition dispatch_ask_gemini (prompt : string) : M string :=
  _run_gemini prompt (DISPATCH_MODEL_CHAIN cfg).

(** The [try]/[except] of [_plan_dispatch]: a decoded object gives its two
    fields; a decoding error, or a decoded value without [get], gives the
    raw text twice. *)
Definition parse_plan (llm_response : string) : Plan :=
  match json_loads P llm_response with
  | Some (VDict result) =>
      {| plan_summary := dict_get "summary" (VStr "") result;
         plan_recommendation := dict_get "recommendation" (VStr "") result |}
  | _ =>
      {| plan_summary := VStr llm_response;
         plan_recommendation := VStr llm_response |}
  end.

(** [not plan["summary"] or plan["summary"].startswith("[Gemini")] *)
Definition needs_fallback (summary : PyVal) : Res bool :=
  if negb (truthy summary) then Ok true
  else match summary with
       | VStr s => Ok (PyStr.startswith s "[Gemini")
       | _ => Raise (AttributeError "startswith")
       end.

Definition _plan_dispatch (incident : PyVal) : M Plan :=
  let prompt :=
    "You are a dispatch agent. Given this incident: " +:+ fmt incident +:+ ", "
    +:+ "summarize the situation and recommend the best unit to deploy. "
    +:+ "Respond with a JSON object with 'summary' and 'recommendation'." in
  llm_response <- dispatch_ask_gemini prompt ;;
  let plan := parse_plan llm_response in
  fall <- lift (needs_fallback (plan_summary plan)) ;;
  if (fall : bool) then
    fallback <- plan_relief_response incident 2 ;;
    ret {| plan_summary := VStr (rp_summary fallback);
           plan_recommendation := VStr (rp_recommendation fallback) |}
  else ret plan.

(** When the content has no ["incident"] key the source stores the content
    mapping under its own key, a cyclic reference; the embedding stores the
    mapping as it is at that moment.  No agent writes the keys that are read
    from an incident later on ([type], [location], [urgency], [details],
    [description], [id]), so the two agree on every such read. *)
Definition dispatch_handle_envelope (self : DispatchAgent)
  (envelope : MessageEnvelope) (session : option Session)
  : M (DispatchAgent * MessageEnvelope * option Session) :=
  let incident := dict_get "incident" (VDict (content envelope)) (content envelope) in
  plan <- _plan_dispatch incident ;;
  let self :=
    {| dispatch_name := dispatch_name self;
       dispatch_memory :=
         add_fact (VDict [("incident", incident); ("summary", plan_summary plan)])
                  (dispatch_memory self) |} in
  let session := add_turn_opt (fmt incident) (plan_recommendation plan) session in
  let content := dict_set "incident" incident (content envelope) in
  let content := dict_set "summary" (plan_summary plan) content in
  let content := dict_set "recommendation" (plan_recommendation plan) content in
  let envelope := set_content content envelope in
  let envelope :=
    add_trace (dispatch_name self)
      (VDict [("summary", plan_summary plan);
              ("recommendation", plan_recommendation plan)]) envelope in
  ret (self, envelope, session).

(** [DispatchAgent.handle_incident]: a one-shot envelope around the incident;
    the content comes back. *)
Definition dispatch_handle_incident (self : DispatchAgent) (incident : PyVal)
  (session : option Session) : M (DispatchAgent * Dict PyVal * option Session) :=
  let envelope :=
    new_envelope (Some [("incident", incident)]) (VStr (dispatch_name self))
                 VNone None None in
  r <- dispatch_handle_envelope self envelope session ;;
  let '(self, envelope, session) := r in
  ret (self, content envelope, session).

#[export] Instance DispatchAgent_AgentLike : AgentLike DispatchAgent :=
  {| name_of := dispatch_name; handle_envelope := dispatch_handle_envelope |}.

Definition get_dispatch_agent : DispatchAgent :=
  {| dispatch_name := "ResQ-Agent"; dispatch_memory := [] |}.

(* ===================================================================== *)
(** * agents.py: ResourceAgent *)
(* ===================================================================== *)

Record ResourceAgent : Type := {
  resource_name : string;
  resource_memory : Memory
}.

Definition resource_ask_gemini (prompt : string) : M string :=
  _run_gemini prompt (RESOURCE_MODEL_CHAIN cfg).

(** The [try]/[except] of [ResourceAgent.handle_envelope]:
    [(resources, resource_summary)]. *)
Definition parse_resources (llm_response : string) : PyVal * PyVal :=
  match json_loads P llm_response with
  | Some (VDict result) =>
      (dict_get "resources" (VList []) result,
       dict_get "summary" (VStr "") result)
  | _ => (VList [], VStr llm_response)
  end.

(** [not resources or (isinstance(resources, str)
                       and resources.startswith("[Gemini"))] *)
Definition resources_unusable (resources : PyVal) : bool :=
  negb (truthy resources)
  || match resources with
     | VStr s => PyStr.startswith s "[Gemini"
     | _ => false
     end.

Definition resource_handle_envelope (self : ResourceAgent)
  (envelope : MessageEnvelope) (session : option Session)
  : M (ResourceAgent * MessageEnvelope * option Session) :=
  let incident := dict_get "incident" (VDict (content envelope)) (content envelope) in
  let prompt :=
    "You are a resource allocation agent. Given this incident: "
    +:+ fmt incident +:+ ", "
    +:+ "list the best resources or units to send. "
    +:+ "Respond with a JSON object with a 'resources' list and a 'summary' string." in
  llm_response <- resource_ask_gemini prompt ;;
  let '(resources, resource_summary) := parse_resources llm_response in
  chosen <-
    (if resources_unusable resources then
       fallback <- plan_relief_response incident 2 ;;
       ret (VList (map VStr (rp_resources fallback)),
            VStr (rp_resource_summary fallback))
     else ret (resources, resource_summary)) ;;
  let '(resources, resource_summary) := chosen in
  let self :=
    {| resource_name := resource_name self;
       resource_memory :=
         add_fact (VDict [("incident", incident); ("resources", resources)])
                  (resource_memory self) |} in
  let session := add_turn_opt (fmt incident) resource_summary session in
  let content := dict_set "resources" resources (content envelope) in
  let content := dict_set "resource_summary" resource_summary content in
  let envelope := set_content content envelope in
  let envelope :=
    add_trace (resource_name self)
      (VDict [("resources", resources);
              ("resource_summary", resource_summary)]) envelope in
  ret (self, envelope, session).

(** [ResourceAgent.handle_incident] *)
Definition resource_handle_incident (self : ResourceAgent) (incident : PyVal)
  (session : option Session) : M (ResourceAgent * Dict PyVal * option Session) :=
  let envelope :=
    new_envelope (Some [("incident", incident)]) (VStr (resource_name self))
                 VNone None None in
  r <- resource_handle_envelope self envelope session ;;
  let '(self, envelope, session) := r in
  ret (self, content envelope, session).

#[export] Instance ResourceAgent_AgentLike : AgentLike ResourceAgent :=
  {| name_of := resource_name; handle_envelope := resource_handle_envelope |}.

Definition get_resource_agent : ResourceAgent :=
  {| resource_name := "Resource-Agent"; resource_memory := [] |}.

(* ===================================================================== *)
(** * agents.py: orchestration *)
(* ===================================================================== *)

(** The objects an orchestrator is given. *)
Inductive Agent : Type :=
| ADispatch (a : DispatchAgent)
| AResource (a : ResourceAgent)
| ASummary (a : SummaryAgent)
| ADecision (a : DecisionAgent).

Definition agent_name (a : Agent) : string :=
  match a with
  | ADispatch a => dispatch_name a
  | AResource a => resource_name a
  | ASummary a => summary_name a
  | ADecision a => decision_name a
  end.

Definition agent_handle_envelope (a : Agent) (envelope : MessageEnvelope)
  (session : option Session) : M (Agent * MessageEnvelope * option Session) :=
  match a with
  | ADispatch a =>
      r <- handle_envelope a envelope session ;;
      ret (ADispatch (fst (fst r)), snd (fst r), snd r)
  | AResource a =>
      r <- handle_envelope a envelope session ;;
      ret (AResource (fst (fst r)), snd (fst r), snd r)
  | ASummary a =>
      r <- handle_envelope a envelope session ;;
      ret (ASummary (fst (fst r)), snd (fst r), snd r)
  | ADecision a =>
      r <- handle_envelope a envelope session ;;
      ret (ADecision (fst (fst r)), snd (fst r), snd r)
  end.

#[export] Instance Agent_AgentLike : AgentLike Agent :=
  {| name_of := agent_name; handle_envelope := agent_handle_envelope |}.

(** [A2AOrchestrator.orchestrate]: the agents come back in the same order,
    each with the attributes it has after its turn. *)
Fixpoint orchestrate (agents : list Agent) (envelope : MessageEnvelope)
  (session : option Session)
  : M (list Agent * MessageEnvelope * option Session) :=
  match agents with
  | [] => ret ([], envelope, session)
  | a :: rest =>
      let envelope := set_routing (receiver envelope) (VStr (name_of a)) envelope in
      r <- handle_envelope a envelope session ;;
      let '(a', envelope, session) := r in
      r' <- orchestrate rest envelope session ;;
      let '(rest', envelope, session) := r' in
      ret (a' :: rest', envelope, session)
  end.

(** [MultiAgentSystem.orchestrate] *)
Fixpoint run_agents (agents : list Agent) (envelope : MessageEnvelope)
  (session : option Session)
  : M (list Agent * MessageEnvelope * option Session) :=
  match agents with
  | [] => ret ([], envelope, session)
  | a :: rest =>
      r <- handle_envelope a envelope session ;;
      let '(a', envelope, session) := r in
      r' <- run_agents rest envelope session ;;
      let '(rest', envelope, session) := r' in
      ret (a' :: rest', envelope, session)
  end.

Definition multiagent_orchestrate (agents : list Agent) (incident : PyVal)
  (session : option Session) : M (list Agent * Dict PyVal * option Session) :=
  let envelope :=
    new_envelope (Some [("incident", incident)]) (VStr "user") VNone None None in
  r <- run_agents agents envelope session ;;
  let '(agents', envelope, session) := r in
  ret (agents', content envelope, session).

(** [get_multiagent_system] *)
Definition get_multiagent_system : list Agent :=
  [ ADispatch get_dispatch_agent; AResource get_resource_agent ].

(** [get_a2a_orchestrator]; the decision agent is the process-wide one that
    [get_decision_agent] keeps, passed in with the history it has. *)
Definition get_a2a_orchestrator (decision_agent : DecisionAgent) : list Agent :=
  [ ADispatch get_dispatch_agent; AResource get_resource_agent;
    ASummary get_summary_agent; ADecision decision_agent ].

End WithPlatform.

(* ===================================================================== *)
(** * A reference JSON decoder for the examples *)
(* ===================================================================== *)

(** The theorems below hold for any decoder a platform supplies (with the
    stated assumptions on it).  The concrete scenarios use this decoder of a
    fragment of JSON: objects, arrays, strings with the simple escapes,
    integers, [true], [false], [null].  It rejects everything else. *)
Module Json.

Definition is_ws (c : ascii) : bool :=
  let n := nat_of_ascii c in
  ((n =? 32) || (n =? 9) || (n =? 10) || (n =? 13))%nat.

Fixpoint skip_ws (s : string) : string :=
  match s with
  | String c t => if is_ws c then skip_ws t else s
  | EmptyString => s
  end.

Definition is_digit (c : ascii) : bool :=
  let n := nat_of_ascii c in ((48 <=? n) && (n <=? 57))%nat.

Definition digit_value (c : ascii) : Z := Z.of_nat (nat_of_ascii c) - 48.

(** The digits at the front of [s], as a number, with what follows. *)
Fixpoint digits (acc : Z) (s : string) : Z * string :=
  match s with
  | String c t => if is_digit c then digits (10 * acc + digit_value c) t
                  else (acc, s)
  | EmptyString => (acc, s)
  end.

(** An integer without sign: one digit, or several not starting with 0;
    no fraction and no exponent may follow. *)
Definition unsigned_int (s : string) : option (Z * string) :=
  match s with
  | String c t =>
      if is_digit c then
        let '(n, rest) := digits 0 s in
        let leading_zero :=
          Ascii.eqb c "0" && match t with
                             | String d _ => is_digit d
                             | EmptyString => false
                             end in
        let continues :=
          match rest with
          | String d _ => Ascii.eqb d "." || Ascii.eqb d "e" || Ascii.eqb d "E"
          | EmptyString => false
          end in
        if leading_zero || continues then None else Some (n, rest)
      else None
  | EmptyString => None
  end.

(** The characters of a string after its opening quote, up to the closing
    quote. *)
Fixpoint string_body (s : string) : option (string * string) :=
  match s with
  | EmptyString => None
  | String c t =>
      if Ascii.eqb c "034" then Some (EmptyString, t)
      else if Ascii.eqb c "\" then
        match t with
        | String e t' =>
            let unescaped :=
              if Ascii.eqb e "034" then Some "034"%char
              else if Ascii.eqb e "\" then Some "\"%char
              else if Ascii.eqb e "/" then Some "/"%char
              else if Ascii.eqb e "b" then Some (ascii_of_nat 8)
              else if Ascii.eqb e "f" then Some (ascii_of_nat 12)
              else if Ascii.eqb e "n" then Some (ascii_of_nat 10)
              else if Ascii.eqb e "r" then Some (ascii_of_nat 13)
              else if Ascii.eqb e "t" then Some (ascii_of_nat 9)
              else None in
            match unescaped, string_body t' with
            | Some u, Some (body, rest) => Some (String u body, rest)
            | _, _ => None
            end
        | EmptyString => None
        end
      else if (nat_of_ascii c <? 32)%nat then None
      else match string_body t with
           | Some (body, rest) => Some (String c body, rest)
           | None => None
           end
  end.

Fixpoint drop (n : nat) (s : string) : string :=
  match n, s with
  | S n', String _ t => drop n' t
  | _, _ => s
  end.

(** One value at the front of [s] (after white space), with what follows;
    the elements of an array after its bracket; the members of an object
    after its brace.  [fuel] bounds the calls. *)
Fixpoint value (fuel : nat) (s : string) : option (PyVal * string) :=
  match fuel with
  | O => None
  | S fuel' =>
      match skip_ws s with
      | EmptyString => None
      | String c t =>
          if Ascii.eqb c "{" then
            match skip_ws t with
            | String c' t' =>
                if Ascii.eqb c' "}" then Some (VDict [], t')
                else members fuel' [] t
            | EmptyString => None
            end
          else if Ascii.eqb c "[" then
            match skip_ws t with
            | String c' t' =>
                if Ascii.eqb c' "]" then Some (VList [], t')
                else elements fuel' [] t
            | EmptyString => None
            end
          else if Ascii.eqb c "034" then
            match string_body t with
            | Some (body, rest) => Some (VStr body, rest)
            | None => None
            end
          else if Ascii.eqb c "-" then
            match unsigned_int t with
            | Some (n, rest) => Some (VInt (- n), rest)
            | None => None
            end
          else if is_digit c then
            match unsigned_int (String c t) with
            | Some (n, rest) => Some (VInt n, rest)
            | None => None
            end
          else if String.prefix "true" (String c t)
          then Some (VBool true, drop 4 (String c t))
          else if String.prefix "false" (String c t)
          then Some (VBool false, drop 5 (String c t))
          else if String.prefix "null" (String c t)
          then Some (VNone, drop 4 (String c t))
          else None
      end
  end

with elements (fuel : nat) (acc : list PyVal) (s : string)
  : option (PyVal * string) :=
  match fuel with
  | O => None
  | S fuel' =>
      match value fuel' s with
      | Some (v, rest) =>
          match skip_ws rest with
          | String c t =>
              if Ascii.eqb c "," then elements fuel' (acc ++ [v]) t
              else if Ascii.eqb c "]" then Some (VList (acc ++ [v]), t)
              else None
          | EmptyString => None
          end
      | None => None
      end
  end

with members (fuel : nat) (acc : Dict PyVal) (s : string)
  : option (PyVal * string) :=
  match fuel with
  | O => None
  | S fuel' =>
      match skip_ws s with
      | String q t =>
          if Ascii.eqb q "034" then
            match string_body t with
            | Some (k, rest) =>
                match skip_ws rest with
                | String c t' =>
                    if Ascii.eqb c ":" then
                      match value fuel' t' with
                      | Some (v, rest') =>
                          match skip_ws rest' with
                          | String c' t'' =>
                              if Ascii.eqb c' ","
                              then members fuel' (dict_set k v acc) t''
                              else if Ascii.eqb c' "}"
                              then Some (VDict (dict_set k v acc), t'')
                              else None
                          | EmptyString => None
                          end
                      | None => None
                      end
                    else None
                | EmptyString => None
                end
            | None => None
            end
          else None
      | EmptyString => None
      end
  end.

(** The whole text is one value, white space around it allowed.  Every
    call but the first follows a character of the text, so twice its
    length is fuel enough. *)
Definition loads (s : string) : option PyVal :=
  match value (2 * String.length s + 2) s with
  | Some (v, rest) =>
      match skip_ws rest with
      | EmptyString => Some v
      | String _ _ => None
      end
  | None => None
  end.

End Json.

(* ===================================================================== *)
(** * state.py *)
(* ===================================================================== *)

(** [d.setdefault(k, v)]: a key the mapping has keeps its value. *)
Definition dict_setdefault {A} (k : string) (v : A) (d : Dict A) : Dict A :=
  match dict_lookup k d with
  | Some _ => d
  | None => dict_set k v d
  end.

(** [Session(session_id)]: a falsy id is replaced by [fresh_id], the text
    [str(uuid.uuid4())] yields when the constructor evaluates it. *)
Definition new_session (fresh_id : string) (session_id : option string)
  : Session :=
  {| session_id := match session_id with
                   | Some (String _ _ as s) => s
                   | _ => fresh_id
                   end;
     session_history := [] |}.

(** [SystemState.metrics], a mapping with the two keys ["incidents"] and
    ["decisions"]. *)
Record Metrics : Type := {
  metric_incidents : Z;
  metric_decisions : Z
}.

Record SystemState : Type := {
  active_incidents : list (Dict PyVal);
  memory : Memory;
  sessions : gmap string Session;
  metrics : Metrics
}.

(** [SystemState()] *)
Definition new_system_state : SystemState :=
  {| active_incidents := []; memory := []; sessions := ∅;
     metrics := {| metric_incidents := 0; metric_decisions := 0 |} |}.

(** [i.get('id') != incident_id] for an [incident_id] that is a string: a
    value of another type is never equal to it. *)
Definition id_differs (incident_id : string) (i : Dict PyVal) : bool :=
  match dict_get "id" VNone i with
  | VStr s => negb (String.eqb s incident_id)
  | _ => true
  end.

Section WithClock.
Variable P : Platform.

(** [SystemState.add_incident] for an incident that is a mapping.  Both
    defaults are evaluated before [setdefault] looks at the key: the clock
    is read, and [fresh_id] stands for what [str(uuid.uuid4())] yields in
    this call.  The record and the new state come back.  The record is the
    object the list of active incidents holds; nothing in the repository
    changes an incident record after it was made, so it is kept by value. *)
Definition add_incident (fresh_id : string) (incident : Dict PyVal)
  (self : SystemState) : M (Dict PyVal * SystemState) :=
  let record := incident in
  let record := dict_setdefault "id" (VStr fresh_id) record in
  stamp <- read_utcnow P ;;
  let record := dict_setdefault "timestamp" (VStr (isoformat P stamp)) record in
  ret (record,
       {| active_incidents := active_incidents self ++ [record];
          memory := memory self;
          sessions := sessions self;
          metrics :=
            {| metric_incidents := metric_incidents (metrics self) + 1;
               metric_decisions := metric_decisions (metrics self) |} |}).

End WithClock.

(** [SystemState.resolve_incident] for an id that is a string. *)
Definition resolve_incident (incident_id : string) (self : SystemState)
  : SystemState :=
  {| active_incidents :=
       List.filter (id_differs incident_id) (active_incidents self);
     memory := memory self;
     sessions := sessions self;
     metrics := metrics self |}.

(** [SystemState.get_or_create_session] for a [session_id] argument that is
    [None] or a string, here [wanted]; [fresh_id] is what
    [str(uuid.uuid4())] yields if the session has to be made without an id.
    The session handed back is the object the registry holds: an agent that
    adds a turn to it changes the registry's session as well.  Sessions are
    kept by value here, so a caller that lets agents work on the session
    stores what comes back under the same id. *)
Definition get_or_create_session (fresh_id : string)
  (wanted : option string) (self : SystemState) : Session * SystemState :=
  let found :=
    match wanted with
    | Some (String _ _ as s) => sessions self !! s
    | _ => None
    end in
  match found with
  | Some session => (session, self)
  | None =>
      let session := new_session fresh_id wanted in
      (session,
       {| active_incidents := active_incidents self;
          memory := memory self;
          sessions := <[ session_id session := session ]> (sessions self);
          metrics := metrics self |})
  end.

(* ===================================================================== *)
(** * agents.py: the envelope as an object graph *)
(* ===================================================================== *)

(** [MessageEnvelope.to_dict] hands out the envelope's own [content],
    [trace] and [context] objects, and [DispatchAgent.handle_envelope] can
    store the content mapping inside itself.  A [PyVal] is a tree and
    cannot hold itself, so what depends on the identity of these objects is
    asked of the model below: the mappings and lists of an envelope live in
    a heap and are referred to by address. *)
Module Live.

Definition Addr : Type := nat.

(** A value is plain data, a tree that no one else holds a part of, or a
    reference to an object of the heap. *)
Inductive Value : Type :=
| Plain (v : PyVal)
| Ref (a : Addr).

Inductive Object : Type :=
| DictObject (entries : Dict Value)
| ListObject (items : list Value).

Abbreviation Heap := (list Object).

(** A new object gets the next address. *)
Definition alloc (o : Object) (h : Heap) : Addr * Heap :=
  (length h, h ++ [o]).

(** The attributes of a [MessageEnvelope]: [content], [trace] and [context]
    are references. *)
Record MessageEnvelope : Type := {
  content : Addr;
  sender : PyVal;
  receiver : PyVal;
  trace : Addr;
  context : Addr
}.

(** [self.trace.append({"agent": agent, "message": message})] *)
Definition add_trace (agent : string) (message : PyVal)
  (self : MessageEnvelope) (h : Heap) : Heap :=
  match h !! trace self with
  | Some (ListObject items) =>
      <[ trace self :=
           ListObject
             (items ++ [Plain (VDict [("agent", VStr agent); ("message", message)])]) ]> h
  | _ => h
  end.

(** [to_dict] builds a new mapping whose values are the attributes
    themselves: no copy is made of the content, the trace or the context. *)
Definition to_dict (self : MessageEnvelope) (h : Heap) : Addr * Heap :=
  alloc (DictObject [ ("content", Ref (content self));
                      ("sender", Plain (sender self));
                      ("receiver", Plain (receiver self));
                      ("trace", Ref (trace self));
                      ("context", Ref (context self)) ]) h.

(** What [DispatchAgent.handle_envelope] does to the envelope, lines 231 and
    237 to 240, for the plan it has settled on: the incident is the
    content's ["incident"], or the content mapping itself when that key is
    absent, and it is stored under ["incident"]. *)
Definition dispatch_handle_envelope_writes (name : string) (plan : Plan)
  (envelope : MessageEnvelope) (h : Heap) : Heap :=
  match h !! content envelope with
  | Some (DictObject entries) =>
      let incident := dict_get "incident" (Ref (content envelope)) entries in
      let entries := dict_set "incident" incident entries in
      let entries := dict_set "summary" (Plain (plan_summary plan)) entries in
      let entries :=
        dict_set "recommendation" (Plain (plan_recommendation plan)) entries in
      let h := <[ content envelope := DictObject entries ]> h in
      add_trace name
        (VDict [("summary", plan_summary plan);
                ("recommendation", plan_recommendation plan)]) envelope h
  | _ => h
  end.

(** The ways a serialization can end: with a document, with the error
    "Circular reference detected", or, in the model only, at an address
    that holds nothing or with the fuel used up. *)
Inductive Dump (A : Type) : Type :=
| Document (doc : A)
| CircularReference
| Dangling
| OutOfFuel.

Arguments Document {A} doc.
Arguments CircularReference {A}.
Arguments Dangling {A}.
Arguments OutOfFuel {A}.

Definition dump_map {A B} (f : A -> B) (d : Dump A) : Dump B :=
  match d with
  | Document doc => Document (f doc)
  | CircularReference => CircularReference
  | Dangling => Dangling
  | OutOfFuel => OutOfFuel
  end.

Definition is_document {A} (d : Dump A) : bool :=
  match d with
  | Document _ => true
  | _ => false
  end.

(** The parts of a container are serialized in order; the first failure is
    the failure of the whole. *)
Fixpoint collect {A} (parts : list (Dump A)) : Dump (list A) :=
  match parts with
  | [] => Document []
  | Document doc :: rest => dump_map (cons doc) (collect rest)
  | CircularReference :: _ => CircularReference
  | Dangling :: _ => Dangling
  | OutOfFuel :: _ => OutOfFuel
  end.

(** [json.dumps] with its default check for circular references: the
    containers that are being serialized are on [markers], and a container
    that is met again while it is there is a circular reference.  Plain
    data is its own document. *)
Fixpoint dumps (fuel : nat) (h : Heap) (markers : list Addr) (v : Value)
  : Dump PyVal :=
  match v with
  | Plain doc => Document doc
  | Ref a =>
      if bool_decide (a ∈ markers) then CircularReference
      else
        match fuel with
        | O => OutOfFuel
        | S fuel =>
            match h !! a with
            | Some (DictObject entries) =>
                dump_map VDict
                  (collect
                     (map (fun kv =>
                             dump_map (pair (fst kv))
                               (dumps fuel h (a :: markers) (snd kv)))
                          entries))
            | Some (ListObject items) =>
                dump_map VList
                  (collect (map (dumps fuel h (a :: markers)) items))
            | None => Dangling
            end
        end
  end.

(** The values an object holds. *)
Definition values_of (o : Object) : list Value :=
  match o with
  | DictObject entries => map snd entries
  | ListObject items => items
  end.

End Live.

(** The value serializes: with enough fuel [json.dumps] yields a document. *)
Definition serializable (h : Live.Heap) (v : Live.Value) : Prop :=
  exists fuel doc, Live.dumps fuel h [] v = Live.Document doc.

(** The value does not serialize, however much fuel there is. *)
Definition unserializable (h : Live.Heap) (v : Live.Value) : Prop :=
  forall fuel, Live.is_document (Live.dumps fuel h [] v) = false.

(** The heap has no cycle and no dangling reference: every object refers
    only to objects that exist and have a smaller [rank]. *)
Definition acyclic_by (rank : Live.Addr -> nat) (h : Live.Heap) : Prop :=
  forall a o b,
    h !! a = Some o -> In (Live.Ref b) (Live.values_of o) ->
    (rank b < rank a)%nat /\ is_Some (h !! b).

(** The envelope's three containers exist and are of the right kind. *)
Definition well_formed (self : Live.MessageEnvelope) (h : Live.Heap) : Prop :=
  (exists entries, h !! Live.content self = Some (Live.DictObject entries))
  /\ (exists items, h !! Live.trace self = Some (Live.ListObject items))
  /\ (exists entries, h !! Live.context self = Some (Live.DictObject entries)).

(** A mapping of plain values as a heap object holds it. *)
Definition plain_entries (d : Dict PyVal) : Dict Live.Value :=
  map (fun kv => (fst kv, Live.Plain (snd kv))) d.

(** The live envelope a tree-shaped envelope stands for: its content, its
    trace and its context are three objects of their own, at the addresses
    0, 1 and 2, that hold plain data. *)
Definition store (e : MessageEnvelope) : Live.MessageEnvelope * Live.Heap :=
  ({| Live.content := 0%nat; Live.sender := sender e;
      Live.receiver := receiver e; Live.trace := 1%nat;
      Live.context := 2%nat |},
   [ Live.DictObject (plain_entries (content e));
     Live.ListObject (map (fun t => Live.Plain (trace_entry_value t)) (trace e));
     Live.DictObject (plain_entries (context e)) ]).

(** The snapshot of a live envelope: the address [to_dict] returns, and the
    heap it leaves. *)
Definition snapshot (self : Live.MessageEnvelope) (h : Live.Heap) : Live.Value :=
  Live.Ref (fst (Live.to_dict self h)).

Definition snapshot_heap (self : Live.MessageEnvelope) (h : Live.Heap)
  : Live.Heap :=
  snd (Live.to_dict self h).

(** The envelope [server.py] builds for a decision, lines 87 to 94: its
    content has no ["incident"] key. *)
Definition decision_envelope : MessageEnvelope :=
  new_envelope (Some [("action", VStr "SEND"); ("incident_id", VNone)])
    (VStr "user") VNone None None.

(** The plan the Dispatch agent settles on for the fire incident when the
    backend is out of reach. *)
Definition fire_plan : Plan :=
  {| plan_summary := VStr "Fire at Sector 7 - urgency CRITICAL.";
     plan_recommendation := VStr "Dispatch Fire-1 to Sector 7." |}.

(* ===================================================================== *)
(** * Vocabulary of the statements *)
(* ===================================================================== *)

(** Some character of [s] is not white space. *)
Fixpoint visible (s : string) : bool :=
  match s with
  | EmptyString => false
  | String c t => negb (PyStr.is_space c) || visible t
  end.

(** The order a list sorted on [key] is in. *)
Definition key_le {A} (key : A -> Z) (x y : A) : Prop := key x <= key y.

(** The elements of [l] whose key is [k], in the order they have in [l]. *)
Definition with_key {A} (key : A -> Z) (k : Z) (l : list A) : list A :=
  List.filter (fun y => key y =? k) l.

(** A value [_normalize] accepts: a string, or something falsy. *)
Definition textual (v : PyVal) : bool :=
  match v with
  | VStr _ => true
  | _ => negb (truthy v)
  end.

(** Every unit of the registry has an entry in [_UNIT_STATUS]. *)
Definition tracked (w : World) : Prop :=
  Forall (fun u => is_Some (_UNIT_STATUS w !! u_id u)) _UNIT_REGISTRY.

(** The unit's status is ["available"]. *)
Definition is_available (w : World) (u : Unit) : bool :=
  match _UNIT_STATUS w !! u_id u with
  | Some st => String.eqb (status st) "available"
  | None => false
  end.

(** The type filter of [get_available_units]. *)
Definition type_wanted (unit_type : PyVal) (u : Unit) : bool :=
  if truthy unit_type
  then match _normalize unit_type with
       | Ok wanted => PyStr.contains wanted (u_type u)
       | Raise _ => false
       end
  else true.

(** The arrival estimate for a sector modifier and a jitter. *)
Definition eta_formula (base_eta modifier jitter : Z) : Z :=
  Z.max 3 (base_eta + modifier / 2 + jitter).

(** The modifier of a normalized location, 6 when the table lacks it. *)
Definition sector_modifier (sector : string) : Z :=
  dict_get sector 6 _SECTOR_MODIFIERS.

(** The score of a unit for a normalized incident type and urgency:
    4 for a capability, 3 for a type match, 2 for a pressing urgency. *)
Definition unit_score (incident_type urgency : string) (u : Unit) : Z :=
  (if bool_decide (incident_type ∈ u_capabilities u) then 4 else 0)
  + (if PyStr.contains incident_type (u_type u) then 3 else 0)
  + (if String.eqb urgency "critical" || String.eqb urgency "high"
     then 2 else 0).

(** The state the planner leaves alone. *)
Definition same_globals (w w' : World) : Prop :=
  _UNIT_STATUS w' = _UNIT_STATUS w
  /\ _gemini_backoff_until w' = _gemini_backoff_until w
  /\ requests w' = requests w
  /\ ticks w' = ticks w.

(** What [_normalize] makes of a string. *)
Definition normalize_text (s : string) : string :=
  PyStr.lower (PyStr.strip (if PyStr.is_empty s then "unknown" else s)).

(** The jitter [random.randint(-1, 1)] yields at the k-th draw. *)
Definition jitter_at (P : Platform) (k : nat) : Z :=
  -1 + random_source P k mod 3.

(** The estimate every enriched unit carries. *)
Definition eta_explained (c : Enriched) : Prop :=
  exists jitter, -1 <= jitter <= 1
    /\ eta_minutes c
       = eta_formula (u_base_eta (base c))
           (sector_modifier (normalize_text (u_location (base c)))) jitter.

(** The estimates of [units], each for its own station: the first with the
    jitter of draw number [k], the second with that of draw number [k + 1],
    and so on. *)
Fixpoint estimates_from (P : Platform) (k : nat) (units : list Unit)
  : list Enriched :=
  match units with
  | [] => []
  | u :: rest =>
      {| base := u;
         eta_minutes :=
           eta_formula (u_base_eta u)
             (sector_modifier (normalize_text (u_location u)))
             (jitter_at P k) |}
      :: estimates_from P (S k) rest
  end.

(** [candidates[:limit]] under [if limit:]. *)
Definition apply_limit {A} (limit : option Z) (l : list A) : list A :=
  match limit with
  | Some n => if n =? 0 then l else slice_to n l
  | None => l
  end.

(** The score of an enriched unit. *)
Definition score_of (incident_type urgency : string) (c : Enriched) : Z :=
  unit_score incident_type urgency (base c).

(** The candidates that score above zero, in their order. *)
Definition scoring (incident_type urgency : string) (cands : list Enriched)
  : list Enriched :=
  List.filter (fun c => 0 <? score_of incident_type urgency c) cands.

(** Larger scores first. *)
Definition score_ge (incident_type urgency : string) (a b : Enriched) : Prop :=
  score_of incident_type urgency b <= score_of incident_type urgency a.

(** The two fields the planner normalizes are strings or falsy. *)
Definition planner_ready (d : Dict PyVal) : Prop :=
  textual (dict_get "type" VNone d) = true
  /\ textual (dict_get "urgency" VNone d) = true.

(** The entry [notify_dispatch] writes for a unit. *)
Definition assigned_to (incident_id : PyVal) (stamp : Z) : UnitStatus :=
  {| status := "assigned"; incident_id := incident_id; last_updated := stamp |}.

(** The requests numbered [k], [k+1], ... for [models] raise, with the
    messages [errs]. *)
Fixpoint all_raise (P : Platform) (k : nat) (prompt : string)
  (models errs : list string) : Prop :=
  match models, errs with
  | [], [] => True
  | m :: ms, e :: es =>
      generate_content P k m prompt = Raises e
      /\ all_raise P (S k) prompt ms es
  | _, _ => False
  end.

(** The text [_run_gemini] returns when every model failed. *)
Definition error_sentinel (last_error : string) : string :=
  "[Gemini error: "
  +:+ (if PyStr.is_empty last_error then "unavailable" else last_error)
  +:+ "]".

(** The requests a chain of models adds to the log. *)
Definition requests_for (prompt : string) (models : list string)
  : list (string * string) :=
  map (fun m => (m, prompt)) models.

(** The world after a request to [model] raised [e]: the request is
    logged, and a rate-limit message arms the backoff. *)
Definition after_failure (P : Platform) (cfg : Config) (model prompt e : string)
  (w : World) : World :=
  let w1 := log_request model prompt w in
  if is_rate_limit e
  then set_backoff (time_time P (ticks w1) + GEMINI_BACKOFF_SECONDS cfg) (tick w1)
  else w1.

(** The gate of the invoker, read off the configuration and the world. *)
Definition gate_open (P : Platform) (cfg : Config) (w : World) : Prop :=
  has_api_key cfg = true /\ USE_GEMINI cfg = true
  /\ _gemini_backoff_until w <= time_time P (ticks w).

Definition gate_closed (P : Platform) (cfg : Config) (w : World) : Prop :=
  has_api_key cfg = false \/ USE_GEMINI cfg = false
  \/ time_time P (ticks w) < _gemini_backoff_until w.

(** The text a request yields, when it yields a response. *)
Definition response_text_of (o : Outcome) : option string :=
  match o with
  | Responds r => Some (response_text r)
  | Raises _ => None
  end.

(** The three kinds of text the invoker can return. *)
Definition invoker_text (P : Platform) (text : string) : Prop :=
  text = "[Gemini disabled]"
  \/ (exists e, text = error_sentinel e)
  \/ (exists k m p r, generate_content P k m p = Responds r
                      /\ text = PyStr.strip (response_text r)).

(** [text] is the trimmed text of the response to the last request on the
    log of [w]. *)
Definition answered_last (P : Platform) (w : World) (text : string) : Prop :=
  exists m p r earlier,
    requests w = earlier ++ [(m, p)]
    /\ generate_content P (length earlier) m p = Responds r
    /\ text = PyStr.strip (response_text r).

(** The decoded response when it is a JSON object. *)
Definition decoded_object (P : Platform) (text : string) : option (Dict PyVal) :=
  match json_loads P text with
  | Some (VDict obj) => Some obj
  | _ => None
  end.

(** The prompt [_plan_dispatch] builds for an incident. *)
Definition dispatch_prompt (P : Platform) (incident : PyVal) : string :=
  "You are a dispatch agent. Given this incident: " +:+ fmt P incident +:+ ", "
  +:+ "summarize the situation and recommend the best unit to deploy. "
  +:+ "Respond with a JSON object with 'summary' and 'recommendation'.".

(** The plan the agent keeps when it falls back on the planner. *)
Definition plan_of_fallback (fallback : ReliefPlan) : Plan :=
  {| plan_summary := VStr (rp_summary fallback);
     plan_recommendation := VStr (rp_recommendation fallback) |}.

(** The decoder rejects the invoker's own sentinels. *)
Definition rejects_sentinels (P : Platform) : Prop :=
  forall s, json_loads P ("[Gemini" +:+ s) = None.

(** No answer of the backend decodes: each request raises, or yields a
    text that, trimmed, is not JSON. *)
Definition unusable_backend (P : Platform) : Prop :=
  forall k m p r,
    generate_content P k m p = Responds r ->
    json_loads P (PyStr.strip (response_text r)) = None.

(** When a text the invoker returns decodes to an object, the object's
    summary is a string or falsy. *)
Definition summaries_textual (P : Platform) : Prop :=
  forall text obj,
    invoker_text P text ->
    decoded_object P text = Some obj ->
    textual (dict_get "summary" (VStr "") obj) = true.

(** An envelope whose content is just the incident. *)
Definition seeded (incident : PyVal) : MessageEnvelope :=
  new_envelope (Some [("incident", incident)]) (VStr "user") VNone None None.

(** The content has a non-empty string under [k]. *)
Definition has_text (k : string) (c : Dict PyVal) : Prop :=
  exists s, dict_lookup k c = Some (VStr s) /\ s <> EmptyString.

(** The three agents of the fallback guarantee. *)
Definition fallback_agents : list Agent :=
  [ ADispatch get_dispatch_agent; AResource get_resource_agent;
    ASummary get_summary_agent ].

(** The names the trace gains, one per agent, in order. *)
Definition names_of (agents : list Agent) : list string :=
  map agent_name agents.

(** The incident an agent works on: the content's ["incident"], or the
    whole content when that key is absent. *)
Definition incident_of (e : MessageEnvelope) : PyVal :=
  dict_get "incident" (VDict (content e)) (content e).

(** [e'] is [e] with one more trace entry, by [name], the routing and the
    context untouched. *)
Definition appends_own_entry (name : string) (e e' : MessageEnvelope) : Prop :=
  (exists msg, trace e' = trace e ++ [ {| agent := name; message := msg |} ])
  /\ sender e' = sender e /\ receiver e' = receiver e
  /\ context e' = context e.

(** One submission of a decision, through either entry point. *)
Inductive Submission : Type :=
| ViaEnvelope (envelope : MessageEnvelope) (session : option Session)
| ViaDecision (action incident_id : PyVal).

Definition submitted_action (s : Submission) : PyVal :=
  match s with
  | ViaEnvelope e _ => dict_get "action" VNone (content e)
  | ViaDecision a _ => a
  end.

Definition submitted_incident (s : Submission) : PyVal :=
  match s with
  | ViaEnvelope e _ => dict_get "incident_id" VNone (content e)
  | ViaDecision _ i => i
  end.

Definition submit (P : Platform) (self : DecisionAgent) (s : Submission)
  : M DecisionAgent :=
  match s with
  | ViaEnvelope e session =>
      r <- decision_handle_envelope P self e session ;;
      ret (fst (fst r))
  | ViaDecision a i =>
      r <- handle_decision P self a i ;;
      ret (fst r)
  end.

Fixpoint run_submissions (P : Platform) (self : DecisionAgent)
  (subs : list Submission) : M DecisionAgent :=
  match subs with
  | [] => ret self
  | s :: rest =>
      self' <- submit P self s ;;
      run_submissions P self' rest
  end.

(** The history record of a decision taken at clock reading [k]. *)
Definition entry_at (P : Platform) (action incident_id : PyVal) (k : nat) : PyVal :=
  VDict [ ("action", action); ("status", VStr (decision_status action));
          ("message", VStr (decision_message P action));
          ("incident_id", incident_id);
          ("timestamp", VStr (isoformat P (datetime_now P k))) ].

(** The records of a run of submissions that starts at clock reading [k],
    in arrival order. *)
Fixpoint entries_from (P : Platform) (k : nat) (subs : list Submission)
  : list PyVal :=
  match subs with
  | [] => []
  | s :: rest =>
      entry_at P (submitted_action s) (submitted_incident s) k
      :: entries_from P (S k) rest
  end.

(* ===================================================================== *)
(** * Statements in the specification's words *)
(* ===================================================================== *)

(** The ranking with ties in registry order: the available units of the
    registry, in registry order, scored, the ones above zero sorted by
    score, largest first, equal scores keeping their order. *)
Definition ranked_in_registry_order (w : World) (incident_type urgency : string)
  (limit : nat) : list Unit :=
  firstn limit
    (sort_by_desc (unit_score incident_type urgency)
       (List.filter (fun u => 0 <? unit_score incident_type urgency u)
          (List.filter (is_available w) _UNIT_REGISTRY))).

(** The fallback guarantee on the final content, display text capped. *)
Definition guaranteed_content (c : Dict PyVal) : Prop :=
  has_text "summary" c /\ has_text "recommendation" c
  /\ (exists l, dict_lookup "resources" c = Some (VList l))
  /\ has_text "resource_summary" c
  /\ (exists ds, dict_lookup "display_summary" c = Some (VStr ds)
                 /\ (String.length ds <= 60)%nat).

(** A snapshot with exactly four fields. *)
Definition has_four_fields (snapshot : Dict PyVal) : Prop :=
  length (dict_keys snapshot) = 4%nat.

(* ===================================================================== *)
(** * Scenarios *)
(* ===================================================================== *)

(** [str()] for the scenarios: numbers, [None] and booleans as Python
    prints them, containers abridged. *)
Definition show (v : PyVal) : string :=
  match v with
  | VNone => "None"
  | VBool true => "True"
  | VBool false => "False"
  | VInt z => pretty z
  | VFloat _ => "<float>"
  | VStr s => s
  | VList _ => "[...]"
  | VDict _ => "{...}"
  end.

(** A platform with the reference decoder, a clock that advances one unit
    per reading from 1000, and scripted backend answers and random draws. *)
Definition scripted (reply : nat -> string -> string -> Outcome)
  (noise : nat -> Z) : Platform :=
  {| json_loads := Json.loads;
     py_str := show;
     generate_content := reply;
     time_time := fun k => 1000 + Z.of_nat k;
     datetime_now := fun k => 1000 + Z.of_nat k;
     datetime_utcnow := fun k => 1000 + Z.of_nat k;
     isoformat := fun t => "t" +:+ pretty t;
     random_source := noise |}.

Definition answer (text : string) : Outcome :=
  Responds {| resp_text := Some text; resp_candidates := None |}.

(** Every request fails with a server error; every jitter is 0. *)
Definition offline : Platform :=
  scripted (fun _ _ _ => Raises "503 service unavailable") (fun _ => 1).

(** Every request fails; the random source counts up from 0, so the
    jitters run -1, 0, 1, -1, ... *)
Definition jittery : Platform :=
  scripted (fun _ _ _ => Raises "503 service unavailable") (fun k => Z.of_nat k).

Definition prose_reply : string :=
  "Structure fire at Sector 7; Fire-1 and Fire-2 are already on their way.".

(** Every request is answered with the same sentence of prose. *)
Definition chatty : Platform :=
  scripted (fun _ _ _ => answer prose_reply) (fun _ => 1).

Definition quote : string := String "034" EmptyString.

(** The object [{"summary": "Warehouse fire, two floors"}]. *)
Definition summary_only_reply : string :=
  "{" +:+ quote +:+ "summary" +:+ quote +:+ ": "
  +:+ quote +:+ "Warehouse fire, two floors" +:+ quote +:+ "}".

(** Every request is answered with an object that has only a summary. *)
Definition terse : Platform :=
  scripted (fun _ _ _ => answer summary_only_reply) (fun _ => 1).

(** Models [A] and [B] fail, [A] with a quota error; model [C] answers. *)
Definition abc_reply (k : nat) (model prompt : string) : Outcome :=
  if String.eqb model "A" then Raises "429 quota exceeded"
  else if String.eqb model "B" then Raises "500 internal error"
  else answer "  Send Fire-1 to Sector 7.  ".

Definition abc : Platform := scripted abc_reply (fun _ => 1).

(** Model [A] answers with a response that carries no text; every other
    model answers with a sentence. *)
Definition mute_a_reply (k : nat) (model prompt : string) : Outcome :=
  if String.eqb model "A"
  then Responds {| resp_text := None; resp_candidates := None |}
  else answer "Send Fire-1.".

Definition mute_a : Platform := scripted mute_a_reply (fun _ => 1).

(** The first request hits the rate limit, later ones are answered. *)
Definition throttled_reply (k : nat) (model prompt : string) : Outcome :=
  match k with
  | O => Raises "Rate Limit reached"
  | S _ => answer "Send Fire-1."
  end.

(** The clock of [throttled]: the readings 0..9 fall within the first
    minute, later ones an hour on. *)
Definition throttled : Platform :=
  {| json_loads := Json.loads;
     py_str := show;
     generate_content := throttled_reply;
     time_time := fun k => if (k <? 10)%nat then 1000 + Z.of_nat k
                           else 4600 + Z.of_nat k;
     datetime_now := fun k => 1000 + Z.of_nat k;
     datetime_utcnow := fun k => 1000 + Z.of_nat k;
     isoformat := fun t => "t" +:+ pretty t;
     random_source := fun _ => 1 |}.

Definition no_env : Environ :=
  {| env_API_KEY := None; env_USE_GEMINI := None;
     env_GEMINI_BACKOFF_SECONDS := None; env_DISPATCH_MODELS := None;
     env_RESOURCE_MODELS := None; env_SUMMARY_MODELS := None |}.

(** Only the credential is set; everything else has its default. *)
Definition keyed_env : Environ :=
  {| env_API_KEY := Some "test-key"; env_USE_GEMINI := None;
     env_GEMINI_BACKOFF_SECONDS := None; env_DISPATCH_MODELS := None;
     env_RESOURCE_MODELS := None; env_SUMMARY_MODELS := None |}.

Definition keyed : Config := load_config keyed_env.
Definition unkeyed : Config := load_config no_env.

(** The incident of the repository's offline test. *)
Definition fire_incident : Dict PyVal :=
  [ ("type", VStr "Fire"); ("location", VStr "Sector 7");
    ("urgency", VStr "CRITICAL") ].

(** An incident that only states its urgency. *)
Definition urgent_incident : Dict PyVal := [ ("urgency", VStr "high") ].

(** Fifteen decisions, alternating the two entry points. *)
Definition fifteen_decisions : list Submission :=
  flat_map
    (fun i =>
       [ ViaDecision (VStr "SEND") (VInt i);
         ViaEnvelope
           (new_envelope (Some [("action", VStr "HOLD"); ("incident_id", VInt i)])
                         (VStr "user") VNone None None) None;
         ViaDecision (VStr "HOLD") (VInt i) ])
    [1; 2; 3; 4; 5].

(* ===================================================================== *)
(** * Vocabulary of the further properties *)
(* ===================================================================== *)

(** The text has no white space at either end. *)
Definition trimmed (s : string) : Prop := PyStr.strip s = s.

(** A model name as a chain holds it: not empty, no white space at either
    end, no comma. *)
Definition clean_name (m : string) : Prop :=
  m <> EmptyString /\ trimmed m /\ PyStr.contains "," m = false.

(** The text is made of commas and white space only. *)
Fixpoint only_separators (v : string) : bool :=
  match v with
  | EmptyString => true
  | String c t => (Ascii.eqb c "," || PyStr.is_space c) && only_separators t
  end.

(** The environment switches the backend off: no credential, or
    [USE_GEMINI] set to one of the four negative words. *)
Definition switched_off (env : Environ) : Prop :=
  env_API_KEY env = None
  \/ env_API_KEY env = Some EmptyString
  \/ exists v, env_USE_GEMINI env = Some v
               /\ In (PyStr.lower (PyStr.strip v)) ["0"; "false"; "no"; "off"].

(** No request was issued and the backoff was not moved. *)
Definition quiet (w w' : World) : Prop :=
  requests w' = requests w
  /\ _gemini_backoff_until w' = _gemini_backoff_until w.

(** The unit status map is what it was. *)
Definition same_status (w w' : World) : Prop :=
  _UNIT_STATUS w' = _UNIT_STATUS w.

(** A computation leaves the world within [Q] of where it started, whether
    it returns or raises. *)
Definition keeps {A} (Q : World -> World -> Prop) (m : M A) : Prop :=
  forall w, Q w (snd (m w)).

(** The content keys an agent writes. *)
Definition keys_written (a : Agent) : list string :=
  match a with
  | ADispatch _ => ["incident"; "summary"; "recommendation"]
  | AResource _ => ["resources"; "resource_summary"]
  | ASummary _ => ["display_summary"]
  | ADecision _ => ["decision_status"; "decision_message"]
  end.

(** Sender and receiver after the A2A orchestrator has passed the agents:
    each hop moves the receiver to the sender and names the agent as
    receiver. *)
Definition route (agents : list Agent) (sr : PyVal * PyVal) : PyVal * PyVal :=
  fold_left (fun sr a => (snd sr, VStr (agent_name a))) agents sr.

(** The outcome of an orchestration with the envelope changed by [f]. *)
Definition map_envelope {T : Type} (f : MessageEnvelope -> MessageEnvelope)
  (r : Res (T * MessageEnvelope * option Session) * World)
  : Res (T * MessageEnvelope * option Session) * World :=
  match r with
  | (Ok (a, e, s), w) => (Ok (a, f e, s), w)
  | (Raise x, w) => (Raise x, w)
  end.

(** The prompt [ResourceAgent.handle_envelope] builds for an incident. *)
Definition resource_prompt (P : Platform) (incident : PyVal) : string :=
  "You are a resource allocation agent. Given this incident: "
  +:+ fmt P incident +:+ ", "
  +:+ "list the best resources or units to send. "
  +:+ "Respond with a JSON object with a 'resources' list and a 'summary' string.".

(** The fact the Dispatch agent remembers, the fact the Resource agent
    remembers. *)
Definition dispatch_fact (incident summary : PyVal) : PyVal :=
  VDict [("incident", incident); ("summary", summary)].

Definition resource_fact (incident resources : PyVal) : PyVal :=
  VDict [("incident", incident); ("resources", resources)].

(** The object [{"resources": ["Engine 5"], "summary": "Send Engine 5"}]. *)
Definition resources_reply : string :=
  "{" +:+ quote +:+ "resources" +:+ quote +:+ ": ["
  +:+ quote +:+ "Engine 5" +:+ quote +:+ "], "
  +:+ quote +:+ "summary" +:+ quote +:+ ": "
  +:+ quote +:+ "Send Engine 5" +:+ quote +:+ "}".

(** Every request is answered with that object. *)
Definition resourceful : Platform :=
  scripted (fun _ _ _ => answer resources_reply) (fun _ => 1).

(** An incident envelope as the server builds it, with a ticket number
    that no agent knows about. *)
Definition ticketed : MessageEnvelope :=
  new_envelope
    (Some [("incident", VDict fire_incident); ("urgency", VStr "CRITICAL");
           ("ticket", VInt 4711)])
    (VStr "user") VNone None None.

(** A session that has one turn already. *)
Definition open_session : Session :=
  {| session_id := "s-1";
     session_history := [("hello", VStr "ready")] |}.

(** Every session of the registry is stored under its own id. *)
Definition well_keyed (self : SystemState) : Prop :=
  forall k session, sessions self !! k = Some session -> session_id session = k.

(** A state with two active incidents, the first with an id of its own. *)
Definition busy_state : SystemState :=
  {| active_incidents :=
       [ [("type", VStr "Flood"); ("id", VStr "a-1")];
         [("type", VStr "Medical"); ("id", VStr "a-2"); ("timestamp", VStr "t0")] ];
     memory := [];
     sessions := {[ "s-1" := open_session ]};
     metrics := {| metric_incidents := 2; metric_decisions := 0 |} |}.

(** The prompt [SummaryAgent.summarize_for_display] builds. *)
Definition summary_prompt (P : Platform) (summary recommendation urgency : PyVal)
  : string :=
  "You are a UI assistant for a tiny dispatch terminal. "
  +:+ "Given this summary: " +:+ fmt P summary +:+ nl
  +:+ "and this recommendation: " +:+ fmt P recommendation +:+ nl
  +:+ "and this urgency: " +:+ fmt P urgency +:+ nl
  +:+ "Generate a concise, plain-language alert (max 60 chars) for a small screen. "
  +:+ "Do not include JSON, just the message.".

(** The object [{"summary": 7, "resources": 7}]. *)
Definition numeric_reply : string :=
  "{" +:+ quote +:+ "summary" +:+ quote +:+ ": 7, "
  +:+ quote +:+ "resources" +:+ quote +:+ ": 7}".

(** Every request is answered with that object. *)
Definition numeric : Platform :=
  scripted (fun _ _ _ => answer numeric_reply) (fun _ => 1).

(** Every request is answered with a short sentence. *)
Definition brief_reply : string := "Fire at Sector 7: send Fire-1 now".

Definition concise : Platform :=
  scripted (fun _ _ _ => answer brief_reply) (fun _ => 1).

(** The largest finite float, [sys.float_info.max]. *)
Definition float_max : Z := 2 ^ 1024 - 2 ^ 971.

(** The backoff window is an [int] that converts to a float, so that
    [time.time() + GEMINI_BACKOFF_SECONDS] is defined. *)
Definition window_fits (cfg : Config) : Prop :=
  - float_max <= GEMINI_BACKOFF_SECONDS cfg <= float_max.

(** No answer of the backend is of use to an agent: when the trimmed text
    of a response decodes to an object, the object holds no summary that
    the Dispatch agent would keep and no resources that the Resource agent
    would keep.  Requests that raise, and texts that do not decode to an
    object, are of this kind. *)
Definition nothing_usable (P : Platform) : Prop :=
  forall k m p r obj,
    generate_content P k m p = Responds r ->
    decoded_object P (PyStr.strip (response_text r)) = Some obj ->
    needs_fallback (dict_get "summary" (VStr "") obj) = Ok true
    /\ resources_unusable (dict_get "resources" (VList []) obj) = true.

(** The prompt the Summary agent builds from a content. *)
Definition summary_prompt_of (P : Platform) (c : Dict PyVal) : string :=
  summary_prompt P (dict_get "summary" (VStr "") c)
    (dict_get "recommendation" (VStr "") c)
    (dict_get "urgency" (VStr "CRITICAL") c).

(** An invocation with [prompt] and [chain] that starts in [w] finds the
    gate open and every model of the chain raising. *)
Definition all_fail (P : Platform) (cfg : Config) (prompt : string)
  (chain : list string) (w : World) : Prop :=
  gate_open P cfg w
  /\ exists errs, all_raise P (length (requests w)) prompt chain errs.

(** An invocation with [prompt] and [chain] that starts in [w] is answered
    with [r]: the gate is open, the models of a front part of the chain
    raise, and the next model responds with [r]. *)
Definition answers (P : Platform) (cfg : Config) (prompt : string)
  (chain : list string) (w : World) (r : Response) : Prop :=
  gate_open P cfg w
  /\ exists pre errs m post,
       chain = pre ++ m :: post
       /\ all_raise P (length (requests w)) prompt pre errs
       /\ generate_content P (length (requests w) + length pre) m prompt
          = Responds r.

(** The object [{"resources": ["Engine 5"]}]. *)
Definition resources_only_reply : string :=
  "{" +:+ quote +:+ "resources" +:+ quote +:+ ": ["
  +:+ quote +:+ "Engine 5" +:+ quote +:+ "]}".

(** Every request is answered with that object. *)
Definition listing : Platform :=
  scripted (fun _ _ _ => answer resources_only_reply) (fun _ => 1).

(* ===================================================================== *)
(** * Facts about strings *)
(* ===================================================================== *)

Lemma str_length_append (a b : string) :
  String.length (a +:+ b) = (String.length a + String.length b)%nat.
Proof. induction a as [|c a IH]; simpl; [reflexivity | now rewrite IH]. Qed.

Lemma str_length_take (n : nat) (s : string) :
  (String.length (PyStr.take n s) <= n)%nat.
Proof.
  revert s; induction n as [|n IH]; intros [|c t]; simpl; try lia.
  specialize (IH t); lia.
Qed.

Lemma startswith_append (p s : string) : PyStr.startswith (p +:+ s) p = true.
Proof.
  unfold PyStr.startswith.
  induction p as [|c p IH]; simpl.
  - now destruct s.
  - destruct (ascii_dec c c) as [_|N]; [exact IH | now destruct N].
Qed.

Lemma startswith_inv (s p : string) :
  PyStr.startswith s p = true -> exists t, s = p +:+ t.
Proof.
  unfold PyStr.startswith. revert s.
  induction p as [|c p IH]; intros s H; simpl in *.
  - now exists s.
  - destruct s as [|c' s]; simpl in H; [discriminate|].
    destruct (ascii_dec c c') as [->|]; [|discriminate].
    destruct (IH _ H) as [t ->]. now exists t.
Qed.

Lemma visible_append (a b : string) :
  visible (a +:+ b) = visible a || visible b.
Proof.
  induction a as [|c a IH]; simpl; [reflexivity|].
  now rewrite IH, orb_assoc.
Qed.

Lemma visible_lstrip (s : string) : visible (PyStr.lstrip s) = visible s.
Proof.
  induction s as [|c s IH]; simpl; [reflexivity|].
  destruct (PyStr.is_space c) eqn:E; simpl; [assumption | now rewrite E].
Qed.

Lemma rstrip_empty_iff (s : string) :
  PyStr.rstrip s = EmptyString <-> visible s = false.
Proof.
  induction s as [|c s IH]; simpl; [tauto|].
  destruct (PyStr.rstrip s) eqn:E.
  - destruct (PyStr.is_space c); simpl.
    + tauto.
    + split; discriminate.
  - split; [discriminate|].
    intros H. apply orb_false_iff in H as [_ H].
    apply IH in H. discriminate.
Qed.

Lemma strip_nonempty (s : string) :
  visible s = true -> PyStr.strip s <> EmptyString.
Proof.
  intros V E. unfold PyStr.strip in E.
  apply rstrip_empty_iff in E. rewrite visible_lstrip in E. congruence.
Qed.

Lemma strip_visible (s : string) :
  PyStr.strip s <> EmptyString -> visible (PyStr.strip s) = true.
Proof.
  unfold PyStr.strip. intros H.
  assert (V : visible (PyStr.lstrip s) = true).
  { destruct (visible (PyStr.lstrip s)) eqn:E; [reflexivity|].
    apply rstrip_empty_iff in E. contradiction. }
  clear H. induction (PyStr.lstrip s) as [|c t IH]; simpl in *; [discriminate|].
  destruct (PyStr.rstrip t) eqn:E.
  - destruct (PyStr.is_space c) eqn:Ec; simpl in *.
    + apply rstrip_empty_iff in E. congruence.
    + now rewrite Ec.
  - simpl. destruct (PyStr.is_space c); simpl in *; [now apply IH | reflexivity].
Qed.

Lemma is_empty_true (s : string) : PyStr.is_empty s = true <-> s = EmptyString.
Proof. destruct s; simpl; split; congruence. Qed.

Lemma is_empty_false (s : string) : PyStr.is_empty s = false <-> s <> EmptyString.
Proof. destruct s; simpl; split; congruence. Qed.

(* ===================================================================== *)
(** * Facts about the stable sort *)
(* ===================================================================== *)

Section SortFacts.
Context {A : Type} (key : A -> Z).

Lemma insert_by_perm (x : A) (l : list A) :
  Permutation (x :: l) (insert_by key x l).
Proof.
  induction l as [|y l IH]; simpl; [reflexivity|].
  destruct (key x <=? key y); [reflexivity|].
  rewrite perm_swap. now constructor.
Qed.

Lemma sort_by_perm (l : list A) : Permutation l (sort_by key l).
Proof.
  induction l as [|x l IH]; simpl; [constructor|].
  rewrite <- insert_by_perm. now constructor.
Qed.

Lemma insert_by_sorted (x : A) (l : list A) :
  StronglySorted (key_le key) l -> StronglySorted (key_le key) (insert_by key x l).
Proof.
  induction 1 as [|y l Hl IH Hy]; simpl.
  - repeat constructor.
  - destruct (Z.leb_spec (key x) (key y)) as [Hxy|Hxy].
    + constructor; [now constructor|].
      constructor; [exact Hxy|].
      eapply Forall_impl; [exact Hy|].
      unfold key_le; intros z Hz; lia.
    + constructor; [exact IH|].
      rewrite <- insert_by_perm.
      constructor; [unfold key_le; lia | exact Hy].
Qed.

Lemma sort_by_sorted (l : list A) : StronglySorted (key_le key) (sort_by key l).
Proof.
  induction l as [|x l IH]; simpl; [constructor|].
  now apply insert_by_sorted.
Qed.

Lemma insert_by_with_key (x : A) (l : list A) (k : Z) :
  with_key key k (insert_by key x l) = with_key key k (x :: l).
Proof.
  unfold with_key.
  induction l as [|y l IH]; simpl; [reflexivity|].
  destruct (Z.leb_spec (key x) (key y)) as [Hxy|Hxy]; simpl; [reflexivity|].
  rewrite IH; simpl.
  destruct (Z.eqb_spec (key x) k), (Z.eqb_spec (key y) k);
    try reflexivity; lia.
Qed.

(** Stability: elements with equal keys keep their input order. *)
Lemma sort_by_stable (l : list A) (k : Z) :
  with_key key k (sort_by key l) = with_key key k l.
Proof.
  induction l as [|x l IH]; simpl; [reflexivity|].
  rewrite insert_by_with_key. unfold with_key in *; simpl. now rewrite IH.
Qed.

End SortFacts.

(* ===================================================================== *)
(** * Facts about dictionaries and the monad *)
(* ===================================================================== *)

Lemma dict_lookup_set_eq {A} (k : string) (v : A) (d : Dict A) :
  dict_lookup k (dict_set k v d) = Some v.
Proof.
  induction d as [|[k' v'] d IH]; simpl.
  - now rewrite String.eqb_refl.
  - destruct (String.eqb k k') eqn:E; simpl.
    + now rewrite String.eqb_refl.
    + now rewrite E.
Qed.

Lemma dict_lookup_set_ne {A} (k k' : string) (v : A) (d : Dict A) :
  k <> k' -> dict_lookup k' (dict_set k v d) = dict_lookup k' d.
Proof.
  intros Hne. induction d as [|[k0 v0] d IH]; simpl.
  - destruct (String.eqb_spec k' k); congruence.
  - destruct (String.eqb_spec k k0) as [->|]; simpl.
    + destruct (String.eqb_spec k' k0); congruence.
    + now rewrite IH.
Qed.

Lemma bind_ok {A B} (m : M A) (k : A -> M B) (w w' : World) (a : A) :
  m w = (Ok a, w') -> bind m k w = k a w'.
Proof. unfold bind. now intros ->. Qed.

Lemma bind_raise {A B} (m : M A) (k : A -> M B) (w w' : World) (e : Exn) :
  m w = (Raise e, w') -> bind m k w = (Raise e, w').
Proof. unfold bind. now intros ->. Qed.

Lemma bind_inv {A B} (m : M A) (k : A -> M B) (w w' : World) (b : B) :
  bind m k w = (Ok b, w') ->
  exists a w1, m w = (Ok a, w1) /\ k a w1 = (Ok b, w').
Proof.
  unfold bind. destruct (m w) as [[a|e] w1]; intros H.
  - now exists a, w1.
  - discriminate.
Qed.


(* ===================================================================== *)
(** * Facts about the reference decoder *)
(* ===================================================================== *)

Lemma value_capital_G (fuel : nat) (t : string) :
  Json.value fuel (String "G" t) = None.
Proof. destruct fuel; reflexivity. Qed.

Lemma elements_capital_G (fuel : nat) (acc : list PyVal) (t : string) :
  Json.elements fuel acc (String "G" t) = None.
Proof.
  destruct fuel as [|fuel]; [reflexivity|].
  cbn [Json.elements]. now rewrite value_capital_G.
Qed.

(** The reference decoder rejects the invoker's sentinels: after the
    bracket it finds a letter where a value or a closing bracket must be. *)
Lemma json_rejects_sentinels (s : string) : Json.loads ("[Gemini" +:+ s) = None.
Proof.
  unfold Json.loads.
  generalize (String.length ("[Gemini" +:+ s)). intros n.
  replace (2 * n + 2)%nat with (S (S (2 * n))) by lia.
  change (Json.value (S (S (2 * n))) ("[Gemini" +:+ s))
    with (Json.elements (S (2 * n)) [] (String "G" ("emini" +:+ s))).
  now rewrite elements_capital_G.
Qed.

(* ===================================================================== *)
(** * The planner: arrival estimates, candidates, scores *)
(* ===================================================================== *)

Lemma normalize_str (s : string) : _normalize (VStr s) = Ok (normalize_text s).
Proof. unfold _normalize, normalize_text, py_or. simpl. now destruct s. Qed.

Lemma normalize_textual (v : PyVal) :
  textual v = true -> exists s, _normalize v = Ok s.
Proof.
  destruct v as [| b | z | f | s | l | d]; simpl; intros H.
  - now eexists.
  - destruct b; [discriminate | now eexists].
  - unfold _normalize, py_or; simpl.
    destruct (z =? 0); [now eexists | discriminate].
  - unfold _normalize, py_or; simpl.
    destruct (PrimFloat.eqb f 0); [now eexists | discriminate].
  - rewrite normalize_str. now eexists.
  - destruct l; [now eexists | discriminate].
  - destruct d; [now eexists | discriminate].
Qed.

Lemma jitter_range (P : Platform) (k : nat) : -1 <= jitter_at P k <= 1.
Proof.
  unfold jitter_at.
  pose proof (Z.mod_pos_bound (random_source P k) 3). lia.
Qed.

Section ReliefFacts.
Variable P : Platform.

Lemma estimate_ok (unit : Unit) (location : PyVal) (sector : string) (w : World) :
  _normalize location = Ok sector ->
  _estimate_arrival_minutes P unit location w
  = (Ok (eta_formula (u_base_eta unit) (sector_modifier sector)
                     (jitter_at P (draws w))), draw w).
Proof.
  intros H. unfold _estimate_arrival_minutes, bind, lift. rewrite H.
  reflexivity.
Qed.

Lemma same_globals_refl (w : World) : same_globals w w.
Proof. now repeat split. Qed.

Lemma same_globals_trans (w1 w2 w3 : World) :
  same_globals w1 w2 -> same_globals w2 w3 -> same_globals w1 w3.
Proof.
  unfold same_globals. intros (a & b & c & d) (a' & b' & c' & d').
  repeat split; congruence.
Qed.

Lemma same_globals_draw (w : World) : same_globals w (draw w).
Proof. now repeat split. Qed.

Lemma is_available_same (w w' : World) (u : Unit) :
  _UNIT_STATUS w' = _UNIT_STATUS w -> is_available w' u = is_available w u.
Proof. unfold is_available. now intros ->. Qed.

Lemma collect_candidates_ok (units : list Unit) (unit_type : PyVal) (w : World) :
  textual unit_type = true ->
  Forall (fun u => is_Some (_UNIT_STATUS w !! u_id u)) units ->
  exists cands w',
    collect_candidates P units unit_type w = (Ok cands, w')
    /\ same_globals w w'
    /\ map base cands
       = List.filter (fun u => is_available w u && type_wanted unit_type u) units
    /\ Forall eta_explained cands.
Proof.
  intros Ht. revert w.
  induction units as [|u units IH]; intros w Hall.
  - exists [], w. simpl. repeat split; auto using same_globals_refl.
  - inversion Hall as [|? ? [st Hst] Hrest]; subst.
    simpl. unfold bind at 1, gets. rewrite Hst.
    unfold is_available at 1. rewrite Hst.
    destruct (String.eqb (status st) "available") eqn:Eav; simpl.
    2:{ apply IH, Hrest. }
    assert (Hskip : exists w0, w0 = w /\
      (if truthy unit_type
       then wanted <- lift (_normalize unit_type) ;;
            ret (negb (PyStr.contains wanted (u_type u)))
       else ret false) w = (Ok (negb (type_wanted unit_type u)), w0)).
    { exists w; split; [reflexivity|]. unfold type_wanted.
      destruct (truthy unit_type); [|reflexivity].
      destruct (normalize_textual _ Ht) as [s Hs].
      unfold bind, lift, ret. now rewrite Hs. }
    destruct Hskip as (w0 & -> & Hskip).
    rewrite (bind_ok _ _ _ _ _ Hskip).
    destruct (type_wanted unit_type u); simpl.
    2:{ apply IH, Hrest. }
    rewrite (bind_ok _ _ _ _ _ (estimate_ok u _ _ w (normalize_str _))).
    destruct (IH (draw w)) as (cands & w' & Hc & Hg & Hm & He).
    { exact Hrest. }
    rewrite (bind_ok _ _ _ _ _ Hc). unfold ret.
    eexists _, w'. split; [reflexivity|].
    split; [eapply same_globals_trans; [apply same_globals_draw | exact Hg]|].
    split.
    + simpl. f_equal. rewrite Hm.
      apply filter_ext. intros a. now rewrite (is_available_same w (draw w)).
    + constructor; [|exact He].
      exists (jitter_at P (draws w)). split; [apply jitter_range | reflexivity].
Qed.

End ReliefFacts.

Section PlannerFacts.
Variable P : Platform.

Lemma get_available_units_ok (unit_type : PyVal) (limit : option Z) (w : World) :
  textual unit_type = true -> tracked w ->
  exists cands w',
    get_available_units P unit_type limit w = (Ok (apply_limit limit cands), w')
    /\ same_globals w w'
    /\ StronglySorted (key_le eta_minutes) cands
    /\ Permutation (map base cands)
         (List.filter (fun u => is_available w u && type_wanted unit_type u)
                      _UNIT_REGISTRY)
    /\ Forall eta_explained cands.
Proof.
  intros Ht Hw.
  destruct (collect_candidates_ok P _UNIT_REGISTRY unit_type w Ht Hw)
    as (cands & w' & Hc & Hg & Hm & He).
  exists (sort_by eta_minutes cands), w'.
  unfold get_available_units. rewrite (bind_ok _ _ _ _ _ Hc).
  split.
  { destruct limit as [n|]; simpl; [|reflexivity].
    now destruct (n =? 0). }
  split; [exact Hg|].
  split; [apply sort_by_sorted|].
  split.
  - rewrite <- Hm. apply Permutation_map, Permutation_sym, sort_by_perm.
  - eapply Permutation_Forall; [apply sort_by_perm | exact He].
Qed.

Lemma registry_capabilities :
  Forall (fun u => "" ∉ u_capabilities u) _UNIT_REGISTRY.
Proof.
  unfold _UNIT_REGISTRY.
  repeat (apply List.Forall_cons;
          [refine (bool_decide_unpack _ _); vm_compute; exact I|]).
  apply List.Forall_nil.
Qed.

Lemma score_unit_ok (d : Dict PyVal) (ty ur : string) (u : Unit) :
  _normalize (dict_get "type" VNone d) = Ok ty ->
  _normalize (dict_get "urgency" VNone d) = Ok ur ->
  "" ∉ u_capabilities u ->
  _score_unit u (VDict d) = Ok (unit_score ty ur u).
Proof.
  intros Hty Hur Hcap. unfold _score_unit, py_get, rbind.
  rewrite Hty, Hur. unfold unit_score.
  assert (E : negb (PyStr.is_empty ty) && bool_decide (ty ∈ u_capabilities u)
              = bool_decide (ty ∈ u_capabilities u)).
  { destruct ty; simpl; [|reflexivity].
    symmetry. now apply bool_decide_eq_false_2. }
  rewrite E.
  destruct (bool_decide _), (PyStr.contains _ _), (_ || _); reflexivity.
Qed.

Lemma score_candidates_ok (d : Dict PyVal) (ty ur : string) (cands : list Enriched) :
  _normalize (dict_get "type" VNone d) = Ok ty ->
  _normalize (dict_get "urgency" VNone d) = Ok ur ->
  Forall (fun c => "" ∉ u_capabilities (base c)) cands ->
  score_candidates cands (VDict d)
  = Ok (map (fun c => (score_of ty ur c, c)) (scoring ty ur cands)).
Proof.
  intros Hty Hur. unfold scoring, score_of.
  induction 1 as [|c cands Hc _ IH]; simpl; [reflexivity|].
  rewrite (score_unit_ok d ty ur _ Hty Hur Hc). simpl. rewrite IH. simpl.
  destruct (Z.leb_spec (unit_score ty ur (base c)) 0) as [Hle|Hgt];
    destruct (Z.ltb_spec 0 (unit_score ty ur (base c))); try lia; reflexivity.
Qed.

Lemma slice_to_map {A B} (f : A -> B) (n : Z) (l : list A) :
  map f (slice_to n l) = slice_to n (map f l).
Proof.
  unfold slice_to. rewrite length_map.
  destruct (0 <=? n); now rewrite firstn_map.
Qed.

Lemma with_key_map {A B} (f : A -> B) (key : B -> Z) (k : Z) (l : list A) :
  with_key key k (map f l) = map f (with_key (fun a => key (f a)) k l).
Proof.
  unfold with_key. induction l as [|a l IH]; simpl; [reflexivity|].
  destruct (key (f a) =? k); simpl; now rewrite IH.
Qed.

Lemma sorted_map {A B} (f : A -> B) (R : B -> B -> Prop) (l : list A) :
  StronglySorted (fun a b => R (f a) (f b)) l -> StronglySorted R (map f l).
Proof.
  induction 1 as [|a l _ IH Ha]; simpl; constructor; [exact IH|].
  apply List.Forall_map. exact Ha.
Qed.

Lemma candidates_from_registry (cands : list Enriched) (l : list Unit) :
  Permutation (map base cands) l ->
  Forall (fun u => "" ∉ u_capabilities u) l ->
  Forall (fun c => "" ∉ u_capabilities (base c)) cands.
Proof.
  intros Hp Hl. apply List.Forall_forall. intros c Hc.
  rewrite List.Forall_forall in Hl. apply Hl.
  eapply Permutation_in; [exact Hp|]. now apply in_map.
Qed.

(** What [recommend_units_for_incident] returns, in terms of the candidates
    [get_available_units] hands it. *)
Lemma recommend_units_ok (d : Dict PyVal) (ty ur : string) (limit : Z) (w : World) :
  _normalize (dict_get "type" VNone d) = Ok ty ->
  _normalize (dict_get "urgency" VNone d) = Ok ur ->
  tracked w ->
  exists cands ranked w',
    get_available_units P VNone None w = (Ok cands, w')
    /\ recommend_units_for_incident P (VDict d) limit w
       = (Ok (slice_to limit ranked), w')
    /\ same_globals w w'
    /\ Forall (fun c => _score_unit (base c) (VDict d) = Ok (score_of ty ur c)) cands
    /\ Permutation ranked (scoring ty ur cands)
    /\ StronglySorted (score_ge ty ur) ranked
    /\ (forall k, with_key (score_of ty ur) k ranked
                  = with_key (score_of ty ur) k (scoring ty ur cands)).
Proof.
  intros Hty Hur Hw.
  destruct (get_available_units_ok VNone None w eq_refl Hw)
    as (cands & w' & Hc & Hg & Hs & Hp & He).
  simpl in Hc.
  assert (Hcap : Forall (fun c => "" ∉ u_capabilities (base c)) cands).
  { eapply candidates_from_registry; [exact Hp|].
    apply List.Forall_forall. intros u Hu. apply filter_In in Hu as [Hu _].
    revert u Hu. apply List.Forall_forall, registry_capabilities. }
  set (pairs := map (fun c => (score_of ty ur c, c)) (scoring ty ur cands)).
  exists cands, (map snd (sort_by_desc fst pairs)), w'.
  split; [exact Hc|].
  split.
  { unfold recommend_units_for_incident. rewrite (bind_ok _ _ _ _ _ Hc).
    unfold bind, lift, ret.
    rewrite (score_candidates_ok d ty ur cands Hty Hur Hcap).
    fold pairs. now rewrite slice_to_map. }
  split; [exact Hg|].
  assert (Hsnd : map snd pairs = scoring ty ur cands).
  { unfold pairs. rewrite map_map. simpl. apply map_id. }
  assert (Hfst : Forall (fun p => fst p = score_of ty ur (snd p)) pairs).
  { unfold pairs. apply List.Forall_map. apply List.Forall_forall. now intros. }
  assert (Hfst' : Forall (fun p => fst p = score_of ty ur (snd p))
                         (sort_by_desc fst pairs)).
  { eapply Permutation_Forall; [apply sort_by_perm | exact Hfst]. }
  split.
  { eapply Forall_impl; [exact Hcap|]. intros c Hc'. simpl in Hc'.
    now apply score_unit_ok. }
  split.
  { rewrite <- Hsnd. apply Permutation_map, Permutation_sym, sort_by_perm. }
  split.
  { apply sorted_map.
    pose proof (sort_by_sorted (fun x : Z * Enriched => - fst x) pairs) as HS.
    change (sort_by (fun x : Z * Enriched => - fst x) pairs)
      with (sort_by_desc fst pairs) in HS.
    revert Hfst' HS. generalize (sort_by_desc fst pairs) as l.
    induction l as [|p l IH]; intros HF HS; [constructor|].
    inversion HF as [|? ? Hp0 HF']; inversion HS as [|? ? HS' Hall]; subst.
    constructor; [now apply IH|].
    rewrite List.Forall_forall in *. intros q Hq.
    specialize (Hall q Hq). specialize (HF' q Hq).
    unfold key_le, score_ge in *. simpl in *. lia. }
  intros k. rewrite <- Hsnd.
  rewrite !with_key_map.
  f_equal.
  pose proof (sort_by_stable (fun x : Z * Enriched => - fst x) pairs (- k)) as Hst.
  change (sort_by (fun x : Z * Enriched => - fst x) pairs)
    with (sort_by_desc fst pairs) in Hst.
  unfold with_key in *.
  assert (Hext : forall l : list (Z * Enriched),
             Forall (fun p => fst p = score_of ty ur (snd p)) l ->
             List.filter (fun a => score_of ty ur (snd a) =? k) l
             = List.filter (fun y => - fst y =? - k) l).
  { induction 1 as [|p l Hp0 _ IH]; simpl; [reflexivity|].
    rewrite IH, <- Hp0.
    destruct (Z.eqb_spec (fst p) k), (Z.eqb_spec (- fst p) (- k));
      try reflexivity; lia. }
  rewrite (Hext _ Hfst'), (Hext _ Hfst). exact Hst.
Qed.

End PlannerFacts.

Section PlanFacts.
Variable P : Platform.

Lemma tracked_same (w w' : World) :
  _UNIT_STATUS w' = _UNIT_STATUS w -> tracked w -> tracked w'.
Proof. unfold tracked. now intros ->. Qed.

Lemma generate_incident_brief_ok (d : Dict PyVal) :
  exists s, generate_incident_brief P (VDict d) = Ok s /\ s <> EmptyString.
Proof.
  unfold generate_incident_brief, py_get, rbind.
  destruct (truthy (dict_get "details" VNone d));
    (eexists; split; [reflexivity|]);
    apply strip_nonempty; rewrite visible_append;
    apply orb_true_iff; right; reflexivity.
Qed.

Lemma plan_relief_response_ok (d : Dict PyVal) (limit : Z) (w : World) :
  planner_ready d -> tracked w ->
  exists rp w',
    plan_relief_response P (VDict d) limit w = (Ok rp, w')
    /\ same_globals w w'
    /\ rp_summary rp <> EmptyString
    /\ rp_recommendation rp <> EmptyString
    /\ rp_resource_summary rp <> EmptyString.
Proof.
  intros [Hty Hur] Hw.
  destruct (generate_incident_brief_ok d) as (s & Hs & Hne).
  destruct (normalize_textual _ Hty) as [ty Hty'].
  destruct (normalize_textual _ Hur) as [ur Hur'].
  destruct (recommend_units_ok P d ty ur limit w Hty' Hur' Hw)
    as (cands & ranked & w' & _ & Hr & Hg & _).
  unfold plan_relief_response.
  unfold bind at 1, lift at 1. rewrite Hs.
  rewrite (bind_ok _ _ _ _ _ Hr).
  unfold bind, lift, py_get.
  destruct (slice_to limit ranked) as [|c rest]; unfold ret;
    eexists _, w'; (split; [reflexivity|]); (split; [exact Hg|]);
    simpl; repeat split; try exact Hne; discriminate.
Qed.

Lemma format_display_alert_ok (summary recommendation incident urgency : PyVal) :
  truthy incident = false \/ (exists d, incident = VDict d) ->
  exists s,
    format_display_alert P summary recommendation incident urgency = Ok s
    /\ (String.length s <= 60)%nat.
Proof.
  intros Hinc.
  assert (Hd : exists d, py_or incident (VDict []) = VDict d).
  { unfold py_or. destruct Hinc as [-> | [d ->]]; [now eexists|].
    destruct (truthy (VDict d)); now eexists. }
  destruct Hd as [d Hd].
  unfold format_display_alert. rewrite Hd. unfold py_get, rbind.
  destruct (truthy urgency);
    (eexists; split; [reflexivity|]);
    match goal with
    | |- context [(60 <? String.length ?m)%nat] =>
        destruct (Nat.ltb_spec 60 (String.length m)) as [Hlong|Hshort];
          [rewrite str_length_append; pose proof (str_length_take 57 m);
           change (String.length "...") with 3%nat; lia
          | exact Hshort]
    end.
Qed.

Lemma notify_dispatch_ok (unit_id : string) (d : Dict PyVal) (w : World) :
  notify_dispatch P unit_id (VDict d) w
  = (Ok {| dr_unit_id := unit_id;
           dr_incident_id := dict_get "id" VNone d;
           dr_location := dict_get "location" VNone d;
           dr_timestamp := isoformat P (datetime_utcnow P (ticks w));
           dr_status := "queued" |},
     if bool_decide (unit_id ∈ dom (_UNIT_STATUS w))
     then set_unit_status
            (<[ unit_id := assigned_to (dict_get "id" VNone d)
                             (datetime_utcnow P (S (ticks w))) ]>
               (_UNIT_STATUS w))
            (tick (tick w))
     else tick w).
Proof.
  unfold notify_dispatch, bind, lift, py_get, read_utcnow, gets, modify, ret.
  simpl. destruct (bool_decide (unit_id ∈ dom (_UNIT_STATUS w))); reflexivity.
Qed.

(** Neither [notify_dispatch] nor [release_unit] removes a key, so every
    registry unit keeps its status entry. *)
Lemma tracked_insert (unit_id : string) (st : UnitStatus) (w w' : World) :
  _UNIT_STATUS w' = <[ unit_id := st ]> (_UNIT_STATUS w) ->
  tracked w -> tracked w'.
Proof.
  unfold tracked. intros -> H.
  eapply Forall_impl; [exact H|].
  intros u [x Hx]. simpl.
  destruct (decide (unit_id = u_id u)) as [->|Hne].
  - rewrite lookup_insert_eq. eexists. reflexivity.
  - rewrite lookup_insert_ne by exact Hne. eexists. exact Hx.
Qed.

Lemma notify_dispatch_tracked (unit_id : string) (d : Dict PyVal) (w : World) :
  tracked w -> tracked (snd (notify_dispatch P unit_id (VDict d) w)).
Proof.
  intros H. rewrite notify_dispatch_ok. simpl.
  destruct (bool_decide (unit_id ∈ dom (_UNIT_STATUS w))).
  - eapply tracked_insert; [reflexivity | exact H].
  - exact H.
Qed.

Lemma release_unit_tracked (unit_id : string) (w : World) :
  tracked w -> tracked (snd (release_unit P unit_id w)).
Proof.
  intros H. unfold release_unit, bind, gets, read_utcnow, modify, ret. simpl.
  destruct (bool_decide (unit_id ∈ dom (_UNIT_STATUS w))); simpl.
  - eapply tracked_insert; [reflexivity | exact H].
  - exact H.
Qed.

End PlanFacts.

(* ===================================================================== *)
(** * The resilient invoker *)
(* ===================================================================== *)

Lemma last_cons_default {A} (e d : A) (es : list A) :
  List.last (e :: es) d = List.last es e.
Proof.
  revert e d. induction es as [|x es IH]; intros e d; [reflexivity|].
  change (List.last (x :: es) d = List.last (x :: es) e).
  now rewrite (IH x d), (IH x e).
Qed.

Section InvokerFacts.
Variable P : Platform.
Variable cfg : Config.

Lemma gemini_available_closed_config (w : World) :
  has_api_key cfg && USE_GEMINI cfg = false ->
  _gemini_available P cfg w = (Ok false, w).
Proof. unfold _gemini_available. now intros ->. Qed.

Lemma gemini_available_configured (w : World) :
  has_api_key cfg && USE_GEMINI cfg = true ->
  _gemini_available P cfg w
  = (Ok (_gemini_backoff_until w <=? time_time P (ticks w)), tick w).
Proof. unfold _gemini_available. now intros ->. Qed.

Lemma trip_gemini_backoff_spec (e : string) (w : World) :
  _trip_gemini_backoff P cfg e w
  = (Ok tt, if is_rate_limit e
            then set_backoff (time_time P (ticks w) + GEMINI_BACKOFF_SECONDS cfg)
                             (tick w)
            else w).
Proof. unfold _trip_gemini_backoff. now destruct (is_rate_limit e). Qed.

Lemma try_models_raise (prompt model e last_error : string)
  (rest : list string) (w : World) :
  generate_content P (length (requests w)) model prompt = Raises e ->
  try_models P cfg prompt (model :: rest) last_error w
  = try_models P cfg prompt rest e (after_failure P cfg model prompt e w).
Proof.
  intros H. simpl. unfold bind, gets, modify. rewrite H.
  rewrite trip_gemini_backoff_spec. unfold after_failure.
  now destruct (is_rate_limit e).
Qed.

Lemma try_models_respond (prompt model last_error : string) (r : Response)
  (rest : list string) (w : World) :
  generate_content P (length (requests w)) model prompt = Responds r ->
  try_models P cfg prompt (model :: rest) last_error w
  = (Ok (PyStr.strip (response_text r), last_error),
     log_request model prompt w).
Proof. intros H. simpl. unfold bind, gets, modify. now rewrite H. Qed.

Lemma after_failure_requests (model prompt e : string) (w : World) :
  requests (after_failure P cfg model prompt e w)
  = requests w ++ [(model, prompt)].
Proof. unfold after_failure. now destruct (is_rate_limit e). Qed.

Lemma after_failure_status (model prompt e : string) (w : World) :
  _UNIT_STATUS (after_failure P cfg model prompt e w) = _UNIT_STATUS w.
Proof. unfold after_failure. now destruct (is_rate_limit e). Qed.

Lemma after_failure_draws (model prompt e : string) (w : World) :
  draws (after_failure P cfg model prompt e w) = draws w.
Proof. unfold after_failure. now destruct (is_rate_limit e). Qed.

(** Every model raises: the loop runs to its end. *)
Lemma try_models_all_raise (prompt : string) (models errs : list string)
  (last_error : string) (w : World) :
  all_raise P (length (requests w)) prompt models errs ->
  exists w',
    try_models P cfg prompt models last_error w
    = (Ok (error_sentinel (List.last errs last_error), List.last errs last_error), w')
    /\ requests w' = requests w ++ requests_for prompt models
    /\ _UNIT_STATUS w' = _UNIT_STATUS w.
Proof.
  revert errs last_error w.
  induction models as [|m ms IH]; intros [|e es] le w H; simpl in H; try tauto.
  - exists w. simpl. unfold ret. rewrite app_nil_r. auto.
  - destruct H as [Hm Hrest].
    rewrite (try_models_raise _ _ _ _ _ _ Hm).
    destruct (IH es e (after_failure P cfg m prompt e w)) as (w' & Hr & Hq & Hs).
    { rewrite after_failure_requests, length_app. simpl.
      now replace (length (requests w) + 1)%nat with (S (length (requests w))) by lia. }
    exists w'. split.
    { now rewrite Hr, last_cons_default. }
    rewrite Hq, Hs, after_failure_requests, after_failure_status.
    split; [|reflexivity].
    simpl. now rewrite <- app_assoc.
Qed.

(** The models of [pre] raise and the next one answers: its text is
    returned, and the models after it are not asked. *)
Lemma try_models_first_answer (prompt : string) (pre errs : list string)
  (m : string) (post : list string) (r : Response)
  (last_error : string) (w : World) :
  all_raise P (length (requests w)) prompt pre errs ->
  generate_content P (length (requests w) + length pre) m prompt = Responds r ->
  exists w',
    try_models P cfg prompt (pre ++ m :: post) last_error w
    = (Ok (PyStr.strip (response_text r), List.last errs last_error), w')
    /\ requests w' = requests w ++ requests_for prompt (pre ++ [m])
    /\ _UNIT_STATUS w' = _UNIT_STATUS w.
Proof.
  revert errs last_error w.
  induction pre as [|p pre IH]; intros [|e es] le w H Hm; simpl in H; try tauto.
  - rewrite Nat.add_0_r in Hm. simpl app.
    rewrite (try_models_respond _ _ _ _ _ _ Hm).
    eexists. split; [reflexivity|]. simpl. auto.
  - destruct H as [Hp Hrest]. simpl app.
    rewrite (try_models_raise _ _ _ _ _ _ Hp).
    destruct (IH es e (after_failure P cfg p prompt e w)) as (w' & Hr & Hq & Hs).
    { rewrite after_failure_requests, length_app. simpl.
      now replace (length (requests w) + 1)%nat with (S (length (requests w))) by lia. }
    { rewrite after_failure_requests, length_app. simpl.
      now replace (length (requests w) + 1 + length pre)%nat
        with (length (requests w) + S (length pre))%nat by lia. }
    exists w'. split.
    { now rewrite Hr, last_cons_default. }
    rewrite Hq, Hs, after_failure_requests, after_failure_status.
    split; [|reflexivity].
    simpl. now rewrite <- app_assoc.
Qed.

(** The loop always returns, with one of the three kinds of text, and it
    leaves the unit registry and the random source alone. *)
Lemma try_models_total (prompt : string) (models : list string)
  (last_error : string) (w : World) :
  exists text le w',
    try_models P cfg prompt models last_error w = (Ok (text, le), w')
    /\ invoker_text P text
    /\ _UNIT_STATUS w' = _UNIT_STATUS w
    /\ draws w' = draws w.
Proof.
  revert last_error w.
  induction models as [|m ms IH]; intros le w.
  - exists (error_sentinel le), le, w. simpl. unfold ret.
    split; [reflexivity|]. split; [|split; reflexivity].
    right; left. now exists le.
  - destruct (generate_content P (length (requests w)) m prompt) as [r|e] eqn:E.
    + rewrite (try_models_respond _ _ _ _ _ _ E).
      eexists _, _, _. split; [reflexivity|].
      split; [|split; reflexivity].
      right; right. exists (length (requests w)), m, prompt, r. now split.
    + rewrite (try_models_raise _ _ _ _ _ _ E).
      destruct (IH e (after_failure P cfg m prompt e w))
        as (text & le' & w' & Hr & Ht & Hs & Hd).
      exists text, le', w'.
      rewrite Hs, Hd, after_failure_status, after_failure_draws. auto.
Qed.

Lemma run_gemini_total (prompt : string) (models : list string) (w : World) :
  exists text w',
    _run_gemini P cfg prompt models w = (Ok text, w')
    /\ invoker_text P text
    /\ _UNIT_STATUS w' = _UNIT_STATUS w
    /\ draws w' = draws w.
Proof.
  unfold _run_gemini, run_gemini_traced.
  destruct (has_api_key cfg && USE_GEMINI cfg) eqn:E.
  - unfold bind at 1 2. rewrite (gemini_available_configured w E).
    destruct (_gemini_backoff_until w <=? time_time P (ticks w)).
    + destruct (try_models_total prompt models "" (tick w))
        as (text & le & w' & Hr & Ht & Hs & Hd).
      rewrite Hr. exists text, w'. unfold ret. simpl. auto.
    + exists "[Gemini disabled]", (tick w). unfold ret. simpl.
      split; [reflexivity|]. split; [now left | split; reflexivity].
  - unfold bind at 1 2. rewrite (gemini_available_closed_config w E).
    exists "[Gemini disabled]", w. unfold ret. simpl.
    split; [reflexivity|]. split; [now left | split; reflexivity].
Qed.

(** The gate is closed: nothing is requested. *)
Lemma run_gemini_gate_closed (prompt : string) (models : list string) (w : World) :
  gate_closed P cfg w ->
  exists w',
    run_gemini_traced P cfg prompt models w = (Ok ("[Gemini disabled]", ""), w')
    /\ requests w' = requests w
    /\ _gemini_backoff_until w' = _gemini_backoff_until w.
Proof.
  intros H. unfold run_gemini_traced.
  destruct (has_api_key cfg && USE_GEMINI cfg) eqn:E.
  - unfold bind. rewrite (gemini_available_configured w E).
    destruct H as [H | [H | H]].
    + rewrite H in E. discriminate.
    + rewrite H, andb_false_r in E. discriminate.
    + apply Z.leb_gt in H. rewrite H. exists (tick w). unfold ret. auto.
  - unfold bind. rewrite (gemini_available_closed_config w E).
    exists w. unfold ret. auto.
Qed.

(** The gate is open: the loop runs, one clock reading later. *)
Lemma run_gemini_gate_open (prompt : string) (models : list string) (w : World) :
  gate_open P cfg w ->
  run_gemini_traced P cfg prompt models w
  = try_models P cfg prompt models "" (tick w).
Proof.
  intros (Hk & Hu & Ht). unfold run_gemini_traced, bind.
  rewrite gemini_available_configured by (now rewrite Hk, Hu).
  apply Z.leb_le in Ht. now rewrite Ht.
Qed.

(** The requests of one run of the loop go to a front part of the chain,
    one per model, in the chain's order; a non-empty chain gets at least
    its first model asked. *)
Lemma try_models_requests (prompt : string) (models : list string)
  (last_error : string) (w : World) :
  exists out w' n,
    try_models P cfg prompt models last_error w = (Ok out, w')
    /\ requests w' = requests w ++ requests_for prompt (firstn n models)
    /\ (models <> [] -> (1 <= n)%nat).
Proof.
  revert last_error w.
  induction models as [|m ms IH]; intros le w.
  - eexists _, w, 0%nat. simpl. unfold ret.
    split; [reflexivity|]. split; [now rewrite app_nil_r | congruence].
  - destruct (generate_content P (length (requests w)) m prompt) as [r|e] eqn:E.
    + rewrite (try_models_respond _ _ _ _ _ _ E).
      eexists _, _, 1%nat. split; [reflexivity|].
      split; [reflexivity | lia].
    + rewrite (try_models_raise _ _ _ _ _ _ E).
      destruct (IH e (after_failure P cfg m prompt e w)) as (out & w' & n & Hr & Hq & _).
      exists out, w', (S n). split; [exact Hr|].
      rewrite Hq, after_failure_requests. simpl.
      split; [now rewrite <- app_assoc | lia].
Qed.

(** What the loop returns is the error sentinel, or the answer to the
    request it logged last. *)
Lemma try_models_answer (prompt : string) (models : list string)
  (last_error : string) (w : World) :
  exists text le w',
    try_models P cfg prompt models last_error w = (Ok (text, le), w')
    /\ ((exists e, text = error_sentinel e) \/ answered_last P w' text).
Proof.
  revert last_error w.
  induction models as [|m ms IH]; intros le w.
  - exists (error_sentinel le), le, w. simpl. unfold ret.
    split; [reflexivity|]. left. now exists le.
  - destruct (generate_content P (length (requests w)) m prompt) as [r|e] eqn:E.
    + rewrite (try_models_respond _ _ _ _ _ _ E).
      eexists _, _, _. split; [reflexivity|]. right.
      exists m, prompt, r, (requests w). now repeat split.
    + rewrite (try_models_raise _ _ _ _ _ _ E). apply IH.
Qed.

Lemma run_gemini_answer (prompt : string) (models : list string) (w : World) :
  exists text w',
    _run_gemini P cfg prompt models w = (Ok text, w')
    /\ (text = "[Gemini disabled]"
        \/ (exists e, text = error_sentinel e)
        \/ answered_last P w' text).
Proof.
  unfold _run_gemini, run_gemini_traced.
  destruct (has_api_key cfg && USE_GEMINI cfg) eqn:E.
  - unfold bind at 1 2. rewrite (gemini_available_configured w E).
    destruct (_gemini_backoff_until w <=? time_time P (ticks w)).
    + destruct (try_models_answer prompt models "" (tick w))
        as (text & le & w' & Hr & Ht).
      rewrite Hr. exists text, w'. unfold ret. simpl. auto.
    + exists "[Gemini disabled]", (tick w). unfold ret. simpl. auto.
  - unfold bind at 1 2. rewrite (gemini_available_closed_config w E).
    exists "[Gemini disabled]", w. unfold ret. simpl. auto.
Qed.

Lemma run_gemini_of_traced (prompt : string) (models : list string)
  (text last_error : string) (w w' : World) :
  run_gemini_traced P cfg prompt models w = (Ok (text, last_error), w') ->
  _run_gemini P cfg prompt models w = (Ok text, w').
Proof. intros H. unfold _run_gemini. now rewrite (bind_ok _ _ _ _ _ H). Qed.

End InvokerFacts.

(* ===================================================================== *)
(** * The agents *)
(* ===================================================================== *)

Section AgentFacts.
Variable P : Platform.
Variable cfg : Config.

Lemma parse_plan_object (text : string) (obj : Dict PyVal) :
  decoded_object P text = Some obj ->
  parse_plan P text
  = {| plan_summary := dict_get "summary" (VStr "") obj;
       plan_recommendation := dict_get "recommendation" (VStr "") obj |}.
Proof.
  unfold decoded_object, parse_plan.
  destruct (json_loads P text) as [[]|]; try discriminate.
  now intros [= ->].
Qed.

Lemma parse_plan_raw (text : string) :
  decoded_object P text = None ->
  parse_plan P text
  = {| plan_summary := VStr text; plan_recommendation := VStr text |}.
Proof.
  unfold decoded_object, parse_plan.
  destruct (json_loads P text) as [[]|]; try discriminate; reflexivity.
Qed.

Lemma needs_fallback_str (text : string) :
  needs_fallback (VStr text)
  = Ok (PyStr.is_empty text || PyStr.startswith text "[Gemini").
Proof. now destruct text. Qed.

Lemma plan_dispatch_unfold (incident : PyVal) (text : string) (w w1 : World) :
  dispatch_ask_gemini P cfg (dispatch_prompt P incident) w = (Ok text, w1) ->
  _plan_dispatch P cfg incident w
  = match needs_fallback (plan_summary (parse_plan P text)) with
    | Ok true =>
        match plan_relief_response P incident 2 w1 with
        | (Ok fallback, w2) => (Ok (plan_of_fallback fallback), w2)
        | (Raise e, w2) => (Raise e, w2)
        end
    | Ok false => (Ok (parse_plan P text), w1)
    | Raise e => (Raise e, w1)
    end.
Proof.
  intros H. unfold _plan_dispatch. fold (dispatch_prompt P incident).
  rewrite (bind_ok _ _ _ _ _ H). unfold bind, lift.
  destruct (needs_fallback _) as [[|]|e]; reflexivity.
Qed.

Lemma invoker_text_undecodable (text : string) :
  rejects_sentinels P -> unusable_backend P ->
  invoker_text P text -> json_loads P text = None.
Proof.
  intros Hs Hb [-> | [[e ->] | (k & m & p & r & Hr & ->)]].
  - apply (Hs " disabled]").
  - apply (Hs (" error: "
               +:+ (if PyStr.is_empty e then "unavailable" else e) +:+ "]")).
  - eapply Hb, Hr.
Qed.

Lemma decoded_object_none (text : string) :
  json_loads P text = None -> decoded_object P text = None.
Proof. unfold decoded_object. now intros ->. Qed.

(** What [DispatchAgent.handle_envelope] returns once the plan is known. *)
Lemma dispatch_handle_envelope_plan (self : DispatchAgent)
  (envelope : MessageEnvelope) (session : option Session)
  (plan : Plan) (w w' : World) :
  let incident := dict_get "incident" (VDict (content envelope)) (content envelope) in
  _plan_dispatch P cfg incident w = (Ok plan, w') ->
  dispatch_handle_envelope P cfg self envelope session w
  = (Ok ({| dispatch_name := dispatch_name self;
            dispatch_memory :=
              add_fact (VDict [("incident", incident);
                               ("summary", plan_summary plan)])
                       (dispatch_memory self) |},
         add_trace (dispatch_name self)
           (VDict [("summary", plan_summary plan);
                   ("recommendation", plan_recommendation plan)])
           (set_content
              (dict_set "recommendation" (plan_recommendation plan)
                 (dict_set "summary" (plan_summary plan)
                    (dict_set "incident" incident (content envelope))))
              envelope),
         add_turn_opt (fmt P incident) (plan_recommendation plan) session),
     w').
Proof.
  intros incident H. unfold dispatch_handle_envelope.
  fold incident. now rewrite (bind_ok _ _ _ _ _ H).
Qed.

(** The display text is the formatted alert, at most 60 characters, or the
    backend's own text, the answer to the request logged last. *)
Lemma summarize_for_display_total
  (summary recommendation urgency incident : PyVal) (w : World) :
  truthy incident = false \/ (exists d, incident = VDict d) ->
  exists ds w',
    summarize_for_display P cfg summary recommendation urgency incident w
    = (Ok ds, w')
    /\ ((String.length ds <= 60)%nat
        \/ exists text, answered_last P w' text /\ ds = PyStr.strip text)
    /\ _UNIT_STATUS w' = _UNIT_STATUS w.
Proof.
  intros Hinc. unfold summarize_for_display.
  match goal with
  | |- context [_run_gemini P cfg ?p ?c] =>
      destruct (run_gemini_answer P cfg p c w) as (text & w1 & Hr & Ht);
      destruct (run_gemini_total P cfg p c w) as (text' & w1' & Hr' & _ & Hst & _)
  end.
  rewrite Hr in Hr'. injection Hr' as <- <-.
  rewrite (bind_ok _ _ _ _ _ Hr).
  destruct (PyStr.startswith text "[Gemini") eqn:E.
  - destruct (format_display_alert_ok P summary recommendation incident urgency Hinc)
      as (ds & Hds & Hlen).
    unfold lift. rewrite Hds. exists ds, w1. auto.
  - unfold ret. exists (PyStr.strip text), w1.
    split; [reflexivity|]. split; [|exact Hst].
    destruct Ht as [-> | [[e ->] | Ht]].
    + discriminate.
    + discriminate.
    + right. now exists text.
Qed.

Lemma summary_handle_envelope_total (self : SummaryAgent)
  (envelope : MessageEnvelope) (session : option Session) (w : World) :
  (let incident := dict_get "incident" (VDict []) (content envelope) in
   truthy incident = false \/ (exists d, incident = VDict d)) ->
  exists ds w',
    summary_handle_envelope P cfg self envelope session w
    = (Ok (self,
           set_content (dict_set "display_summary" (VStr ds) (content envelope))
             (add_trace (summary_name self)
                (VDict [("display_summary", VStr ds)]) envelope),
           session), w')
    /\ ((String.length ds <= 60)%nat
        \/ exists text, answered_last P w' text /\ ds = PyStr.strip text)
    /\ _UNIT_STATUS w' = _UNIT_STATUS w.
Proof.
  intros Hinc. unfold summary_handle_envelope.
  destruct (summarize_for_display_total
              (dict_get "summary" (VStr "") (content envelope))
              (dict_get "recommendation" (VStr "") (content envelope))
              (dict_get "urgency" (VStr "CRITICAL") (content envelope))
              (dict_get "incident" (VDict []) (content envelope)) w Hinc)
    as (ds & w' & Hr & Hlen & Hst).
  rewrite (bind_ok _ _ _ _ _ Hr). unfold ret.
  exists ds, w'. auto.
Qed.

Lemma orchestrate_cons (a a' : Agent) (rest rest' : list Agent)
  (envelope e1 e2 : MessageEnvelope) (session s1 s2 : option Session)
  (w w1 w2 : World) :
  agent_handle_envelope P cfg a
    (set_routing (receiver envelope) (VStr (agent_name a)) envelope) session w
  = (Ok (a', e1, s1), w1) ->
  orchestrate P cfg rest e1 s1 w1 = (Ok (rest', e2, s2), w2) ->
  orchestrate P cfg (a :: rest) envelope session w
  = (Ok (a' :: rest', e2, s2), w2).
Proof.
  intros Ha Hrest. simpl. unfold bind. rewrite Ha, Hrest. reflexivity.
Qed.

Lemma agent_handle_dispatch (a a' : DispatchAgent)
  (e e' : MessageEnvelope) (s s' : option Session) (w w' : World) :
  dispatch_handle_envelope P cfg a e s w = (Ok (a', e', s'), w') ->
  agent_handle_envelope P cfg (ADispatch a) e s w = (Ok (ADispatch a', e', s'), w').
Proof. intros H. simpl. unfold bind. now rewrite H. Qed.

Lemma agent_handle_resource (a a' : ResourceAgent)
  (e e' : MessageEnvelope) (s s' : option Session) (w w' : World) :
  resource_handle_envelope P cfg a e s w = (Ok (a', e', s'), w') ->
  agent_handle_envelope P cfg (AResource a) e s w = (Ok (AResource a', e', s'), w').
Proof. intros H. simpl. unfold bind. now rewrite H. Qed.

Lemma agent_handle_summary (a a' : SummaryAgent)
  (e e' : MessageEnvelope) (s s' : option Session) (w w' : World) :
  summary_handle_envelope P cfg a e s w = (Ok (a', e', s'), w') ->
  agent_handle_envelope P cfg (ASummary a) e s w = (Ok (ASummary a', e', s'), w').
Proof. intros H. simpl. unfold bind. now rewrite H. Qed.

Lemma agent_handle_decision (a a' : DecisionAgent)
  (e e' : MessageEnvelope) (s s' : option Session) (w w' : World) :
  decision_handle_envelope P a e s w = (Ok (a', e', s'), w') ->
  agent_handle_envelope P cfg (ADecision a) e s w = (Ok (ADecision a', e', s'), w').
Proof. intros H. simpl. unfold bind. now rewrite H. Qed.

End AgentFacts.

(* ===================================================================== *)
(** * Decision history *)
(* ===================================================================== *)

Lemma last_n_length {A} (n : nat) (l : list A) :
  (length (last_n n l) <= n)%nat.
Proof. unfold last_n. rewrite length_skipn. lia. Qed.

Lemma last_n_length_min {A} (n : nat) (l : list A) :
  length (last_n n l) = Nat.min n (length l).
Proof. unfold last_n. rewrite length_skipn. lia. Qed.

Lemma last_n_app_last_n {A} (n : nat) (l l2 : list A) :
  last_n n (last_n n l ++ l2) = last_n n (l ++ l2).
Proof.
  unfold last_n.
  destruct (Nat.le_gt_cases (length l) n) as [Hle|Hgt].
  - replace (length l - n)%nat with 0%nat by lia. reflexivity.
  - rewrite !length_app, length_skipn.
    rewrite !List.skipn_app, length_skipn, List.skipn_skipn.
    f_equal; f_equal; lia.
Qed.

Section DecisionFacts.
Variable P : Platform.

Lemma entries_from_length (subs : list Submission) (k : nat) :
  length (entries_from P k subs) = length subs.
Proof.
  revert k. induction subs as [|s rest IH]; intros k; simpl; [reflexivity|].
  now rewrite IH.
Qed.

Lemma decision_entry_spec (action incident_id : PyVal) (w : World) :
  decision_entry P action incident_id w
  = (Ok (entry_at P action incident_id (ticks w)), tick w).
Proof. reflexivity. Qed.

Lemma submit_spec (self : DecisionAgent) (s : Submission) (w : World) :
  submit P self s w
  = (Ok (record_decision
           (entry_at P (submitted_action s) (submitted_incident s) (ticks w))
           self),
     tick w).
Proof. destruct s; reflexivity. Qed.

Lemma run_submissions_spec (subs : list Submission) (self : DecisionAgent) (w : World) :
  exists self' w',
    run_submissions P self subs w = (Ok self', w')
    /\ decision_name self' = decision_name self
    /\ (subs <> [] ->
        history self' = last_n 10 (history self ++ entries_from P (ticks w) subs)).
Proof.
  revert self w. induction subs as [|s rest IH]; intros self w.
  - exists self, w. repeat split; auto. congruence.
  - simpl. unfold bind. rewrite submit_spec.
    destruct (IH (record_decision
                    (entry_at P (submitted_action s) (submitted_incident s) (ticks w))
                    self) (tick w)) as (self' & w' & Hr & Hn & Hh).
    exists self', w'. split; [exact Hr|]. split; [exact Hn|].
    intros _. destruct rest as [|s2 rest].
    + simpl in Hr. injection Hr as <- <-. reflexivity.
    + rewrite Hh by discriminate. simpl history.
      rewrite last_n_app_last_n, <- app_assoc. reflexivity.
Qed.

End DecisionFacts.

(* ===================================================================== *)
(** * The trace *)
(* ===================================================================== *)

Ltac invert_bind H :=
  let a := fresh "a" in
  let w := fresh "w" in
  let Ha := fresh "Hstep" in
  apply bind_inv in H as (a & w & Ha & H).

Section TraceFacts.
Variable P : Platform.
Variable cfg : Config.

Lemma dispatch_appends (a a' : DispatchAgent) (e e' : MessageEnvelope)
  (s s' : option Session) (w w' : World) :
  dispatch_handle_envelope P cfg a e s w = (Ok (a', e', s'), w') ->
  appends_own_entry (dispatch_name a) e e' /\ dispatch_name a' = dispatch_name a.
Proof.
  unfold dispatch_handle_envelope. intros H. invert_bind H.
  unfold ret in H. injection H as <- <- <- <-.
  split; [|reflexivity]. split; [eexists; reflexivity | auto].
Qed.

Lemma resource_appends (a a' : ResourceAgent) (e e' : MessageEnvelope)
  (s s' : option Session) (w w' : World) :
  resource_handle_envelope P cfg a e s w = (Ok (a', e', s'), w') ->
  appends_own_entry (resource_name a) e e' /\ resource_name a' = resource_name a.
Proof.
  unfold resource_handle_envelope. intros H. invert_bind H.
  destruct (parse_resources P a0) as [resources resource_summary].
  invert_bind H. destruct a1 as [res sum].
  unfold ret in H. injection H as <- <- <- <-.
  split; [|reflexivity]. split; [eexists; reflexivity | auto].
Qed.

Lemma summary_appends (a a' : SummaryAgent) (e e' : MessageEnvelope)
  (s s' : option Session) (w w' : World) :
  summary_handle_envelope P cfg a e s w = (Ok (a', e', s'), w') ->
  appends_own_entry (summary_name a) e e' /\ summary_name a' = summary_name a.
Proof.
  unfold summary_handle_envelope. intros H. invert_bind H.
  unfold ret in H. injection H as <- <- <- <-.
  split; [|reflexivity]. split; [eexists; reflexivity | auto].
Qed.

Lemma decision_appends (a a' : DecisionAgent) (e e' : MessageEnvelope)
  (s s' : option Session) (w w' : World) :
  decision_handle_envelope P a e s w = (Ok (a', e', s'), w') ->
  appends_own_entry (decision_name a) e e' /\ decision_name a' = decision_name a.
Proof.
  unfold decision_handle_envelope. intros H. invert_bind H.
  unfold ret in H. injection H as <- <- <- <-.
  split; [|reflexivity]. split; [eexists; reflexivity | auto].
Qed.

(** Every agent, whatever its kind. *)
Lemma agent_appends (a a' : Agent) (e e' : MessageEnvelope)
  (s s' : option Session) (w w' : World) :
  agent_handle_envelope P cfg a e s w = (Ok (a', e', s'), w') ->
  appends_own_entry (agent_name a) e e' /\ agent_name a' = agent_name a.
Proof.
  destruct a as [a|a|a|a]; simpl; intros H; invert_bind H;
    destruct a0 as [[a1 e1] s1]; unfold ret in H; simpl in H;
    injection H as <- <- <- <-.
  - eapply dispatch_appends; eassumption.
  - eapply resource_appends; eassumption.
  - eapply summary_appends; eassumption.
  - eapply decision_appends; eassumption.
Qed.

(** An orchestration that returns has added the agents' names to the
    trace, one entry each, in the order of the agents. *)
Lemma orchestrate_trace (agents agents' : list Agent) (e e' : MessageEnvelope)
  (s s' : option Session) (w w' : World) :
  orchestrate P cfg agents e s w = (Ok (agents', e', s'), w') ->
  map agent (trace e') = map agent (trace e) ++ names_of agents
  /\ names_of agents' = names_of agents
  /\ context e' = context e.
Proof.
  revert agents' e e' s s' w w'.
  induction agents as [|a rest IH]; intros agents' e e' s s' w w' H.
  - simpl in H. unfold ret in H. injection H as <- <- <- <-.
    simpl. now rewrite app_nil_r.
  - simpl in H. invert_bind H. destruct a0 as [[a1 e1] s1].
    invert_bind H. destruct a0 as [[rest1 e2] s2].
    unfold ret in H. injection H as <- <- <- <-.
    apply agent_appends in Hstep as [([msg Ht] & _ & _ & Hc) Hn].
    apply IH in Hstep0 as (Ht' & Hn' & Hc').
    simpl in Ht, Hc. rewrite Ht', Ht, map_app, <- app_assoc. simpl.
    repeat split; congruence.
Qed.

End TraceFacts.

(* ===================================================================== *)
(** * The standard pipeline returns *)
(* ===================================================================== *)

Lemma dict_get_lookup {A} (k : string) (v default : A) (c : Dict A) :
  dict_lookup k c = Some v -> dict_get k default c = v.
Proof. unfold dict_get. now intros ->. Qed.

Lemma needs_fallback_textual (v : PyVal) :
  textual v = true -> exists b, needs_fallback v = Ok b.
Proof.
  unfold needs_fallback.
  destruct (truthy v) eqn:E; simpl; [|intros _; now exists true].
  destruct v; simpl in *; intros H; try discriminate;
    try (eexists; reflexivity); rewrite E in H; discriminate.
Qed.

Section PipelineFacts.
Variable P : Platform.
Variable cfg : Config.

Lemma plan_dispatch_ok (d : Dict PyVal) (w : World) :
  summaries_textual P -> planner_ready d -> tracked w ->
  exists plan w',
    _plan_dispatch P cfg (VDict d) w = (Ok plan, w')
    /\ _UNIT_STATUS w' = _UNIT_STATUS w.
Proof.
  intros Hst Hd Hw.
  destruct (run_gemini_total P cfg (dispatch_prompt P (VDict d))
              (DISPATCH_MODEL_CHAIN cfg) w) as (text & w1 & Hr & Ht & Hs1 & _).
  rewrite (plan_dispatch_unfold P cfg (VDict d) text w w1 Hr).
  assert (Hb : exists b, needs_fallback (plan_summary (parse_plan P text)) = Ok b).
  { destruct (decoded_object P text) as [obj|] eqn:E.
    - rewrite (parse_plan_object P text obj E). simpl.
      apply needs_fallback_textual. eapply Hst; [exact Ht | exact E].
    - rewrite (parse_plan_raw P text E). simpl.
      rewrite needs_fallback_str. now eexists. }
  destruct Hb as [[|] ->].
  - destruct (plan_relief_response_ok P d 2 w1 Hd (tracked_same _ _ Hs1 Hw))
      as (rp & w2 & Hp & (Hg & _) & _).
    rewrite Hp. eexists _, w2. split; [reflexivity | congruence].
  - eexists _, w1. split; [reflexivity | exact Hs1].
Qed.

Lemma dispatch_handle_envelope_ok (a : DispatchAgent) (e : MessageEnvelope)
  (s : option Session) (d : Dict PyVal) (w : World) :
  summaries_textual P -> incident_of e = VDict d -> planner_ready d -> tracked w ->
  exists a' e' s' w',
    dispatch_handle_envelope P cfg a e s w = (Ok (a', e', s'), w')
    /\ dict_lookup "incident" (content e') = Some (VDict d)
    /\ _UNIT_STATUS w' = _UNIT_STATUS w.
Proof.
  intros Hst Hinc Hd Hw. unfold incident_of in Hinc.
  destruct (plan_dispatch_ok d w Hst Hd Hw) as (plan & w' & Hp & Hs).
  rewrite <- Hinc in Hp.
  rewrite (dispatch_handle_envelope_plan P cfg a e s plan w w' Hp).
  eexists _, _, _, w'. split; [reflexivity|]. split; [|exact Hs].
  simpl. rewrite !dict_lookup_set_ne by discriminate.
  rewrite Hinc. apply dict_lookup_set_eq.
Qed.

Lemma resource_handle_envelope_ok (a : ResourceAgent) (e : MessageEnvelope)
  (s : option Session) (d : Dict PyVal) (w : World) :
  dict_lookup "incident" (content e) = Some (VDict d) ->
  planner_ready d -> tracked w ->
  exists a' e' s' w',
    resource_handle_envelope P cfg a e s w = (Ok (a', e', s'), w')
    /\ dict_lookup "incident" (content e') = Some (VDict d)
    /\ _UNIT_STATUS w' = _UNIT_STATUS w.
Proof.
  intros Hinc Hd Hw. unfold resource_handle_envelope.
  rewrite (dict_get_lookup _ _ _ _ Hinc).
  unfold resource_ask_gemini.
  match goal with
  | |- context [_run_gemini P cfg ?p ?c] =>
      destruct (run_gemini_total P cfg p c w) as (text & w1 & Hr & _ & Hs1 & _)
  end.
  rewrite (bind_ok _ _ _ _ _ Hr).
  destruct (parse_resources P text) as [resources resource_summary].
  destruct (resources_unusable resources).
  - destruct (plan_relief_response_ok P d 2 w1 Hd (tracked_same _ _ Hs1 Hw))
      as (rp & w2 & Hp & (Hg & _) & _).
    unfold bind at 1. unfold bind at 1. rewrite Hp. unfold ret.
    eexists _, _, _, w2. split; [reflexivity|]. split; [|congruence].
    simpl. now rewrite !dict_lookup_set_ne by discriminate.
  - unfold bind, ret.
    eexists _, _, _, w1. split; [reflexivity|]. split; [|exact Hs1].
    simpl. now rewrite !dict_lookup_set_ne by discriminate.
Qed.

Lemma summary_handle_envelope_ok (a : SummaryAgent) (e : MessageEnvelope)
  (s : option Session) (d : Dict PyVal) (w : World) :
  dict_lookup "incident" (content e) = Some (VDict d) ->
  exists a' e' s' w',
    summary_handle_envelope P cfg a e s w = (Ok (a', e', s'), w')
    /\ _UNIT_STATUS w' = _UNIT_STATUS w.
Proof.
  intros Hinc.
  destruct (summary_handle_envelope_total P cfg a e s w)
    as (ds & w' & Hr & _ & Hs).
  { right. exists d. now apply dict_get_lookup. }
  eexists _, _, _, w'. split; [exact Hr | exact Hs].
Qed.

Lemma decision_handle_envelope_ok (a : DecisionAgent) (e : MessageEnvelope)
  (s : option Session) (w : World) :
  exists a' e' s' w',
    decision_handle_envelope P a e s w = (Ok (a', e', s'), w').
Proof. eexists _, _, _, _. reflexivity. Qed.

(** The four agents of [get_a2a_orchestrator] in a row. *)
Lemma a2a_pipeline_total (decision_agent : DecisionAgent) (e : MessageEnvelope)
  (s : option Session) (d : Dict PyVal) (w : World) :
  summaries_textual P -> incident_of e = VDict d -> planner_ready d -> tracked w ->
  exists agents' e' s' w',
    orchestrate P cfg (get_a2a_orchestrator decision_agent) e s w
    = (Ok (agents', e', s'), w').
Proof.
  intros Hst Hinc Hd Hw. unfold get_a2a_orchestrator.
  destruct (dispatch_handle_envelope_ok get_dispatch_agent
              (set_routing (receiver e) (VStr "ResQ-Agent") e) s d w
              Hst Hinc Hd Hw)
    as (a1 & e1 & s1 & w1 & H1 & Hi1 & Hs1).
  destruct (resource_handle_envelope_ok get_resource_agent
              (set_routing (receiver e1) (VStr "Resource-Agent") e1) s1 d w1
              Hi1 Hd (tracked_same _ _ Hs1 Hw))
    as (a2 & e2 & s2 & w2 & H2 & Hi2 & Hs2).
  destruct (summary_handle_envelope_ok get_summary_agent
              (set_routing (receiver e2) (VStr "Summary-Agent") e2) s2 d w2 Hi2)
    as (a3 & e3 & s3 & w3 & H3 & Hs3).
  destruct (decision_handle_envelope_ok decision_agent
              (set_routing (receiver e3) (VStr (decision_name decision_agent)) e3)
              s3 w3)
    as (a4 & e4 & s4 & w4 & H4).
  eexists _, _, _, _.
  eapply orchestrate_cons; [apply agent_handle_dispatch, H1|].
  eapply orchestrate_cons; [apply agent_handle_resource, H2|].
  eapply orchestrate_cons; [apply agent_handle_summary, H3|].
  eapply orchestrate_cons; [apply agent_handle_decision, H4|].
  reflexivity.
Qed.

End PipelineFacts.

(* ===================================================================== *)
(** * Facts about the scenarios *)
(* ===================================================================== *)

Lemma initial_world_tracked (P : Platform) : tracked (initial_world P).
Proof.
  unfold tracked, _UNIT_REGISTRY.
  repeat (apply List.Forall_cons; [eexists; vm_compute; reflexivity|]).
  apply List.Forall_nil.
Qed.

Lemma scripted_rejects_sentinels (reply : nat -> string -> string -> Outcome)
  (noise : nat -> Z) : rejects_sentinels (scripted reply noise).
Proof. intros s. apply json_rejects_sentinels. Qed.

Lemma offline_rejects_sentinels : rejects_sentinels offline.
Proof. apply scripted_rejects_sentinels. Qed.

Lemma offline_summaries_textual : summaries_textual offline.
Proof.
  intros text obj Ht Hdec.
  assert (Hnone : json_loads offline text = None).
  { apply invoker_text_undecodable; [apply offline_rejects_sentinels | | exact Ht].
    intros k m p r H. discriminate. }
  unfold decoded_object in Hdec. rewrite Hnone in Hdec. discriminate.
Qed.

(* ===================================================================== *)
(** * More facts about strings and dictionaries *)
(* ===================================================================== *)

Lemma lstrip_head (s : string) (c : ascii) (t : string) :
  PyStr.lstrip s = String c t -> PyStr.is_space c = false.
Proof.
  induction s as [|c' s IH]; simpl; [discriminate|].
  destruct (PyStr.is_space c') eqn:E; [exact IH|].
  now intros [= <- _].
Qed.

Lemma rstrip_head (s : string) (c : ascii) (t : string) :
  PyStr.rstrip s = String c t -> exists t', s = String c t'.
Proof.
  destruct s as [|c' s]; simpl; [discriminate|].
  destruct (PyStr.rstrip s); [destruct (PyStr.is_space c')|];
    intros [= <- _]; eauto.
Qed.

Lemma strip_head (s : string) (c : ascii) (t : string) :
  PyStr.strip s = String c t -> PyStr.is_space c = false.
Proof.
  unfold PyStr.strip. intros H.
  destruct (rstrip_head _ _ _ H) as [t' Ht'].
  exact (lstrip_head _ _ _ Ht').
Qed.

Lemma rstrip_idem (s : string) : PyStr.rstrip (PyStr.rstrip s) = PyStr.rstrip s.
Proof.
  induction s as [|c s IH]; simpl; [reflexivity|].
  destruct (PyStr.rstrip s) as [|c' t'] eqn:E.
  - destruct (PyStr.is_space c) eqn:Ec; simpl; [reflexivity|].
    now rewrite Ec.
  - simpl in IH |- *. now rewrite IH.
Qed.

Lemma lstrip_fixed (s : string) :
  (forall c t, s = String c t -> PyStr.is_space c = false) ->
  PyStr.lstrip s = s.
Proof.
  destruct s as [|c t]; simpl; [reflexivity|].
  intros H. now rewrite (H c t eq_refl).
Qed.

Lemma strip_idem (s : string) : PyStr.strip (PyStr.strip s) = PyStr.strip s.
Proof.
  unfold PyStr.strip at 1.
  rewrite (lstrip_fixed (PyStr.strip s)).
  - unfold PyStr.strip. apply rstrip_idem.
  - intros c t H. exact (strip_head _ _ _ H).
Qed.

Lemma rstrip_append (a b : string) :
  PyStr.rstrip b = b -> b <> EmptyString -> PyStr.rstrip (a +:+ b) = a +:+ b.
Proof.
  intros Hb Hne. induction a as [|c a IH]; [exact Hb|].
  change (String c a +:+ b) with (String c (a +:+ b)).
  change (PyStr.rstrip (String c (a +:+ b)))
    with (match PyStr.rstrip (a +:+ b) with
          | EmptyString =>
              if PyStr.is_space c then EmptyString else String c EmptyString
          | t' => String c t'
          end).
  rewrite IH. destruct (a +:+ b) eqn:E; [|reflexivity].
  destruct a; [change (b = EmptyString) in E; congruence | discriminate].
Qed.

Lemma lower_char_space (c : ascii) :
  PyStr.is_space (PyStr.lower_char c) = PyStr.is_space c.
Proof.
  destruct c as [[] [] [] [] [] [] [] []]; reflexivity.
Qed.

Lemma lower_char_idem (c : ascii) :
  PyStr.lower_char (PyStr.lower_char c) = PyStr.lower_char c.
Proof.
  destruct c as [[] [] [] [] [] [] [] []]; reflexivity.
Qed.

Lemma lower_idem (s : string) : PyStr.lower (PyStr.lower s) = PyStr.lower s.
Proof.
  induction s as [|c s IH]; simpl; [reflexivity|].
  now rewrite lower_char_idem, IH.
Qed.

Lemma lstrip_lower (s : string) :
  PyStr.lstrip (PyStr.lower s) = PyStr.lower (PyStr.lstrip s).
Proof.
  induction s as [|c s IH]; simpl; [reflexivity|].
  rewrite lower_char_space. now destruct (PyStr.is_space c).
Qed.

Lemma rstrip_lower (s : string) :
  PyStr.rstrip (PyStr.lower s) = PyStr.lower (PyStr.rstrip s).
Proof.
  induction s as [|c s IH]; simpl; [reflexivity|].
  rewrite IH, lower_char_space.
  destruct (PyStr.rstrip s); simpl; [|reflexivity].
  now destruct (PyStr.is_space c).
Qed.

Lemma strip_lower (s : string) :
  PyStr.strip (PyStr.lower s) = PyStr.lower (PyStr.strip s).
Proof. unfold PyStr.strip. now rewrite lstrip_lower, rstrip_lower. Qed.

Lemma lower_empty (s : string) : PyStr.lower s = EmptyString -> s = EmptyString.
Proof. now destruct s. Qed.

Lemma strip_blank (s : string) : visible s = false -> PyStr.strip s = EmptyString.
Proof.
  intros H. unfold PyStr.strip. apply rstrip_empty_iff.
  now rewrite visible_lstrip.
Qed.

Lemma contains_empty (s : string) : PyStr.contains "" s = true.
Proof. destruct s; reflexivity. Qed.

Lemma dict_get_set_eq {A} (k : string) (v default : A) (d : Dict A) :
  dict_get k default (dict_set k v d) = v.
Proof. unfold dict_get. now rewrite dict_lookup_set_eq. Qed.

Lemma dict_get_set_ne {A} (k k' : string) (v default : A) (d : Dict A) :
  k <> k' -> dict_get k' default (dict_set k v d) = dict_get k' default d.
Proof. intros H. unfold dict_get. now rewrite dict_lookup_set_ne. Qed.

Lemma dict_lookup_set_some {A} (k k' : string) (v : A) (d : Dict A) :
  is_Some (dict_lookup k' d) -> is_Some (dict_lookup k' (dict_set k v d)).
Proof.
  intros H. destruct (String.eqb_spec k k') as [->|Hne].
  - rewrite dict_lookup_set_eq. now eexists.
  - now rewrite dict_lookup_set_ne.
Qed.

Lemma dict_lookup_setdefault_ne {A} (k k' : string) (v : A) (d : Dict A) :
  k <> k' -> dict_lookup k' (dict_setdefault k v d) = dict_lookup k' d.
Proof.
  intros H. unfold dict_setdefault.
  destruct (dict_lookup k d); [reflexivity|]. now apply dict_lookup_set_ne.
Qed.

Lemma dict_lookup_setdefault_eq {A} (k : string) (v : A) (d : Dict A) :
  dict_lookup k (dict_setdefault k v d)
  = Some (match dict_lookup k d with Some v' => v' | None => v end).
Proof.
  unfold dict_setdefault.
  destruct (dict_lookup k d) eqn:E; [exact E|]. apply dict_lookup_set_eq.
Qed.

Lemma dict_lookup_setdefault_keeps {A} (k k' : string) (v v' : A) (d : Dict A) :
  dict_lookup k' d = Some v' -> dict_lookup k' (dict_setdefault k v d) = Some v'.
Proof.
  intros H. destruct (String.eqb_spec k k') as [->|Hne].
  - now rewrite dict_lookup_setdefault_eq, H.
  - now rewrite dict_lookup_setdefault_ne.
Qed.

(* ===================================================================== *)
(** * More facts about the planner and the unit status map *)
(* ===================================================================== *)

Lemma registry_ids_distinct : List.NoDup (map u_id _UNIT_REGISTRY).
Proof.
  apply NoDup_ListNoDup.
  refine (bool_decide_unpack _ _). vm_compute. exact I.
Qed.

Lemma nodup_map_filter {A B} (g : A -> B) (f : A -> bool) (l : list A) :
  List.NoDup (map g l) -> List.NoDup (map g (List.filter f l)).
Proof.
  induction l as [|a l IH]; simpl; [constructor|].
  intros H. inversion H as [|? ? Hnin Hnd]; subst.
  destruct (f a); simpl; [|now apply IH].
  constructor; [|now apply IH].
  intros Hin. apply Hnin. apply in_map_iff in Hin as (x & Hx & Hin).
  apply in_map_iff. exists x. split; [exact Hx|].
  now apply filter_In in Hin as [Hin _].
Qed.

Lemma nodup_firstn {A} (n : nat) (l : list A) : List.NoDup l -> List.NoDup (firstn n l).
Proof.
  intros H. rewrite <- (firstn_skipn n l) in H.
  now apply NoDup_app_remove_r in H.
Qed.

Lemma slice_to_incl {A} (n : Z) (l : list A) (x : A) :
  In x (slice_to n l) -> In x l.
Proof.
  assert (Hf : forall k, In x (firstn k l) -> In x l).
  { intros k H. rewrite <- (firstn_skipn k l). apply in_or_app. now left. }
  unfold slice_to. destruct (0 <=? n); apply Hf.
Qed.

Lemma slice_to_nodup {A} (n : Z) (l : list A) : List.NoDup l -> List.NoDup (slice_to n l).
Proof. unfold slice_to. destruct (0 <=? n); apply nodup_firstn. Qed.

Lemma slice_to_length {A} (n : Z) (l : list A) :
  0 <= n -> Z.of_nat (length (slice_to n l)) <= n.
Proof.
  intros H. unfold slice_to. destruct (Z.leb_spec 0 n); [|lia].
  rewrite length_firstn. lia.
Qed.

Lemma slice_to_nil {A} (n : Z) (l : list A) :
  1 <= n -> slice_to n l = [] -> l = [].
Proof.
  intros H. unfold slice_to. destruct (Z.leb_spec 0 n); [|lia].
  destruct (Z.to_nat n) eqn:E; [lia|]. now destruct l.
Qed.

Lemma unit_score_nonneg (ty ur : string) (u : Unit) : 0 <= unit_score ty ur u.
Proof.
  unfold unit_score.
  destruct (bool_decide _), (PyStr.contains _ _), (_ || _); lia.
Qed.

Section LifecycleFacts.
Variable P : Platform.

Lemma release_unit_ok (unit_id : string) (w : World) :
  release_unit P unit_id w
  = (Ok tt,
     if bool_decide (unit_id ∈ dom (_UNIT_STATUS w))
     then set_unit_status
            (<[ unit_id := {| status := "available"; incident_id := VNone;
                              last_updated := datetime_utcnow P (ticks w) |} ]>
               (_UNIT_STATUS w))
            (tick w)
     else w).
Proof.
  unfold release_unit, bind, gets, read_utcnow, modify, ret. simpl.
  destruct (bool_decide (unit_id ∈ dom (_UNIT_STATUS w))); reflexivity.
Qed.

Lemma is_available_insert (w w' : World) (unit_id : string) (st : UnitStatus)
  (u : Unit) :
  _UNIT_STATUS w' = <[ unit_id := st ]> (_UNIT_STATUS w) ->
  is_available w' u
  = if String.eqb (u_id u) unit_id then String.eqb (status st) "available"
    else is_available w u.
Proof.
  intros E. unfold is_available. rewrite E.
  destruct (String.eqb_spec (u_id u) unit_id) as [->|Hne].
  - now rewrite lookup_insert_eq.
  - now rewrite lookup_insert_ne by congruence.
Qed.

Lemma is_available_unknown (w : World) (u : Unit) :
  u_id u ∉ dom (_UNIT_STATUS w) -> is_available w u = false.
Proof.
  intros H. unfold is_available.
  apply not_elem_of_dom in H. now rewrite H.
Qed.

Lemma notify_dispatch_available (unit_id : string) (d : Dict PyVal)
  (w : World) (u : Unit) :
  is_available (snd (notify_dispatch P unit_id (VDict d) w)) u
  = is_available w u && negb (String.eqb (u_id u) unit_id).
Proof.
  rewrite notify_dispatch_ok. simpl.
  destruct (bool_decide (unit_id ∈ dom (_UNIT_STATUS w))) eqn:E.
  - erewrite is_available_insert by reflexivity. simpl.
    destruct (String.eqb (u_id u) unit_id); simpl.
    + now rewrite andb_false_r.
    + now rewrite andb_true_r.
  - apply bool_decide_eq_false_1 in E.
    change (is_available (tick w) u) with (is_available w u).
    destruct (String.eqb_spec (u_id u) unit_id) as [Heq|Hne]; simpl.
    + rewrite andb_false_r. apply is_available_unknown. now rewrite Heq.
    + now rewrite andb_true_r.
Qed.

Lemma release_unit_available (unit_id : string) (w : World) (u : Unit) :
  is_Some (_UNIT_STATUS w !! u_id u) ->
  is_available (snd (release_unit P unit_id w)) u
  = is_available w u || String.eqb (u_id u) unit_id.
Proof.
  intros Hu. rewrite release_unit_ok. simpl.
  destruct (bool_decide (unit_id ∈ dom (_UNIT_STATUS w))) eqn:E.
  - erewrite is_available_insert by reflexivity. simpl.
    destruct (String.eqb (u_id u) unit_id); simpl.
    + now rewrite orb_true_r.
    + now rewrite orb_false_r.
  - apply bool_decide_eq_false_1 in E.
    destruct (String.eqb_spec (u_id u) unit_id) as [Heq|Hne]; simpl.
    + exfalso. apply E. rewrite <- Heq. now apply elem_of_dom.
    + now rewrite orb_false_r.
Qed.

Lemma available_units_are_free (w : World) :
  tracked w ->
  exists cands w',
    get_available_units P VNone None w = (Ok cands, w')
    /\ same_globals w w'
    /\ StronglySorted (key_le eta_minutes) cands
    /\ Permutation (map base cands)
         (List.filter (is_available w) _UNIT_REGISTRY).
Proof.
  intros Hw.
  destruct (get_available_units_ok P VNone None w eq_refl Hw)
    as (cands & w' & Hc & Hg & Hs & Hp & _).
  exists cands, w'. split; [exact Hc|]. split; [exact Hg|].
  split; [exact Hs|].
  rewrite Hp. erewrite filter_ext; [reflexivity|].
  intros u. simpl. apply andb_true_r.
Qed.

(** The planner's answer in terms of the units that are free and score. *)
Lemma plan_relief_response_spec (d : Dict PyVal) (ty ur : string) (limit : Z)
  (w : World) :
  _normalize (dict_get "type" VNone d) = Ok ty ->
  _normalize (dict_get "urgency" VNone d) = Ok ur ->
  tracked w ->
  exists brief cands ranked w',
    generate_incident_brief P (VDict d) = Ok brief
    /\ Permutation (map base cands)
         (List.filter (is_available w) _UNIT_REGISTRY)
    /\ Permutation ranked (scoring ty ur cands)
    /\ same_globals w w'
    /\ plan_relief_response P (VDict d) limit w
       = (Ok match slice_to limit ranked with
             | first :: _ =>
                 {| rp_summary := brief;
                    rp_recommendation :=
                      "Dispatch " +:+ u_id (base first) +:+ " to "
                      +:+ fmt P (dict_get "location" (VStr "the scene") d)
                      +:+ ".";
                    rp_resources :=
                      map (fun unit => u_id (base unit)) (slice_to limit ranked);
                    rp_resource_summary :=
                      "Primary assignments: "
                      +:+ PyStr.join ", "
                            (map (describe_unit P) (slice_to limit ranked)) |}
             | [] =>
                 {| rp_summary := brief;
                    rp_recommendation :=
                      "Hold and escalate to manual supervisor; no units free.";
                    rp_resources := [];
                    rp_resource_summary :=
                      "All units busy; advise manual review." |}
             end, w').
Proof.
  intros Hty Hur Hw.
  destruct (generate_incident_brief_ok P d) as (brief & Hb & _).
  destruct (recommend_units_ok P d ty ur limit w Hty Hur Hw)
    as (cands & ranked & w' & Hc & Hr & Hg & _ & Hperm & _).
  destruct (available_units_are_free w Hw) as (cands' & w'' & Hc' & _ & _ & Hp).
  rewrite Hc in Hc'. injection Hc' as <- <-.
  exists brief, cands, ranked, w'.
  split; [exact Hb|]. split; [exact Hp|]. split; [exact Hperm|].
  split; [exact Hg|].
  unfold plan_relief_response.
  unfold bind at 1, lift at 1. rewrite Hb.
  rewrite (bind_ok _ _ _ _ _ Hr).
  unfold bind, lift, py_get.
  destruct (slice_to limit ranked) as [|c rest]; reflexivity.
Qed.

(** Every unit the planner ranks is a free unit of the registry with a
    positive score, and no unit is ranked twice. *)
Lemma ranked_units_free (ty ur : string) (cands ranked : list Enriched)
  (w : World) :
  Permutation (map base cands) (List.filter (is_available w) _UNIT_REGISTRY) ->
  Permutation ranked (scoring ty ur cands) ->
  List.NoDup (map (fun c => u_id (base c)) ranked)
  /\ Forall (fun c => In (base c) _UNIT_REGISTRY
                      /\ is_available w (base c) = true
                      /\ 0 < unit_score ty ur (base c)) ranked.
Proof.
  intros Hp Hr. split.
  - eapply Permutation_NoDup.
    { apply Permutation_map, Permutation_sym, Hr. }
    unfold scoring.
    assert (Hnd : List.NoDup (map (fun c => u_id (base c)) cands)).
    { rewrite <- (map_map base u_id).
      eapply Permutation_NoDup.
      { apply Permutation_map, Permutation_sym, Hp. }
      apply nodup_map_filter, registry_ids_distinct. }
    now apply nodup_map_filter.
  - apply List.Forall_forall. intros c Hc.
    eapply Permutation_in in Hc; [|exact Hr].
    unfold scoring in Hc. apply filter_In in Hc as [Hc Hs].
    assert (Hin : In (base c) (List.filter (is_available w) _UNIT_REGISTRY)).
    { eapply Permutation_in; [exact Hp|]. now apply in_map. }
    apply filter_In in Hin as [Hin Hav].
    split; [exact Hin|]. split; [exact Hav|].
    unfold score_of in Hs. now apply Z.ltb_lt in Hs.
Qed.

End LifecycleFacts.

Lemma scoring_nil (ty ur : string) (cands : list Enriched) :
  scoring ty ur cands = []
  <-> Forall (fun c => unit_score ty ur (base c) = 0) cands.
Proof.
  unfold scoring, score_of. induction cands as [|c cands IH]; simpl.
  - split; [constructor | reflexivity].
  - pose proof (unit_score_nonneg ty ur (base c)) as Hnn.
    destruct (Z.ltb_spec 0 (unit_score ty ur (base c))) as [Hpos|Hle].
    + split; [discriminate|]. intros H.
      inversion H as [|? ? H0 _]; subst. lia.
    + rewrite IH. split.
      * intros H. constructor; [lia | exact H].
      * intros H. now inversion H.
Qed.

Lemma map_eq_nil_inv {A B} (f : A -> B) (l : list A) : map f l = [] -> l = [].
Proof. now destruct l. Qed.

Lemma normalize_falsy (v : PyVal) :
  truthy v = false -> _normalize v = Ok "unknown".
Proof. intros H. unfold _normalize, py_or. now rewrite H. Qed.

Lemma normalize_inv (v : PyVal) (r : string) :
  _normalize v = Ok r -> exists s, r = PyStr.lower (PyStr.strip s).
Proof.
  unfold _normalize. destruct (py_or v (VStr "unknown")); try discriminate.
  intros [= <-]. now eexists.
Qed.

Lemma unknown_matches_no_unit (u : Unit) :
  In u _UNIT_REGISTRY ->
  bool_decide ("unknown" ∈ u_capabilities u) = false
  /\ PyStr.contains "unknown" (u_type u) = false.
Proof.
  unfold _UNIT_REGISTRY.
  intros [<-|[<-|[<-|[<-|[]]]]]; split; vm_compute; reflexivity.
Qed.

Lemma dict_get_same {A} (k : string) (default : A) (d d' : Dict A) :
  dict_lookup k d' = dict_lookup k d -> dict_get k default d' = dict_get k default d.
Proof. unfold dict_get. now intros ->. Qed.

Lemma bind_ext {A B} (m m' : M A) (k k' : A -> M B) (w : World) :
  m w = m' w -> (forall a w1, k a w1 = k' a w1) -> bind m k w = bind m' k' w.
Proof.
  intros Hm Hk. unfold bind. rewrite Hm.
  destruct (m' w) as [[a|e] w1]; [apply Hk | reflexivity].
Qed.

Section ReadsFacts.
Variable P : Platform.
Variable d : Dict PyVal.
Variable d' : Dict PyVal.
Hypothesis same_fields :
  forall k, In k ["type"; "location"; "urgency"; "details"; "description"] ->
            dict_lookup k d' = dict_lookup k d.

Lemma same_field (k : string) (default : PyVal) :
  In k ["type"; "location"; "urgency"; "details"; "description"] ->
  dict_get k default d' = dict_get k default d.
Proof. intros H. apply dict_get_same. now apply same_fields. Qed.

Lemma score_unit_same (u : Unit) :
  _score_unit u (VDict d') = _score_unit u (VDict d).
Proof.
  unfold _score_unit, py_get, rbind.
  rewrite (same_field "type"), (same_field "urgency"); [reflexivity | |];
    simpl; tauto.
Qed.

Lemma score_candidates_same (units : list Enriched) :
  score_candidates units (VDict d') = score_candidates units (VDict d).
Proof.
  induction units as [|c units IH]; simpl; [reflexivity|].
  now rewrite score_unit_same, IH.
Qed.

Lemma recommend_units_same (limit : Z) (w : World) :
  recommend_units_for_incident P (VDict d') limit w
  = recommend_units_for_incident P (VDict d) limit w.
Proof.
  unfold recommend_units_for_incident, bind.
  destruct (get_available_units P VNone None w) as [[units|e] w1];
    [|reflexivity].
  unfold lift. now rewrite score_candidates_same.
Qed.

Lemma incident_brief_same :
  generate_incident_brief P (VDict d') = generate_incident_brief P (VDict d).
Proof.
  unfold generate_incident_brief, py_get, rbind.
  rewrite (same_field "type"), (same_field "location"),
    (same_field "details"), (same_field "description"),
    (same_field "urgency"); [reflexivity | | | | |]; simpl; tauto.
Qed.

Lemma plan_relief_response_same (limit : Z) (w : World) :
  plan_relief_response P (VDict d') limit w
  = plan_relief_response P (VDict d) limit w.
Proof.
  unfold plan_relief_response.
  apply bind_ext; [now rewrite incident_brief_same|].
  intros brief w1.
  apply bind_ext; [apply recommend_units_same|].
  intros ranked w2.
  apply bind_ext; [|reflexivity].
  unfold py_get. rewrite (same_field "location"); [reflexivity|].
  simpl; tauto.
Qed.

Lemma format_display_alert_same (summary recommendation urgency : PyVal) :
  format_display_alert P summary recommendation (VDict d') urgency
  = format_display_alert P summary recommendation (VDict d) urgency.
Proof.
  unfold format_display_alert, py_or.
  assert (E : forall x : Dict PyVal,
             (if truthy (VDict x) then VDict x else VDict []) = VDict x).
  { now intros []. }
  rewrite !E. unfold py_get, rbind.
  rewrite (same_field "urgency"), (same_field "location"),
    (same_field "type"); [reflexivity | | |]; simpl; tauto.
Qed.

End ReadsFacts.

Lemma registry_stations (u : Unit) :
  In u _UNIT_REGISTRY ->
  sector_modifier (normalize_text (u_location u)) = 6 /\ 5 <= u_base_eta u.
Proof.
  unfold _UNIT_REGISTRY.
  intros [<-|[<-|[<-|[<-|[]]]]]; split; vm_compute; congruence.
Qed.

Lemma apply_limit_incl {A} (limit : option Z) (l : list A) (x : A) :
  In x (apply_limit limit l) -> In x l.
Proof.
  destruct limit as [n|]; simpl; [|auto].
  destruct (n =? 0); [auto | apply slice_to_incl].
Qed.

(* ===================================================================== *)
(** * More facts about the configuration and the invoker *)
(* ===================================================================== *)

Lemma contains_char_cons (sep c : ascii) (t : string) :
  PyStr.contains (String sep EmptyString) (String c t) = false ->
  Ascii.eqb c sep = false
  /\ PyStr.contains (String sep EmptyString) t = false.
Proof.
  simpl. intros H. apply orb_false_iff in H as [Hp Ht].
  split; [|exact Ht].
  destruct (ascii_dec sep c) as [->|Hne].
  - now destruct t.
  - apply Ascii.eqb_neq. congruence.
Qed.

Lemma split_without_sep (sep : ascii) (x : string) :
  PyStr.contains (String sep EmptyString) x = false ->
  PyStr.split sep x = [x].
Proof.
  induction x as [|c x IH]; [reflexivity|].
  intros H. apply contains_char_cons in H as [Hc Hx].
  simpl. rewrite Hc, (IH Hx). reflexivity.
Qed.

Lemma split_append_sep (sep : ascii) (x rest : string) :
  PyStr.contains (String sep EmptyString) x = false ->
  PyStr.split sep (x +:+ String sep rest) = x :: PyStr.split sep rest.
Proof.
  induction x as [|c x IH]; intros H.
  - change (EmptyString +:+ String sep rest) with (String sep rest).
    simpl. now rewrite Ascii.eqb_refl.
  - apply contains_char_cons in H as [Hc Hx].
    change (String c x +:+ String sep rest)
      with (String c (x +:+ String sep rest)).
    simpl. rewrite Hc, (IH Hx). reflexivity.
Qed.

Lemma split_join (names : list string) :
  names <> [] ->
  Forall (fun m => PyStr.contains "," m = false) names ->
  PyStr.split "," (PyStr.join "," names) = names.
Proof.
  unfold PyStr.join.
  induction names as [|x names IH]; [congruence|].
  intros _ H. inversion H as [|? ? Hx Hrest]; subst.
  destruct names as [|y names].
  - simpl. now apply split_without_sep.
  - change (String.concat "," (x :: y :: names))
      with (x +:+ String "," (String.concat "," (y :: names))).
    rewrite split_append_sep by exact Hx.
    f_equal. apply IH; [discriminate | exact Hrest].
Qed.

Lemma join_nonempty (names : list string) (x : string) :
  x <> EmptyString ->
  exists c t, PyStr.join "," (x :: names) = String c t.
Proof.
  intros Hx. destruct x as [|c x]; [congruence|].
  unfold PyStr.join. destruct names as [|y names].
  - now exists c, x.
  - exists c, (x +:+ String "," (String.concat "," (y :: names))).
    reflexivity.
Qed.

Lemma split_only_separators (v : string) :
  only_separators v = true ->
  Forall (fun p => visible p = false) (PyStr.split "," v).
Proof.
  induction v as [|c v IH]; simpl.
  - intros _. now repeat constructor.
  - intros H. apply andb_true_iff in H as [Hc Hv]. specialize (IH Hv).
    destruct (Ascii.eqb c ",") eqn:E.
    + now constructor.
    + simpl in Hc.
      destruct (PyStr.split "," v) as [|p ps].
      * repeat constructor. simpl. now rewrite Hc.
      * inversion IH as [|? ? Hp Hps]; subst.
        constructor; [|exact Hps]. simpl. now rewrite Hc, Hp.
Qed.

Lemma keep_named_clean (names : list string) :
  Forall (fun m => m <> EmptyString /\ trimmed m) names ->
  map PyStr.strip
    (List.filter (fun m => negb (PyStr.is_empty (PyStr.strip m))) names)
  = names.
Proof.
  induction 1 as [|m names [Hne Htr] _ IH]; [reflexivity|].
  simpl. unfold trimmed in Htr. rewrite Htr.
  destruct m; [congruence|]. simpl. rewrite IH.
  f_equal. exact Htr.
Qed.

Lemma keep_named_blank (pieces : list string) :
  Forall (fun p => visible p = false) pieces ->
  List.filter (fun m => negb (PyStr.is_empty (PyStr.strip m))) pieces = [].
Proof.
  induction 1 as [|p pieces Hp _ IH]; [reflexivity|].
  simpl. now rewrite (strip_blank p Hp), IH.
Qed.

Section BackoffFacts.
Variable P : Platform.
Variable cfg : Config.

Lemma run_gemini_switched_off (prompt : string) (chain : list string) (w : World) :
  has_api_key cfg && USE_GEMINI cfg = false ->
  _run_gemini P cfg prompt chain w = (Ok "[Gemini disabled]", w).
Proof.
  intros H. unfold _run_gemini, run_gemini_traced, bind.
  now rewrite gemini_available_closed_config.
Qed.

(** Every model raises with a message that is no rate-limit message: the
    world only gains the requests. *)
Lemma try_models_plain_failures (prompt : string) (models errs : list string)
  (last_error : string) (w : World) :
  all_raise P (length (requests w)) prompt models errs ->
  Forall (fun e => is_rate_limit e = false) errs ->
  exists w',
    try_models P cfg prompt models last_error w
    = (Ok (error_sentinel (List.last errs last_error),
           List.last errs last_error), w')
    /\ _gemini_backoff_until w' = _gemini_backoff_until w
    /\ ticks w' = ticks w
    /\ requests w' = requests w ++ requests_for prompt models.
Proof.
  revert errs last_error w.
  induction models as [|m ms IH]; intros [|e es] le w H Hplain;
    simpl in H; try tauto.
  - exists w. simpl. unfold ret. rewrite app_nil_r. auto.
  - destruct H as [Hm Hrest].
    inversion Hplain as [|? ? He Hes]; subst.
    rewrite (try_models_raise _ _ _ _ _ _ _ _ Hm).
    assert (Ew : after_failure P cfg m prompt e w = log_request m prompt w).
    { unfold after_failure. now rewrite He. }
    rewrite Ew.
    destruct (IH es e (log_request m prompt w)) as (w' & Hr & Hb & Ht & Hq).
    { simpl. rewrite length_app. simpl.
      now replace (length (requests w) + 1)%nat
        with (S (length (requests w))) by lia. }
    { exact Hes. }
    exists w'. split.
    { now rewrite Hr, last_cons_default. }
    rewrite Hb, Ht, Hq. simpl. now rewrite <- app_assoc.
Qed.

End BackoffFacts.

(* ===================================================================== *)
(** * What a run leaves alone *)
(* ===================================================================== *)

Section Keeps.
Variable Q : World -> World -> Prop.
Hypothesis Q_refl : forall w, Q w w.
Hypothesis Q_trans : forall w1 w2 w3, Q w1 w2 -> Q w2 w3 -> Q w1 w3.

Lemma keeps_ret {A} (a : A) : keeps Q (ret a).
Proof. intros w. apply Q_refl. Qed.

Lemma keeps_lift {A} (r : Res A) : keeps Q (lift r).
Proof. intros w. apply Q_refl. Qed.

Lemma keeps_gets {A} (f : World -> A) : keeps Q (gets f).
Proof. intros w. apply Q_refl. Qed.

Lemma keeps_bind {A B} (m : M A) (k : A -> M B) :
  keeps Q m -> (forall a, keeps Q (k a)) -> keeps Q (bind m k).
Proof.
  intros Hm Hk w. unfold bind. specialize (Hm w).
  destruct (m w) as [[a|e] w1]; simpl in Hm; [|exact Hm].
  eapply Q_trans; [exact Hm | apply Hk].
Qed.

Variable P : Platform.
Variable cfg : Config.
Hypothesis Q_tick : forall w, Q w (tick w).
Hypothesis Q_draw : forall w, Q w (draw w).
Hypothesis Q_invoke :
  forall prompt chain, keeps Q (_run_gemini P cfg prompt chain).

Lemma keeps_randint (a b : Z) : keeps Q (randint P a b).
Proof. intros w. apply Q_draw. Qed.

Lemma keeps_read_now : keeps Q (read_now P).
Proof. intros w. apply Q_tick. Qed.

Ltac keeps_tac :=
  repeat first
    [ apply keeps_ret | apply keeps_lift | apply keeps_gets
    | apply keeps_randint | apply keeps_read_now | apply Q_invoke
    | assumption
    | apply keeps_bind; [|intros ?]
    | match goal with
      | |- keeps _ (if ?b then _ else _) => destruct b
      | |- keeps _ (match ?x with _ => _ end) => destruct x
      end ].

Lemma keeps_estimate (unit : Unit) (location : PyVal) :
  keeps Q (_estimate_arrival_minutes P unit location).
Proof. unfold _estimate_arrival_minutes. keeps_tac. Qed.

Lemma keeps_collect (units : list Unit) (unit_type : PyVal) :
  keeps Q (collect_candidates P units unit_type).
Proof.
  induction units as [|u units IH]; simpl; keeps_tac.
Qed.

Lemma keeps_get_available (unit_type : PyVal) (limit : option Z) :
  keeps Q (get_available_units P unit_type limit).
Proof.
  unfold get_available_units. apply keeps_bind; [apply keeps_collect|].
  intros cands. keeps_tac.
Qed.

Lemma keeps_recommend (incident : PyVal) (limit : Z) :
  keeps Q (recommend_units_for_incident P incident limit).
Proof.
  unfold recommend_units_for_incident.
  apply keeps_bind; [apply keeps_get_available|]. intros units. keeps_tac.
Qed.

Lemma keeps_plan (incident : PyVal) (limit : Z) :
  keeps Q (plan_relief_response P incident limit).
Proof.
  unfold plan_relief_response.
  apply keeps_bind; [apply keeps_lift|]. intros summary.
  apply keeps_bind; [apply keeps_recommend|]. intros ranked. keeps_tac.
Qed.

Lemma keeps_plan_dispatch (incident : PyVal) :
  keeps Q (_plan_dispatch P cfg incident).
Proof.
  unfold _plan_dispatch, dispatch_ask_gemini.
  apply keeps_bind; [apply Q_invoke|]. intros text.
  apply keeps_bind; [apply keeps_lift|]. intros [|].
  - apply keeps_bind; [apply keeps_plan|]. intros fallback. apply keeps_ret.
  - apply keeps_ret.
Qed.

Lemma keeps_dispatch (a : DispatchAgent) (e : MessageEnvelope)
  (s : option Session) : keeps Q (dispatch_handle_envelope P cfg a e s).
Proof.
  unfold dispatch_handle_envelope.
  apply keeps_bind; [apply keeps_plan_dispatch|]. intros plan. apply keeps_ret.
Qed.

Lemma keeps_resource (a : ResourceAgent) (e : MessageEnvelope)
  (s : option Session) : keeps Q (resource_handle_envelope P cfg a e s).
Proof.
  unfold resource_handle_envelope, resource_ask_gemini.
  apply keeps_bind; [apply Q_invoke|]. intros text.
  destruct (parse_resources P text) as [resources resource_summary].
  apply keeps_bind.
  - destruct (resources_unusable resources); [|apply keeps_ret].
    apply keeps_bind; [apply keeps_plan|]. intros fallback. apply keeps_ret.
  - intros [r rs]. apply keeps_ret.
Qed.

Lemma keeps_summary (a : SummaryAgent) (e : MessageEnvelope)
  (s : option Session) : keeps Q (summary_handle_envelope P cfg a e s).
Proof.
  unfold summary_handle_envelope, summarize_for_display.
  apply keeps_bind; [|intros ds; apply keeps_ret].
  apply keeps_bind; [apply Q_invoke|]. intros text.
  destruct (PyStr.startswith text "[Gemini"); [apply keeps_lift | apply keeps_ret].
Qed.

Lemma keeps_decision (a : DecisionAgent) (e : MessageEnvelope)
  (s : option Session) : keeps Q (decision_handle_envelope P a e s).
Proof.
  unfold decision_handle_envelope, decision_entry.
  apply keeps_bind; [|intros entry; apply keeps_ret].
  apply keeps_bind; [apply keeps_read_now|]. intros now. apply keeps_ret.
Qed.

Lemma keeps_agent (a : Agent) (e : MessageEnvelope) (s : option Session) :
  keeps Q (agent_handle_envelope P cfg a e s).
Proof.
  destruct a; simpl;
    (apply keeps_bind; [|intros r; apply keeps_ret]).
  - apply keeps_dispatch.
  - apply keeps_resource.
  - apply keeps_summary.
  - apply keeps_decision.
Qed.

Lemma keeps_orchestrate (agents : list Agent) (e : MessageEnvelope)
  (s : option Session) : keeps Q (orchestrate P cfg agents e s).
Proof.
  revert e s. induction agents as [|a agents IH]; intros e s; simpl.
  - apply keeps_ret.
  - apply keeps_bind; [apply keeps_agent|]. intros [[a' e'] s'].
    apply keeps_bind; [apply IH|]. intros [[rest' e''] s'']. apply keeps_ret.
Qed.

Lemma keeps_run_agents (agents : list Agent) (e : MessageEnvelope)
  (s : option Session) : keeps Q (run_agents P cfg agents e s).
Proof.
  revert e s. induction agents as [|a agents IH]; intros e s; simpl.
  - apply keeps_ret.
  - apply keeps_bind; [apply keeps_agent|]. intros [[a' e'] s'].
    apply keeps_bind; [apply IH|]. intros [[rest' e''] s'']. apply keeps_ret.
Qed.

End Keeps.

Lemma sentinel_trimmed (e : string) : trimmed (error_sentinel e).
Proof.
  unfold trimmed, error_sentinel, PyStr.strip.
  set (middle := if PyStr.is_empty e then "unavailable" else e).
  change ("[Gemini error: " +:+ middle +:+ "]")
    with (String "[" ("Gemini error: " +:+ middle +:+ "]")).
  rewrite (lstrip_fixed (String "[" _)) by (now intros ? ? [= <- _]).
  change (String "[" ("Gemini error: " +:+ middle +:+ "]"))
    with (("[Gemini error: " +:+ middle) +:+ "]").
  apply rstrip_append; [reflexivity | discriminate].
Qed.

Section ShapeFacts.
Variable P : Platform.
Variable cfg : Config.

(** The loop never raises; it asks a front part of the chain, in order,
    and what it returns has no white space at either end. *)
Lemma try_models_shape (prompt : string) (models : list string)
  (last_error : string) (w : World) :
  exists text le w' n,
    try_models P cfg prompt models last_error w = (Ok (text, le), w')
    /\ trimmed text
    /\ (n <= length models)%nat
    /\ requests w' = requests w ++ requests_for prompt (firstn n models)
    /\ _UNIT_STATUS w' = _UNIT_STATUS w
    /\ draws w' = draws w.
Proof.
  revert last_error w.
  induction models as [|m ms IH]; intros le w.
  - exists (error_sentinel le), le, w, 0%nat. simpl. unfold ret.
    split; [reflexivity|]. split; [apply sentinel_trimmed|].
    rewrite app_nil_r. auto.
  - destruct (generate_content P (length (requests w)) m prompt) as [r|e] eqn:E.
    + exists (PyStr.strip (response_text r)), le, (log_request m prompt w), 1%nat.
      split; [now apply try_models_respond|].
      split; [apply strip_idem|]. simpl. split; [lia|]. auto.
    + rewrite (try_models_raise _ _ _ _ _ _ _ _ E).
      destruct (IH e (after_failure P cfg m prompt e w))
        as (text & le' & w' & n & Hr & Ht & Hn & Hq & Hs & Hd).
      exists text, le', w', (S n). split; [exact Hr|]. split; [exact Ht|].
      simpl. split; [lia|].
      rewrite Hq, Hs, Hd, after_failure_requests, after_failure_status,
        after_failure_draws.
      rewrite <- app_assoc. auto.
Qed.

End ShapeFacts.

(* ===================================================================== *)
(** * More facts about the agents and the orchestrators *)
(* ===================================================================== *)

Lemma set_routing_same (e : MessageEnvelope) :
  set_routing (sender e) (receiver e) e = e.
Proof. now destruct e. Qed.

Lemma last_n_snoc_last {A} (n : nat) (l : list A) (x d : A) :
  List.last (last_n (S n) (l ++ [x])) d = x.
Proof.
  unfold last_n. rewrite length_app. simpl.
  replace (length l + 1 - S n)%nat with (length l - n)%nat by lia.
  rewrite skipn_app.
  replace (length l - n - length l)%nat with 0%nat by lia.
  simpl. apply last_last.
Qed.

Section HandlerFacts.
Variable P : Platform.
Variable cfg : Config.

Lemma dispatch_handle_inv (a a' : DispatchAgent) (e e' : MessageEnvelope)
  (s s' : option Session) (w w' : World) :
  dispatch_handle_envelope P cfg a e s w = (Ok (a', e', s'), w') ->
  exists plan,
    _plan_dispatch P cfg (incident_of e) w = (Ok plan, w')
    /\ a' = {| dispatch_name := dispatch_name a;
               dispatch_memory :=
                 dispatch_memory a
                 ++ [dispatch_fact (incident_of e) (plan_summary plan)] |}
    /\ content e'
       = dict_set "recommendation" (plan_recommendation plan)
           (dict_set "summary" (plan_summary plan)
              (dict_set "incident" (incident_of e) (content e)))
    /\ s' = add_turn_opt (fmt P (incident_of e)) (plan_recommendation plan) s.
Proof.
  unfold dispatch_handle_envelope. intros H. invert_bind H.
  unfold ret in H. injection H as <- <- <- <-.
  exists a0. repeat split. exact Hstep.
Qed.

Lemma resource_handle_inv (a a' : ResourceAgent) (e e' : MessageEnvelope)
  (s s' : option Session) (w w' : World) :
  resource_handle_envelope P cfg a e s w = (Ok (a', e', s'), w') ->
  exists resources resource_summary,
    a' = {| resource_name := resource_name a;
            resource_memory :=
              resource_memory a
              ++ [resource_fact (incident_of e) resources] |}
    /\ content e'
       = dict_set "resource_summary" resource_summary
           (dict_set "resources" resources (content e))
    /\ s' = add_turn_opt (fmt P (incident_of e)) resource_summary s.
Proof.
  unfold resource_handle_envelope. intros H. invert_bind H.
  destruct (parse_resources P a0) as [resources resource_summary].
  invert_bind H. destruct a1 as [r rs].
  unfold ret in H. injection H as <- <- <- <-.
  exists r, rs. repeat split.
Qed.

Lemma summary_handle_inv (a a' : SummaryAgent) (e e' : MessageEnvelope)
  (s s' : option Session) (w w' : World) :
  summary_handle_envelope P cfg a e s w = (Ok (a', e', s'), w') ->
  exists ds,
    a' = a
    /\ content e' = dict_set "display_summary" (VStr ds) (content e)
    /\ s' = s.
Proof.
  unfold summary_handle_envelope. intros H. invert_bind H.
  unfold ret in H. injection H as <- <- <- <-.
  exists a0. repeat split.
Qed.

Lemma decision_handle_spec (a : DecisionAgent) (e : MessageEnvelope)
  (s : option Session) (w : World) :
  let action := dict_get "action" VNone (content e) in
  let entry := entry_at P action (dict_get "incident_id" VNone (content e))
                 (ticks w) in
  decision_handle_envelope P a e s w
  = (Ok (record_decision entry a,
         set_content
           (dict_set "decision_message" (VStr (decision_message P action))
              (dict_set "decision_status" (VStr (decision_status action))
                 (content e)))
           (add_trace (decision_name a) entry e),
         s), tick w).
Proof.
  intros action entry. unfold decision_handle_envelope.
  unfold bind. rewrite decision_entry_spec. reflexivity.
Qed.

Lemma agent_handle_inv (a a' : Agent) (e e' : MessageEnvelope)
  (s s' : option Session) (w w' : World) :
  agent_handle_envelope P cfg a e s w = (Ok (a', e', s'), w') ->
  match a with
  | ADispatch x =>
      exists x', a' = ADispatch x'
        /\ dispatch_handle_envelope P cfg x e s w = (Ok (x', e', s'), w')
  | AResource x =>
      exists x', a' = AResource x'
        /\ resource_handle_envelope P cfg x e s w = (Ok (x', e', s'), w')
  | ASummary x =>
      exists x', a' = ASummary x'
        /\ summary_handle_envelope P cfg x e s w = (Ok (x', e', s'), w')
  | ADecision x =>
      exists x', a' = ADecision x'
        /\ decision_handle_envelope P x e s w = (Ok (x', e', s'), w')
  end.
Proof.
  destruct a as [x|x|x|x]; simpl; intros H; invert_bind H;
    destruct a as [[x1 e1] s1]; unfold ret in H; simpl in H;
    injection H as <- <- <- <-; exists x1; split; auto.
Qed.

Lemma orchestrate_inv_cons (a : Agent) (rest agents' : list Agent)
  (e e' : MessageEnvelope) (s s' : option Session) (w w' : World) :
  orchestrate P cfg (a :: rest) e s w = (Ok (agents', e', s'), w') ->
  exists a1 e1 s1 w1 rest1,
    agent_handle_envelope P cfg a
      (set_routing (receiver e) (VStr (agent_name a)) e) s w
    = (Ok (a1, e1, s1), w1)
    /\ orchestrate P cfg rest e1 s1 w1 = (Ok (rest1, e', s'), w')
    /\ agents' = a1 :: rest1.
Proof.
  simpl. intros H. invert_bind H. destruct a0 as [[a1 e1] s1].
  invert_bind H. destruct a0 as [[rest1 e2] s2].
  unfold ret in H. injection H as <- <- <- <-.
  exists a1, e1, s1, w0, rest1. auto.
Qed.

Lemma orchestrate_inv_nil (agents' : list Agent) (e e' : MessageEnvelope)
  (s s' : option Session) (w w' : World) :
  orchestrate P cfg [] e s w = (Ok (agents', e', s'), w') ->
  agents' = [] /\ e' = e /\ s' = s /\ w' = w.
Proof. simpl. unfold ret. intros [= <- <- <- <-]. auto. Qed.

(** What one agent does to the content: it writes its own keys, with
    whatever was under them before lost, and nothing else. *)
Lemma agent_content_frame (a a' : Agent) (e e' : MessageEnvelope)
  (s s' : option Session) (w w' : World) :
  agent_handle_envelope P cfg a e s w = (Ok (a', e', s'), w') ->
  (forall k, ~ In k (keys_written a) ->
             dict_lookup k (content e') = dict_lookup k (content e))
  /\ (forall k, In k (keys_written a) -> is_Some (dict_lookup k (content e')))
  /\ (forall k, is_Some (dict_lookup k (content e)) ->
                is_Some (dict_lookup k (content e')))
  /\ (forall v, dict_lookup "incident" (content e) = Some v ->
                dict_lookup "incident" (content e') = Some v).
Proof.
  intros H. apply agent_handle_inv in H.
  assert (Hne : forall (k k0 : string) (l : list string),
                  ~ In k (k0 :: l) -> k0 <> k /\ ~ In k l).
  { intros k k0 l Hk. split; [intros ->; apply Hk; now left|].
    intros Hin. apply Hk. now right. }
  destruct a as [x|x|x|x]; destruct H as (x' & -> & H).
  - apply dispatch_handle_inv in H as (plan & _ & _ & Hc & _).
    rewrite Hc. split; [|split; [|split]].
    + intros k Hk. unfold keys_written in Hk.
      apply Hne in Hk as [H1 Hk]. apply Hne in Hk as [H2 Hk].
      apply Hne in Hk as [H3 _].
      now rewrite !dict_lookup_set_ne by assumption.
    + intros k [<-|[<-|[<-|[]]]].
      * rewrite !dict_lookup_set_ne by discriminate.
        rewrite dict_lookup_set_eq. now eexists.
      * rewrite dict_lookup_set_ne by discriminate.
        rewrite dict_lookup_set_eq. now eexists.
      * rewrite dict_lookup_set_eq. now eexists.
    + intros k Hk. now repeat apply dict_lookup_set_some.
    + intros v Hv. rewrite !dict_lookup_set_ne by discriminate.
      rewrite dict_lookup_set_eq. f_equal.
      unfold incident_of, dict_get. now rewrite Hv.
  - apply resource_handle_inv in H as (r & rs & _ & Hc & _).
    rewrite Hc. split; [|split; [|split]].
    + intros k Hk. unfold keys_written in Hk.
      apply Hne in Hk as [H1 Hk]. apply Hne in Hk as [H2 _].
      now rewrite !dict_lookup_set_ne by assumption.
    + intros k [<-|[<-|[]]].
      * rewrite dict_lookup_set_ne by discriminate.
        rewrite dict_lookup_set_eq. now eexists.
      * rewrite dict_lookup_set_eq. now eexists.
    + intros k Hk. now repeat apply dict_lookup_set_some.
    + intros v Hv. now rewrite !dict_lookup_set_ne by discriminate.
  - apply summary_handle_inv in H as (ds & _ & Hc & _).
    rewrite Hc. split; [|split; [|split]].
    + intros k Hk. unfold keys_written in Hk. apply Hne in Hk as [H1 _].
      now rewrite !dict_lookup_set_ne by assumption.
    + intros k [<-|[]]. rewrite dict_lookup_set_eq. now eexists.
    + intros k Hk. now repeat apply dict_lookup_set_some.
    + intros v Hv. now rewrite !dict_lookup_set_ne by discriminate.
  - rewrite decision_handle_spec in H. injection H as _ <- _ _.
    simpl content. split; [|split; [|split]].
    + intros k Hk. unfold keys_written in Hk.
      apply Hne in Hk as [H1 Hk]. apply Hne in Hk as [H2 _].
      now rewrite !dict_lookup_set_ne by assumption.
    + intros k [<-|[<-|[]]].
      * rewrite dict_lookup_set_ne by discriminate.
        rewrite dict_lookup_set_eq. now eexists.
      * rewrite dict_lookup_set_eq. now eexists.
    + intros k Hk. now repeat apply dict_lookup_set_some.
    + intros v Hv. now rewrite !dict_lookup_set_ne by discriminate.
Qed.

Lemma orchestrate_content_frame (agents agents' : list Agent)
  (e e' : MessageEnvelope) (s s' : option Session) (w w' : World) :
  orchestrate P cfg agents e s w = (Ok (agents', e', s'), w') ->
  (forall k, Forall (fun a => ~ In k (keys_written a)) agents ->
             dict_lookup k (content e') = dict_lookup k (content e))
  /\ (forall k, is_Some (dict_lookup k (content e)) ->
                is_Some (dict_lookup k (content e')))
  /\ (forall v, dict_lookup "incident" (content e) = Some v ->
                dict_lookup "incident" (content e') = Some v).
Proof.
  revert agents' e e' s s' w w'.
  induction agents as [|a rest IH]; intros agents' e e' s s' w w' H.
  - apply orchestrate_inv_nil in H as (_ & -> & _ & _). auto.
  - apply orchestrate_inv_cons in H
      as (a1 & e1 & s1 & w1 & rest1 & Ha & Hrest & _).
    apply agent_content_frame in Ha as (Hk1 & _ & Hs1 & Hi1).
    apply IH in Hrest as (Hk2 & Hs2 & Hi2).
    simpl content in *.
    split; [|split].
    + intros k Hk. inversion Hk as [|? ? Hka Hkr]; subst.
      rewrite Hk2 by exact Hkr. now apply Hk1.
    + intros k Hk. now apply Hs2, Hs1.
    + intros v Hv. now apply Hi2, Hi1.
Qed.

End HandlerFacts.

Section OrchestratorFacts.
Variable P : Platform.
Variable cfg : Config.

(** An agent never looks at the routing: with another sender and receiver
    it does the same, and hands them back. *)
Lemma agent_handle_routing (a : Agent) (x y : PyVal) (e : MessageEnvelope)
  (s : option Session) (w : World) :
  agent_handle_envelope P cfg a (set_routing x y e) s w
  = map_envelope (set_routing x y) (agent_handle_envelope P cfg a e s w).
Proof.
  destruct a as [a|a|a|a]; simpl; unfold bind.
  - unfold dispatch_handle_envelope, bind. simpl content.
    destruct (_plan_dispatch P cfg _ w) as [[plan|x0] w1]; reflexivity.
  - unfold resource_handle_envelope, bind. simpl content.
    destruct (resource_ask_gemini P cfg _ w) as [[text|x0] w1]; [|reflexivity].
    destruct (parse_resources P text) as [resources resource_summary].
    destruct (resources_unusable resources).
    + destruct (plan_relief_response P _ 2 w1) as [[fallback|x0] w2];
        reflexivity.
    + reflexivity.
  - unfold summary_handle_envelope, bind. simpl content.
    destruct (summarize_for_display P cfg _ _ _ _ w) as [[ds|x0] w1];
      reflexivity.
  - rewrite !decision_handle_spec. reflexivity.
Qed.

Lemma run_agents_routing (agents : list Agent) (x y : PyVal)
  (e : MessageEnvelope) (s : option Session) (w : World) :
  run_agents P cfg agents (set_routing x y e) s w
  = map_envelope (set_routing x y) (run_agents P cfg agents e s w).
Proof.
  revert e s w. induction agents as [|a rest IH]; intros e s w; [reflexivity|].
  simpl. unfold bind.
  change (handle_envelope a (set_routing x y e) s w)
    with (agent_handle_envelope P cfg a (set_routing x y e) s w).
  change (handle_envelope a e s w) with (agent_handle_envelope P cfg a e s w).
  rewrite agent_handle_routing.
  destruct (agent_handle_envelope P cfg a e s w) as [[[[a1 e1] s1]|x0] w1];
    [|reflexivity].
  simpl. rewrite IH.
  destruct (run_agents P cfg rest e1 s1 w1) as [[[[rest1 e2] s2]|x0] w2];
    reflexivity.
Qed.

(** The A2A orchestrator does what the plain loop does, and stamps the
    routing on the envelope. *)
Lemma orchestrate_as_run_agents (agents : list Agent) (e : MessageEnvelope)
  (s : option Session) (w : World) :
  orchestrate P cfg agents e s w
  = map_envelope
      (set_routing (fst (route agents (sender e, receiver e)))
                   (snd (route agents (sender e, receiver e))))
      (run_agents P cfg agents e s w).
Proof.
  revert e s w. induction agents as [|a rest IH]; intros e s w.
  - simpl. unfold ret. now rewrite set_routing_same.
  - simpl orchestrate. simpl run_agents. unfold bind.
    change (handle_envelope a (set_routing (receiver e) (VStr (name_of a)) e) s w)
      with (agent_handle_envelope P cfg a
              (set_routing (receiver e) (VStr (agent_name a)) e) s w).
    change (handle_envelope a e s w) with (agent_handle_envelope P cfg a e s w).
    rewrite agent_handle_routing.
    destruct (agent_handle_envelope P cfg a e s w) as [[[[a1 e1] s1]|x0] w1];
      [|reflexivity].
    simpl. rewrite IH, run_agents_routing. simpl.
    destruct (run_agents P cfg rest e1 s1 w1) as [[[[rest1 e2] s2]|x0] w2];
      reflexivity.
Qed.

Lemma orchestrate_app (xs ys : list Agent) (e : MessageEnvelope)
  (s : option Session) (w : World) :
  orchestrate P cfg (xs ++ ys) e s w
  = (r <- orchestrate P cfg xs e s ;;
     let '(xs', e1, s1) := r in
     r' <- orchestrate P cfg ys e1 s1 ;;
     let '(ys', e2, s2) := r' in
     ret (xs' ++ ys', e2, s2)) w.
Proof.
  revert e s w. induction xs as [|a xs IH]; intros e s w.
  - simpl. unfold bind, ret.
    destruct (orchestrate P cfg ys e s w) as [[[[ys' e2] s2]|x0] w2];
      reflexivity.
  - simpl. unfold bind.
    change (handle_envelope a (set_routing (receiver e) (VStr (name_of a)) e) s w)
      with (agent_handle_envelope P cfg a
              (set_routing (receiver e) (VStr (agent_name a)) e) s w).
    destruct (agent_handle_envelope P cfg a _ s w) as [[[[a1 e1] s1]|x0] w1];
      [|reflexivity].
    rewrite IH. unfold bind.
    destruct (orchestrate P cfg xs e1 s1 w1) as [[[[xs' e2] s2]|x0] w2];
      [|reflexivity].
    unfold ret. simpl.
    destruct (orchestrate P cfg ys e2 s2 w2) as [[[[ys' e3] s3]|x0] w3];
      reflexivity.
Qed.

Lemma orchestrate_app_inv (xs ys agents' : list Agent) (e e' : MessageEnvelope)
  (s s' : option Session) (w w' : World) :
  orchestrate P cfg (xs ++ ys) e s w = (Ok (agents', e', s'), w') ->
  exists xs' e1 s1 w1 ys',
    orchestrate P cfg xs e s w = (Ok (xs', e1, s1), w1)
    /\ orchestrate P cfg ys e1 s1 w1 = (Ok (ys', e', s'), w')
    /\ agents' = xs' ++ ys'.
Proof.
  rewrite orchestrate_app. intros H. invert_bind H.
  destruct a as [[xs' e1] s1]. invert_bind H. destruct a as [[ys' e2] s2].
  unfold ret in H. injection H as <- <- <- <-.
  exists xs', e1, s1, w0, ys'. auto.
Qed.

Lemma orchestrate_route (agents agents' : list Agent) (e e' : MessageEnvelope)
  (s s' : option Session) (w w' : World) :
  orchestrate P cfg agents e s w = (Ok (agents', e', s'), w') ->
  (sender e', receiver e') = route agents (sender e, receiver e).
Proof.
  rewrite orchestrate_as_run_agents.
  destruct (run_agents P cfg agents e s w) as [[[[ag e1] s1]|x0] w1];
    simpl; [|discriminate].
  intros [= _ <- _ _]. simpl.
  now destruct (route agents (sender e, receiver e)).
Qed.

End OrchestratorFacts.

(* ===================================================================== *)
(** * Facts about the system state *)
(* ===================================================================== *)

Lemma filter_all {A} (f : A -> bool) (l : list A) :
  Forall (fun x => f x = true) l -> List.filter f l = l.
Proof.
  induction 1 as [|x l Hx _ IH]; simpl; [reflexivity|].
  now rewrite Hx, IH.
Qed.

Lemma filter_idem {A} (f : A -> bool) (l : list A) :
  List.filter f (List.filter f l) = List.filter f l.
Proof.
  apply filter_all. apply List.Forall_forall.
  intros x Hx. now apply filter_In in Hx.
Qed.

Section StateFacts.
Variable P : Platform.

Lemma add_incident_spec (fresh_id : string) (incident : Dict PyVal)
  (self : SystemState) (w : World) :
  let record :=
    dict_setdefault "timestamp"
      (VStr (isoformat P (datetime_utcnow P (ticks w))))
      (dict_setdefault "id" (VStr fresh_id) incident) in
  add_incident P fresh_id incident self w
  = (Ok (record,
         {| active_incidents := active_incidents self ++ [record];
            memory := memory self;
            sessions := sessions self;
            metrics :=
              {| metric_incidents := metric_incidents (metrics self) + 1;
                 metric_decisions := metric_decisions (metrics self) |} |}),
     tick w).
Proof. reflexivity. Qed.

Lemma stamped_lookup_other (fresh_id stamp k : string) (incident : Dict PyVal) :
  k <> "id" -> k <> "timestamp" ->
  dict_lookup k
    (dict_setdefault "timestamp" (VStr stamp)
       (dict_setdefault "id" (VStr fresh_id) incident))
  = dict_lookup k incident.
Proof.
  intros H1 H2. now rewrite !dict_lookup_setdefault_ne by congruence.
Qed.

Lemma stamped_lookup_id (fresh_id stamp : string) (incident : Dict PyVal) :
  dict_lookup "id"
    (dict_setdefault "timestamp" (VStr stamp)
       (dict_setdefault "id" (VStr fresh_id) incident))
  = Some (match dict_lookup "id" incident with
          | Some v => v
          | None => VStr fresh_id
          end).
Proof.
  rewrite dict_lookup_setdefault_ne by discriminate.
  apply dict_lookup_setdefault_eq.
Qed.

Lemma stamped_lookup_timestamp (fresh_id stamp : string) (incident : Dict PyVal) :
  dict_lookup "timestamp"
    (dict_setdefault "timestamp" (VStr stamp)
       (dict_setdefault "id" (VStr fresh_id) incident))
  = Some (match dict_lookup "timestamp" incident with
          | Some v => v
          | None => VStr stamp
          end).
Proof.
  rewrite dict_lookup_setdefault_eq.
  now rewrite dict_lookup_setdefault_ne by discriminate.
Qed.

End StateFacts.

(* ===================================================================== *)
(** * The random draws behind the estimates *)
(* ===================================================================== *)

Section DrawFacts.
Variable P : Platform.

Lemma randint_jitter (w : World) :
  randint P (-1) 1 w = (Ok (jitter_at P (draws w)), draw w).
Proof. reflexivity. Qed.

Lemma estimates_from_base (k : nat) (units : list Unit) :
  map base (estimates_from P k units) = units.
Proof.
  revert k. induction units as [|u units IH]; intros k; [reflexivity|].
  simpl. now rewrite IH.
Qed.

Lemma estimates_from_length (k : nat) (units : list Unit) :
  length (estimates_from P k units) = length units.
Proof.
  revert k. induction units as [|u units IH]; intros k; [reflexivity|].
  simpl. now rewrite IH.
Qed.

(** The loop over the registry draws once per available unit, in registry
    order. *)
Lemma collect_candidates_draws (units : list Unit) (w : World) :
  Forall (fun u => is_Some (_UNIT_STATUS w !! u_id u)) units ->
  exists w',
    collect_candidates P units VNone w
    = (Ok (estimates_from P (draws w) (List.filter (is_available w) units)), w')
    /\ draws w' = (draws w + length (List.filter (is_available w) units))%nat
    /\ same_globals w w'.
Proof.
  revert w. induction units as [|u units IH]; intros w Hall.
  - exists w. simpl. unfold ret. rewrite Nat.add_0_r.
    auto using same_globals_refl.
  - inversion Hall as [|? ? [st Hst] Hrest]; subst.
    assert (Hav : is_available w u = String.eqb (status st) "available").
    { unfold is_available. now rewrite Hst. }
    simpl collect_candidates. unfold bind at 1, gets. rewrite Hst.
    simpl List.filter. rewrite Hav.
    destruct (String.eqb (status st) "available") eqn:Eav; simpl negb; cbv iota.
    2:{ apply IH, Hrest. }
    simpl truthy. cbv iota. unfold bind at 1, ret at 1. cbv iota beta.
    change (negb true) with false. cbv iota beta.
    rewrite (bind_ok _ _ _ _ _ (estimate_ok P u _ _ w (normalize_str _))).
    destruct (IH (draw w)) as (w' & Hc & Hd & Hg); [exact Hrest|].
    assert (Hf : List.filter (is_available (draw w)) units
                 = List.filter (is_available w) units).
    { apply filter_ext. intros a. now apply is_available_same. }
    rewrite Hf in Hc, Hd.
    rewrite (bind_ok _ _ _ _ _ Hc). unfold ret.
    exists w'. split; [reflexivity|]. split.
    + rewrite Hd. simpl. lia.
    + eapply same_globals_trans; [apply same_globals_draw | exact Hg].
Qed.

Lemma get_available_units_draws (w : World) :
  tracked w ->
  exists w',
    get_available_units P VNone None w
    = (Ok (sort_by eta_minutes
             (estimates_from P (draws w)
                (List.filter (is_available w) _UNIT_REGISTRY))), w')
    /\ draws w' = (draws w + length (List.filter (is_available w) _UNIT_REGISTRY))%nat.
Proof.
  intros Hw.
  destruct (collect_candidates_draws _UNIT_REGISTRY w Hw) as (w' & Hc & Hd & _).
  exists w'. unfold get_available_units.
  rewrite (bind_ok _ _ _ _ _ Hc). now split.
Qed.

End DrawFacts.

(* ===================================================================== *)
(** * The fallback pipeline *)
(* ===================================================================== *)

Lemma parse_resources_object (P : Platform) (text : string) (obj : Dict PyVal) :
  decoded_object P text = Some obj ->
  parse_resources P text
  = (dict_get "resources" (VList []) obj, dict_get "summary" (VStr "") obj).
Proof.
  unfold decoded_object, parse_resources.
  destruct (json_loads P text) as [[]|]; try discriminate.
  now intros [= ->].
Qed.

Lemma parse_resources_raw (P : Platform) (text : string) :
  decoded_object P text = None ->
  parse_resources P text = (VList [], VStr text).
Proof.
  unfold decoded_object, parse_resources.
  destruct (json_loads P text) as [[]|]; try discriminate; reflexivity.
Qed.

(** A text of the invoker that decodes to an object is an answer of the
    backend. *)
Lemma decoded_text_is_answer (P : Platform) (text : string) (obj : Dict PyVal) :
  rejects_sentinels P -> invoker_text P text ->
  decoded_object P text = Some obj ->
  exists k m p r,
    generate_content P k m p = Responds r
    /\ text = PyStr.strip (response_text r).
Proof.
  intros Hs [-> | [[e ->] | H]] Hobj; [| |exact H]; exfalso;
    unfold decoded_object in Hobj.
  - assert (H0 : json_loads P "[Gemini disabled]" = None)
      by apply (Hs " disabled]").
    now rewrite H0 in Hobj.
  - assert (H0 : json_loads P (error_sentinel e) = None)
      by apply (Hs (" error: "
                    +:+ (if PyStr.is_empty e then "unavailable" else e)
                    +:+ "]")).
    now rewrite H0 in Hobj.
Qed.

(** A chain of models either raises throughout or has a first model that
    responds. *)
Lemma chain_raises_or_answers (P : Platform) (prompt : string)
  (chain : list string) (k : nat) :
  (exists errs, all_raise P k prompt chain errs)
  \/ (exists pre errs m post r,
        chain = pre ++ m :: post
        /\ all_raise P k prompt pre errs
        /\ generate_content P (k + length pre) m prompt = Responds r).
Proof.
  revert k. induction chain as [|m ms IH]; intros k.
  - left. now exists [].
  - destruct (generate_content P k m prompt) as [r|e] eqn:E.
    + right. exists [], [], m, ms, r. simpl. rewrite Nat.add_0_r. auto.
    + destruct (IH (S k)) as [[errs H] | (pre & errs & m' & post & r & -> & H & Hr)].
      * left. exists (e :: errs). simpl. auto.
      * right. exists (m :: pre), (e :: errs), m', post, r. simpl.
        rewrite Nat.add_succ_r. auto.
Qed.

Lemma gate_open_or_closed (P : Platform) (cfg : Config) (w : World) :
  gate_open P cfg w \/ gate_closed P cfg w.
Proof.
  unfold gate_open, gate_closed.
  destruct (has_api_key cfg); [|now right; left].
  destruct (USE_GEMINI cfg); [|now right; right; left].
  destruct (Z_le_gt_dec (_gemini_backoff_until w) (time_time P (ticks w)));
    [left; auto | right; right; right; lia].
Qed.

Section FallbackFacts.
Variable P : Platform.
Variable cfg : Config.
Hypothesis Hs : rejects_sentinels P.
Hypothesis Hb : nothing_usable P.

(** With nothing usable the plan is the planner's, or the raw text when
    that is neither empty nor a sentinel; either way both fields are
    non-empty strings. *)
Lemma plan_dispatch_nothing_usable (d : Dict PyVal) (w : World) :
  planner_ready d -> tracked w ->
  exists s r w',
    _plan_dispatch P cfg (VDict d) w
    = (Ok {| plan_summary := VStr s; plan_recommendation := VStr r |}, w')
    /\ s <> EmptyString /\ r <> EmptyString
    /\ _UNIT_STATUS w' = _UNIT_STATUS w.
Proof.
  intros Hd Hw.
  destruct (run_gemini_total P cfg (dispatch_prompt P (VDict d))
              (DISPATCH_MODEL_CHAIN cfg) w) as (text & w1 & Hr & Ht & Hst & _).
  rewrite (plan_dispatch_unfold P cfg (VDict d) text w w1 Hr).
  assert (Hfall : exists s r w',
            match plan_relief_response P (VDict d) 2 w1 with
            | (Ok fallback, w2) => (Ok (plan_of_fallback fallback), w2)
            | (Raise e, w2) => (Raise e, w2)
            end
            = (Ok {| plan_summary := VStr s; plan_recommendation := VStr r |}, w')
            /\ s <> EmptyString /\ r <> EmptyString
            /\ _UNIT_STATUS w' = _UNIT_STATUS w).
  { destruct (plan_relief_response_ok P d 2 w1 Hd (tracked_same _ _ Hst Hw))
      as (rp & w2 & Hp & (Hg & _) & Hn1 & Hn2 & _).
    rewrite Hp. exists (rp_summary rp), (rp_recommendation rp), w2.
    repeat split; auto. congruence. }
  destruct (decoded_object P text) as [obj|] eqn:Hobj.
  - destruct (decoded_text_is_answer P text obj Hs Ht Hobj)
      as (k & m & p & r & Hresp & ->).
    destruct (Hb k m p r obj Hresp Hobj) as [Hsum _].
    rewrite (parse_plan_object P _ obj Hobj). cbn [plan_summary].
    rewrite Hsum. exact Hfall.
  - rewrite (parse_plan_raw P text Hobj). cbn [plan_summary].
    rewrite needs_fallback_str.
    destruct (PyStr.is_empty text || PyStr.startswith text "[Gemini") eqn:E.
    + exact Hfall.
    + apply orb_false_iff in E as [E _]. apply is_empty_false in E.
      exists text, text, w1. repeat split; auto.
Qed.

(** With nothing usable the Resource agent always takes the planner's list
    and text. *)
Lemma resource_handle_envelope_nothing_usable (self : ResourceAgent)
  (envelope : MessageEnvelope) (session : option Session)
  (d : Dict PyVal) (w : World) :
  dict_get "incident" (VDict (content envelope)) (content envelope) = VDict d ->
  planner_ready d -> tracked w ->
  exists ids text self' session' w',
    resource_handle_envelope P cfg self envelope session w
    = (Ok (self',
           add_trace (resource_name self)
             (VDict [("resources", VList (map VStr ids));
                     ("resource_summary", VStr text)])
             (set_content
                (dict_set "resource_summary" (VStr text)
                   (dict_set "resources" (VList (map VStr ids))
                      (content envelope)))
                envelope),
           session'), w')
    /\ text <> EmptyString
    /\ _UNIT_STATUS w' = _UNIT_STATUS w.
Proof.
  intros Hinc Hd Hw. unfold resource_handle_envelope. rewrite Hinc.
  unfold resource_ask_gemini.
  match goal with
  | |- context [_run_gemini P cfg ?p ?c] =>
      destruct (run_gemini_total P cfg p c w)
        as (text & w1 & Hr & Ht & Hst & _)
  end.
  rewrite (bind_ok _ _ _ _ _ Hr).
  assert (Hparse : exists resources resource_summary,
             parse_resources P text = (resources, resource_summary)
             /\ resources_unusable resources = true).
  { destruct (decoded_object P text) as [obj|] eqn:Hobj.
    - destruct (decoded_text_is_answer P text obj Hs Ht Hobj)
        as (k & m & p & r & Hresp & ->).
      destruct (Hb k m p r obj Hresp Hobj) as [_ Hres].
      rewrite (parse_resources_object P _ obj Hobj). now eexists _, _.
    - rewrite (parse_resources_raw P text Hobj). now eexists _, _. }
  destruct Hparse as (resources & resource_summary & -> & ->).
  destruct (plan_relief_response_ok P d 2 w1 Hd (tracked_same _ _ Hst Hw))
    as (rp & w2 & Hp & (Hg & _) & _ & _ & Hn).
  unfold bind at 1. unfold bind at 1. rewrite Hp. unfold ret.
  eexists (rp_resources rp), (rp_resource_summary rp), _, _, w2.
  split; [reflexivity|]. split; [exact Hn | congruence].
Qed.

End FallbackFacts.

Section DisplayFacts.
Variable P : Platform.
Variable cfg : Config.

(** The display text follows from the text the Summary agent's own
    invocation returned: the formatted alert, at most 60 characters, for a
    text that begins with "[Gemini", the text itself otherwise. *)
Lemma summary_handle_envelope_text (self : SummaryAgent)
  (envelope : MessageEnvelope) (session : option Session) (w : World) :
  (let incident := dict_get "incident" (VDict []) (content envelope) in
   truthy incident = false \/ (exists d, incident = VDict d)) ->
  exists text ds w',
    _run_gemini P cfg (summary_prompt_of P (content envelope))
      (SUMMARY_MODEL_CHAIN cfg) w = (Ok text, w')
    /\ summary_handle_envelope P cfg self envelope session w
       = (Ok (self,
              set_content (dict_set "display_summary" (VStr ds) (content envelope))
                (add_trace (summary_name self)
                   (VDict [("display_summary", VStr ds)]) envelope),
              session), w')
    /\ (PyStr.startswith text "[Gemini" = true -> (String.length ds <= 60)%nat)
    /\ (PyStr.startswith text "[Gemini" = false -> ds = PyStr.strip text).
Proof.
  intros Hinc. unfold summary_handle_envelope, summarize_for_display.
  fold (summary_prompt P (dict_get "summary" (VStr "") (content envelope))
          (dict_get "recommendation" (VStr "") (content envelope))
          (dict_get "urgency" (VStr "CRITICAL") (content envelope))).
  fold (summary_prompt_of P (content envelope)).
  destruct (run_gemini_total P cfg (summary_prompt_of P (content envelope))
              (SUMMARY_MODEL_CHAIN cfg) w) as (text & w1 & Hr & _).
  exists text.
  destruct (PyStr.startswith text "[Gemini") eqn:E.
  - destruct (format_display_alert_ok P
                (dict_get "summary" (VStr "") (content envelope))
                (dict_get "recommendation" (VStr "") (content envelope))
                (dict_get "incident" (VDict []) (content envelope))
                (dict_get "urgency" (VStr "CRITICAL") (content envelope)) Hinc)
      as (ds & Hds & Hlen).
    exists ds, w1. split; [exact Hr|].
    split; [|split; [intros _; exact Hlen | discriminate]].
    unfold bind. rewrite Hr, E. unfold lift. rewrite Hds. reflexivity.
  - exists (PyStr.strip text), w1. split; [exact Hr|].
    split; [|split; [discriminate | reflexivity]].
    unfold bind. rewrite Hr, E. reflexivity.
Qed.

(** What the invoker returns in each of the three ways an invocation can
    go. *)
Lemma run_gemini_closed_text (prompt : string) (chain : list string)
  (text : string) (w w' : World) :
  _run_gemini P cfg prompt chain w = (Ok text, w') ->
  gate_closed P cfg w ->
  text = "[Gemini disabled]" /\ requests w' = requests w.
Proof.
  intros Hr Hc.
  destruct (run_gemini_gate_closed P cfg prompt chain w Hc) as (w1 & H1 & Hq & _).
  apply run_gemini_of_traced in H1. rewrite Hr in H1.
  injection H1 as -> ->. auto.
Qed.

Lemma run_gemini_all_fail_text (prompt : string) (chain : list string)
  (text : string) (w w' : World) :
  _run_gemini P cfg prompt chain w = (Ok text, w') ->
  all_fail P cfg prompt chain w ->
  PyStr.startswith text "[Gemini" = true.
Proof.
  intros Hr (Ho & errs & Hall).
  destruct (try_models_all_raise P cfg prompt chain errs EmptyString (tick w) Hall)
    as (w1 & H1 & _).
  rewrite <- (run_gemini_gate_open P cfg prompt chain w Ho) in H1.
  apply run_gemini_of_traced in H1. rewrite Hr in H1.
  injection H1 as -> _. unfold error_sentinel.
  apply (startswith_append "[Gemini"
           (" error: " +:+ (if PyStr.is_empty (List.last errs EmptyString)
                            then "unavailable" else List.last errs EmptyString)
            +:+ "]")).
Qed.

Lemma run_gemini_answers_text (prompt : string) (chain : list string)
  (text : string) (r : Response) (w w' : World) :
  _run_gemini P cfg prompt chain w = (Ok text, w') ->
  answers P cfg prompt chain w r ->
  text = PyStr.strip (response_text r).
Proof.
  intros Hr (Ho & pre & errs & m & post & -> & Hall & Hm).
  destruct (try_models_first_answer P cfg prompt pre errs m post r EmptyString
              (tick w) Hall Hm) as (w1 & H1 & _).
  rewrite <- (run_gemini_gate_open P cfg prompt _ w Ho) in H1.
  apply run_gemini_of_traced in H1. rewrite Hr in H1.
  now injection H1 as -> _.
Qed.

Lemma invocation_cases (prompt : string) (chain : list string) (w : World) :
  gate_closed P cfg w
  \/ all_fail P cfg prompt chain w
  \/ exists r, answers P cfg prompt chain w r.
Proof.
  destruct (gate_open_or_closed P cfg w) as [Ho | Hc]; [|now left].
  right.
  destruct (chain_raises_or_answers P prompt chain (length (requests w)))
    as [[errs H] | (pre & errs & m & post & r & Hc & H & Hr)].
  - left. split; [exact Ho | now exists errs].
  - right. exists r. split; [exact Ho|]. now exists pre, errs, m, post.
Qed.

End DisplayFacts.

(* ===================================================================== *)
(** * The envelope as an object graph *)
(* ===================================================================== *)

Lemma collect_all_documents {A B} (f : A -> Live.Dump B) (l : list A) :
  (forall x, In x l -> exists doc, f x = Live.Document doc) ->
  exists docs, Live.collect (map f l) = Live.Document docs.
Proof.
  induction l as [|x l IH]; intros H; [now exists []|].
  destruct (H x (or_introl eq_refl)) as [doc Hdoc].
  destruct IH as [docs Hdocs]; [intros y Hy; apply H; now right|].
  exists (doc :: docs). simpl. now rewrite Hdoc, Hdocs.
Qed.

Lemma collect_not_document {A B} (f : A -> Live.Dump B) (l : list A) (x : A) :
  In x l -> Live.is_document (f x) = false ->
  Live.is_document (Live.collect (map f l)) = false.
Proof.
  induction l as [|y l IH]; intros Hin Hx; [destruct Hin|].
  simpl. destruct Hin as [-> | Hin].
  - destruct (f x); [discriminate | reflexivity..].
  - destruct (f y); try reflexivity.
    specialize (IH Hin Hx). now destruct (Live.collect (map f l)).
Qed.

Lemma is_document_dump_map {A B} (f : A -> B) (d : Live.Dump A) :
  Live.is_document (Live.dump_map f d) = Live.is_document d.
Proof. now destruct d. Qed.

Lemma dumps_plain (fuel : nat) (h : Live.Heap) (markers : list Live.Addr)
  (v : PyVal) :
  Live.dumps fuel h markers (Live.Plain v) = Live.Document v.
Proof. now destruct fuel. Qed.

Lemma collect_plain_entries (fuel : nat) (h : Live.Heap)
  (markers : list Live.Addr) (d : Dict PyVal) :
  Live.collect
    (map (fun kv => Live.dump_map (pair (fst kv))
                      (Live.dumps fuel h markers (snd kv)))
         (plain_entries d))
  = Live.Document d.
Proof.
  induction d as [|[k v] d IH]; [reflexivity|].
  change (plain_entries ((k, v) :: d)) with ((k, Live.Plain v) :: plain_entries d).
  cbn [map fst snd]. rewrite dumps_plain.
  cbn [Live.dump_map Live.collect]. rewrite IH. reflexivity.
Qed.

Lemma collect_plain_items {A} (g : A -> PyVal) (fuel : nat) (h : Live.Heap)
  (markers : list Live.Addr) (l : list A) :
  Live.collect
    (map (Live.dumps fuel h markers) (map (fun x => Live.Plain (g x)) l))
  = Live.Document (map g l).
Proof.
  induction l as [|x l IH]; [reflexivity|].
  cbn [map]. rewrite dumps_plain.
  cbn [Live.dump_map Live.collect]. rewrite IH. reflexivity.
Qed.

Lemma in_values_of_dict (entries : Dict Live.Value) (kv : string * Live.Value) :
  In kv entries -> In (snd kv) (Live.values_of (Live.DictObject entries)).
Proof. intros H. simpl. now apply in_map. Qed.

(** In a heap without cycles every object serializes, given fuel beyond its
    rank. *)
Lemma dumps_acyclic (rank : Live.Addr -> nat) (h : Live.Heap) :
  acyclic_by rank h ->
  forall fuel a markers,
    is_Some (h !! a) -> (rank a < fuel)%nat ->
    (forall m, In m markers -> (rank a < rank m)%nat) ->
    exists doc, Live.dumps fuel h markers (Live.Ref a) = Live.Document doc.
Proof.
  intros Hacyclic.
  induction fuel as [|fuel IH]; intros a markers [o Ho] Hfuel Hmarkers; [lia|].
  simpl. rewrite bool_decide_eq_false_2.
  2:{ intros Hin. apply list_elem_of_In in Hin.
      specialize (Hmarkers a Hin). lia. }
  rewrite Ho.
  assert (Hvalue : forall v, In v (Live.values_of o) ->
            exists doc, Live.dumps fuel h (a :: markers) v = Live.Document doc).
  { intros [doc | b] Hin; [exists doc; apply dumps_plain|].
    destruct (Hacyclic a o b Ho Hin) as [Hlt Hb].
    apply IH; [exact Hb | lia |].
    intros m [<- | Hm]; [exact Hlt|].
    specialize (Hmarkers m Hm). lia. }
  destruct o as [entries | items].
  - destruct (collect_all_documents
                (fun kv => Live.dump_map (pair (fst kv))
                             (Live.dumps fuel h (a :: markers) (snd kv)))
                entries) as [docs Hdocs].
    { intros kv Hin.
      destruct (Hvalue (snd kv) (in_values_of_dict entries kv Hin)) as [doc Hdoc].
      rewrite Hdoc. now eexists. }
    rewrite Hdocs. now eexists.
  - destruct (collect_all_documents (Live.dumps fuel h (a :: markers)) items)
      as [docs Hdocs]; [exact Hvalue|].
    rewrite Hdocs. now eexists.
Qed.

Lemma lookup_snapshot_heap_old (self : Live.MessageEnvelope) (h : Live.Heap)
  (a : Live.Addr) (o : Live.Object) :
  h !! a = Some o -> snapshot_heap self h !! a = Some o.
Proof.
  intros H. unfold snapshot_heap, Live.to_dict, Live.alloc. cbn [snd].
  now apply lookup_app_l_Some.
Qed.

Lemma lookup_snapshot_heap_new (self : Live.MessageEnvelope) (h : Live.Heap) :
  snapshot_heap self h !! length h
  = Some (Live.DictObject
            [ ("content", Live.Ref (Live.content self));
              ("sender", Live.Plain (Live.sender self));
              ("receiver", Live.Plain (Live.receiver self));
              ("trace", Live.Ref (Live.trace self));
              ("context", Live.Ref (Live.context self)) ]).
Proof.
  unfold snapshot_heap, Live.to_dict, Live.alloc. cbn [snd].
  now apply list_lookup_middle.
Qed.

(** The snapshot of a well-formed envelope in a heap without cycles
    serializes. *)
Lemma snapshot_serializable (rank : Live.Addr -> nat)
  (self : Live.MessageEnvelope) (h : Live.Heap) :
  acyclic_by rank h -> well_formed self h ->
  serializable (snapshot_heap self h) (snapshot self h).
Proof.
  intros Hacyclic ((ce & Hc) & (ti & Ht) & (xe & Hx)).
  set (top := S (Nat.max (rank (Live.content self))
                   (Nat.max (rank (Live.trace self)) (rank (Live.context self))))).
  set (rank' := fun a => if Nat.eqb a (length h) then top else rank a).
  assert (Hold : forall a o, h !! a = Some o -> rank' a = rank a).
  { intros a o Ha. unfold rank'.
    apply lookup_lt_Some in Ha.
    destruct (Nat.eqb_spec a (length h)); [lia | reflexivity]. }
  assert (Hacyclic' : acyclic_by rank' (snapshot_heap self h)).
  { intros a o b Ha Hin.
    destruct (Nat.lt_trichotomy a (length h)) as [Hlt | [-> | Hgt]].
    - assert (Ha' : h !! a = Some o).
      { unfold snapshot_heap, Live.to_dict, Live.alloc in Ha. cbn [snd] in Ha.
        apply lookup_snoc_Some in Ha as [[_ Ha] | [Hlen _]]; [exact Ha | lia]. }
      destruct (Hacyclic a o b Ha' Hin) as [Hr [ob Hb]].
      rewrite (Hold a o Ha'), (Hold b ob Hb).
      split; [exact Hr|]. exists ob. now apply lookup_snapshot_heap_old.
    - rewrite lookup_snapshot_heap_new in Ha. injection Ha as <-.
      unfold rank' at 2. rewrite Nat.eqb_refl.
      simpl in Hin.
      destruct Hin as [E | [E | [E | [E | [E | []]]]]]; try discriminate;
        injection E as <-.
      + rewrite (Hold _ _ Hc). split; [unfold top; lia|].
        eexists. apply lookup_snapshot_heap_old, Hc.
      + rewrite (Hold _ _ Ht). split; [unfold top; lia|].
        eexists. apply lookup_snapshot_heap_old, Ht.
      + rewrite (Hold _ _ Hx). split; [unfold top; lia|].
        eexists. apply lookup_snapshot_heap_old, Hx.
    - unfold snapshot_heap, Live.to_dict, Live.alloc in Ha. cbn [snd] in Ha.
      apply lookup_snoc_Some in Ha as [[Hlt _] | [Heq _]]; lia. }
  destruct (dumps_acyclic rank' _ Hacyclic' (S (rank' (length h))) (length h) [])
    as [doc Hdoc].
  - rewrite lookup_snapshot_heap_new. now eexists.
  - lia.
  - intros m [].
  - exists (S (rank' (length h))), doc. exact Hdoc.
Qed.

(** The snapshot of the live envelope that a tree-shaped envelope stands
    for serializes to the mapping [to_dict] gives for the tree. *)
Lemma stored_snapshot_document (e : MessageEnvelope) (fuel : nat) :
  Live.dumps (S (S fuel)) (snapshot_heap (fst (store e)) (snd (store e))) []
    (snapshot (fst (store e)) (snd (store e)))
  = Live.Document (VDict (to_dict e)).
Proof.
  unfold snapshot, snapshot_heap, store, Live.to_dict, Live.alloc.
  cbn [fst snd length app Live.content Live.sender Live.receiver Live.trace
       Live.context].
  set (h := [_; _; _; _]).
  change (Live.dumps (S (S fuel)) h [] (Live.Ref 3%nat))
    with (Live.dump_map VDict
            (Live.collect
               (map (fun kv => Live.dump_map (pair (fst kv))
                                 (Live.dumps (S fuel) h [3%nat] (snd kv)))
                  [ ("content", Live.Ref 0%nat); ("sender", Live.Plain (sender e));
                    ("receiver", Live.Plain (receiver e));
                    ("trace", Live.Ref 1%nat); ("context", Live.Ref 2%nat) ]))).
  assert (Hc : Live.dumps (S fuel) h [3%nat] (Live.Ref 0%nat)
               = Live.Document (VDict (content e))).
  { change (Live.dumps (S fuel) h [3%nat] (Live.Ref 0%nat))
      with (Live.dump_map VDict
              (Live.collect
                 (map (fun kv => Live.dump_map (pair (fst kv))
                                   (Live.dumps fuel h [0%nat; 3%nat] (snd kv)))
                    (plain_entries (content e))))).
    now rewrite collect_plain_entries. }
  assert (Ht : Live.dumps (S fuel) h [3%nat] (Live.Ref 1%nat)
               = Live.Document (VList (map trace_entry_value (trace e)))).
  { change (Live.dumps (S fuel) h [3%nat] (Live.Ref 1%nat))
      with (Live.dump_map VList
              (Live.collect
                 (map (Live.dumps fuel h [1%nat; 3%nat])
                    (map (fun t => Live.Plain (trace_entry_value t)) (trace e))))).
    now rewrite collect_plain_items. }
  assert (Hx : Live.dumps (S fuel) h [3%nat] (Live.Ref 2%nat)
               = Live.Document (VDict (context e))).
  { change (Live.dumps (S fuel) h [3%nat] (Live.Ref 2%nat))
      with (Live.dump_map VDict
              (Live.collect
                 (map (fun kv => Live.dump_map (pair (fst kv))
                                   (Live.dumps fuel h [2%nat; 3%nat] (snd kv)))
                    (plain_entries (context e))))).
    now rewrite collect_plain_entries. }
  cbn [map fst snd]. rewrite Hc, Ht, Hx. reflexivity.
Qed.

Lemma dumps_marked (fuel : nat) (h : Live.Heap) (markers : list Live.Addr)
  (a : Live.Addr) :
  In a markers ->
  Live.dumps fuel h markers (Live.Ref a) = Live.CircularReference.
Proof.
  intros Hin. apply list_elem_of_In in Hin.
  destruct fuel; simpl; now rewrite bool_decide_eq_true_2.
Qed.

(** A mapping that holds itself does not serialize, and neither does
    anything that holds it. *)
Lemma self_reference_unserializable (h : Live.Heap) (c : Live.Addr)
  (entries : Dict Live.Value) (k : string)
  (fuel : nat) (markers : list Live.Addr) :
  h !! c = Some (Live.DictObject entries) ->
  In (k, Live.Ref c) entries ->
  Live.is_document (Live.dumps fuel h markers (Live.Ref c)) = false.
Proof.
  intros Hc Hin. destruct fuel as [|fuel]; simpl.
  - now destruct (bool_decide (c ∈ markers)).
  - destruct (bool_decide (c ∈ markers)); [reflexivity|].
    rewrite Hc, is_document_dump_map.
    apply (collect_not_document _ _ (k, Live.Ref c) Hin).
    cbn [fst snd]. now rewrite dumps_marked by now left.
Qed.

Lemma snapshot_of_cycle_unserializable (self : Live.MessageEnvelope)
  (h : Live.Heap) (entries : Dict Live.Value) (k : string) :
  h !! Live.content self = Some (Live.DictObject entries) ->
  In (k, Live.Ref (Live.content self)) entries ->
  unserializable (snapshot_heap self h) (snapshot self h).
Proof.
  intros Hc Hin fuel. unfold snapshot. simpl fst.
  destruct fuel as [|fuel]; [reflexivity|].
  cbn [Live.dumps]. rewrite bool_decide_eq_false_2 by apply not_elem_of_nil.
  rewrite lookup_snapshot_heap_new, is_document_dump_map.
  apply (collect_not_document _ _ ("content", Live.Ref (Live.content self)));
    [now left|].
  cbn [fst snd]. rewrite is_document_dump_map.
  eapply self_reference_unserializable; [|exact Hin].
  apply lookup_snapshot_heap_old, Hc.
Qed.

Lemma dict_set_in {A} (k : string) (v : A) (d : Dict A) :
  In (k, v) (dict_set k v d).
Proof.
  induction d as [|[k' v'] d IH]; simpl; [now left|].
  destruct (String.eqb k k'); [now left | now right].
Qed.

Lemma dict_set_in_other {A} (k k' : string) (v v' : A) (d : Dict A) :
  k <> k' -> In (k, v) d -> In (k, v) (dict_set k' v' d).
Proof.
  intros Hne. induction d as [|[k0 v0] d IH]; simpl; [tauto|].
  intros [E | Hin].
  - injection E as -> ->.
    destruct (String.eqb_spec k' k); [congruence | now left].
  - destruct (String.eqb k' k0); right; [exact Hin | now apply IH].
Qed.

(** After the Dispatch agent has handled a content without an ["incident"]
    key, the content holds itself under that key. *)
Lemma dispatch_writes_self_reference (name : string) (plan : Plan)
  (self : Live.MessageEnvelope) (h : Live.Heap) (entries : Dict Live.Value) :
  h !! Live.content self = Some (Live.DictObject entries) ->
  dict_lookup "incident" entries = None ->
  exists entries',
    Live.dispatch_handle_envelope_writes name plan self h !! Live.content self
    = Some (Live.DictObject entries')
    /\ In ("incident", Live.Ref (Live.content self)) entries'.
Proof.
  intros Hc Hnone. unfold Live.dispatch_handle_envelope_writes. rewrite Hc.
  unfold dict_get. rewrite Hnone.
  set (entries' := dict_set "recommendation" _ _).
  assert (Hin : In ("incident", Live.Ref (Live.content self)) entries').
  { unfold entries'.
    apply dict_set_in_other; [discriminate|].
    apply dict_set_in_other; [discriminate|].
    apply dict_set_in. }
  assert (Hc' : <[Live.content self := Live.DictObject entries']> h
                !! Live.content self = Some (Live.DictObject entries')).
  { apply list_lookup_insert_eq. now apply lookup_lt_Some in Hc. }
  exists entries'. split; [|exact Hin].
  unfold Live.add_trace.
  destruct (Nat.eq_dec (Live.trace self) (Live.content self)) as [E | Hne].
  - rewrite E, Hc'. exact Hc'.
  - destruct (_ !! Live.trace self) as [[|items]|]; try exact Hc'.
    rewrite list_lookup_insert_ne by exact Hne. exact Hc'.
Qed.

Lemma plain_entries_set (k : string) (v : PyVal) (d : Dict PyVal) :
  plain_entries (dict_set k v d) = dict_set k (Live.Plain v) (plain_entries d).
Proof.
  induction d as [|[k' v'] d IH]; [reflexivity|].
  change (plain_entries ((k', v') :: d))
    with ((k', Live.Plain v') :: plain_entries d).
  cbn [dict_set]. destruct (String.eqb k k'); [reflexivity|].
  change (plain_entries ((k', v') :: dict_set k v d))
    with ((k', Live.Plain v') :: plain_entries (dict_set k v d)).
  now rewrite IH.
Qed.

Lemma plain_entries_lookup (k : string) (d : Dict PyVal) :
  dict_lookup k (plain_entries d) = option_map Live.Plain (dict_lookup k d).
Proof.
  induction d as [|[k' v'] d IH]; [reflexivity|].
  simpl. destruct (String.eqb k k'); [reflexivity | exact IH].
Qed.

(** When the content has an ["incident"] key, the live envelope after the
    Dispatch agent's writes is the one the tree-shaped result stands for. *)
Lemma live_dispatch_agrees (name : string) (plan : Plan) (e : MessageEnvelope)
  (incident : PyVal) :
  dict_lookup "incident" (content e) = Some incident ->
  Live.dispatch_handle_envelope_writes name plan (fst (store e)) (snd (store e))
  = snd (store
           (add_trace name
              (VDict [("summary", plan_summary plan);
                      ("recommendation", plan_recommendation plan)])
              (set_content
                 (dict_set "recommendation" (plan_recommendation plan)
                    (dict_set "summary" (plan_summary plan)
                       (dict_set "incident" incident (content e))))
                 e))).
Proof.
  intros Hinc. unfold Live.dispatch_handle_envelope_writes, store.
  cbn [fst snd Live.content Live.trace Live.context].
  change ([Live.DictObject (plain_entries (content e)); ?t; ?x] !! 0%nat)
    with (Some (Live.DictObject (plain_entries (content e)))).
  cbv iota beta.
  unfold dict_get at 1. rewrite plain_entries_lookup, Hinc. simpl option_map.
  cbv iota. unfold Live.add_trace.
  cbn [Live.trace Live.content list_insert lookup list_lookup].
  cbn [trace content context add_trace set_content].
  rewrite !plain_entries_set, map_app. reflexivity.
Qed.

Lemma store_acyclic (e : MessageEnvelope) :
  acyclic_by (fun _ => 0%nat) (snd (store e)).
Proof.
  assert (Hentries : forall (d : Dict PyVal) b,
            ~ In (Live.Ref b) (map snd (plain_entries d))).
  { intros d b. induction d as [|[k v] d IH]; simpl; [tauto|].
    intros [E | H]; [discriminate | tauto]. }
  assert (Hitems : forall (l : list TraceEntry) b,
            ~ In (Live.Ref b)
                (map (fun t => Live.Plain (trace_entry_value t)) l)).
  { intros l b. induction l as [|t l IH]; simpl; [tauto|].
    intros [E | H]; [discriminate | tauto]. }
  intros a o b Ha Hin. exfalso. unfold store in Ha. cbn [snd] in Ha.
  destruct a as [|[|[|a]]]; simpl in Ha; try discriminate;
    injection Ha as <-; simpl in Hin.
  - exact (Hentries _ _ Hin).
  - exact (Hitems _ _ Hin).
  - exact (Hentries _ _ Hin).
Qed.

Lemma store_well_formed (e : MessageEnvelope) :
  well_formed (fst (store e)) (snd (store e)).
Proof. repeat split; eexists; reflexivity. Qed.

Lemma collect_plain_prefix (fuel : nat) (h : Live.Heap)
  (markers : list Live.Addr) (pre : Dict PyVal) (rest : Dict Live.Value) :
  Live.collect
    (map (fun kv => Live.dump_map (pair (fst kv))
                      (Live.dumps fuel h markers (snd kv)))
         (plain_entries pre ++ rest))
  = Live.dump_map (app pre)
      (Live.collect
         (map (fun kv => Live.dump_map (pair (fst kv))
                           (Live.dumps fuel h markers (snd kv)))
              rest)).
Proof.
  induction pre as [|[k v] pre IH].
  - simpl. now destruct (Live.collect _).
  - change (plain_entries ((k, v) :: pre) ++ rest)
      with ((k, Live.Plain v) :: (plain_entries pre ++ rest)).
    cbn [map fst snd]. rewrite dumps_plain.
    cbn [Live.dump_map Live.collect]. rewrite IH.
    match goal with
    | |- context [Live.dump_map (app pre) ?X] => destruct X; reflexivity
    end.
Qed.

Lemma dumps_dict (fuel : nat) (h : Live.Heap) (markers : list Live.Addr)
  (a : Live.Addr) (entries : Dict Live.Value) :
  h !! a = Some (Live.DictObject entries) -> ~ In a markers ->
  Live.dumps (S fuel) h markers (Live.Ref a)
  = Live.dump_map VDict
      (Live.collect
         (map (fun kv => Live.dump_map (pair (fst kv))
                           (Live.dumps fuel h (a :: markers) (snd kv)))
              entries)).
Proof.
  intros Ha Hnot. cbn [Live.dumps].
  rewrite bool_decide_eq_false_2
    by (intros Hin; apply list_elem_of_In in Hin; tauto).
  now rewrite Ha.
Qed.

(** The error for a mapping that holds itself after plain entries is the
    circular reference, and so it is for the snapshot of an envelope whose
    content is such a mapping. *)
Lemma self_reference_circular (h : Live.Heap) (c : Live.Addr)
  (pre : Dict PyVal) (k : string) (post : Dict Live.Value)
  (fuel : nat) (markers : list Live.Addr) :
  h !! c = Some (Live.DictObject (plain_entries pre ++ (k, Live.Ref c) :: post)) ->
  ~ In c markers ->
  Live.dumps (S fuel) h markers (Live.Ref c) = Live.CircularReference.
Proof.
  intros Hc Hnot.
  rewrite (dumps_dict _ _ _ _ _ Hc Hnot), collect_plain_prefix.
  cbn [map fst snd]. now rewrite dumps_marked by now left.
Qed.

Lemma snapshot_of_cycle_circular (self : Live.MessageEnvelope) (h : Live.Heap)
  (pre : Dict PyVal) (k : string) (post : Dict Live.Value) (fuel : nat) :
  h !! Live.content self
  = Some (Live.DictObject
            (plain_entries pre ++ (k, Live.Ref (Live.content self)) :: post)) ->
  Live.dumps (S (S fuel)) (snapshot_heap self h) [] (snapshot self h)
  = Live.CircularReference.
Proof.
  intros Hc. unfold snapshot. cbn [fst Live.to_dict Live.alloc].
  rewrite (dumps_dict _ _ _ _ _ (lookup_snapshot_heap_new self h))
    by (intros []).
  cbn [map fst snd].
  rewrite (self_reference_circular _ _ pre k post fuel [length h]).
  - reflexivity.
  - apply lookup_snapshot_heap_old, Hc.
  - intros [E | []]. apply lookup_lt_Some in Hc. lia.
Qed.

(* ===================================================================== *)
(** * The properties of the specification *)
(* ===================================================================== *)









(** C4 (amended). Dispatch fallback condition.  Let [text] be what the
    invoker returned for the incident's prompt.  The Dispatch agent invokes
    the Planner and keeps the planner's summary and recommendation when the
    summary it obtained is empty or begins with "[Gemini": that is, when
    [text] does not decode to an object and is itself empty or begins with
    "[Gemini", or when the decoded object's summary is missing, falsy, or a
    string that begins with "[Gemini".  When [text] does not decode to an
    object and is a non-empty text that does not begin with "[Gemini", the
    agent keeps [text] as both summary and recommendation and the Planner is
    not run.  When the decoded object's summary is a non-empty string that
    does not begin with "[Gemini", the agent keeps that summary and the
    object's recommendation as it is.  What it keeps is what
    [handle_envelope] writes into the envelope. *)
Theorem dispatch_fallback_condition (P : Platform) (cfg : Config)
  (incident : PyVal) (text : string) (w w1 : World) :
  dispatch_ask_gemini P cfg (dispatch_prompt P incident) w = (Ok text, w1) ->
  ((decoded_object P text = None
    /\ (text = EmptyString \/ PyStr.startswith text "[Gemini" = true))
   \/ (exists obj, decoded_object P text = Some obj
                   /\ truthy (dict_get "summary" (VStr "") obj) = false)
   \/ (exists obj s, decoded_object P text = Some obj
                     /\ dict_get "summary" (VStr "") obj = VStr s
                     /\ PyStr.startswith s "[Gemini" = true) ->
   forall fallback w2,
     plan_relief_response P incident 2 w1 = (Ok fallback, w2) ->
     _plan_dispatch P cfg incident w = (Ok (plan_of_fallback fallback), w2))
  /\ (decoded_object P text = None -> text <> EmptyString ->
      PyStr.startswith text "[Gemini" = false ->
      _plan_dispatch P cfg incident w
      = (Ok {| plan_summary := VStr text; plan_recommendation := VStr text |}, w1))
  /\ (forall obj s,
        decoded_object P text = Some obj ->
        dict_get "summary" (VStr "") obj = VStr s ->
        s <> EmptyString -> PyStr.startswith s "[Gemini" = false ->
        _plan_dispatch P cfg incident w
        = (Ok {| plan_summary := VStr s;
                 plan_recommendation := dict_get "recommendation" (VStr "") obj |},
           w1))
  /\ (forall self envelope session plan w',
        incident_of envelope = incident ->
        _plan_dispatch P cfg incident w = (Ok plan, w') ->
        exists self' envelope' session',
          dispatch_handle_envelope P cfg self envelope session w
          = (Ok (self', envelope', session'), w')
          /\ dict_lookup "summary" (content envelope') = Some (plan_summary plan)
          /\ dict_lookup "recommendation" (content envelope')
             = Some (plan_recommendation plan)).
Proof.
  intros Hask.
  pose proof (plan_dispatch_unfold P cfg incident text w w1 Hask) as Hunf.
  split; [|split; [|split]].
  - intros Hcase fallback w2 Hplan. rewrite Hunf, Hplan.
    assert (Hfall : needs_fallback (plan_summary (parse_plan P text)) = Ok true).
    { destruct Hcase as [[Hnone Htext] | [(obj & Hobj & Hfalsy) | (obj & s & Hobj & Hs & Hpre)]].
      - rewrite (parse_plan_raw P text Hnone). cbn [plan_summary].
        rewrite needs_fallback_str.
        destruct Htext as [-> | ->]; [reflexivity | now rewrite orb_true_r].
      - rewrite (parse_plan_object P text obj Hobj). cbn [plan_summary].
        unfold needs_fallback. now rewrite Hfalsy.
      - rewrite (parse_plan_object P text obj Hobj). cbn [plan_summary].
        rewrite Hs, needs_fallback_str, Hpre. now rewrite orb_true_r. }
    now rewrite Hfall.
  - intros Hnone Hne Hpre. rewrite Hunf.
    rewrite (parse_plan_raw P text Hnone). cbn [plan_summary].
    rewrite needs_fallback_str, Hpre.
    apply is_empty_false in Hne. now rewrite Hne.
  - intros obj s Hobj Hs Hne Hpre. rewrite Hunf.
    rewrite (parse_plan_object P text obj Hobj). cbn [plan_summary].
    rewrite Hs, needs_fallback_str, Hpre.
    apply is_empty_false in Hne. now rewrite Hne.
  - intros self envelope session plan w' Hinc Hplan.
    unfold incident_of in Hinc. rewrite <- Hinc in Hplan.
    rewrite (dispatch_handle_envelope_plan P cfg self envelope session plan w w' Hplan).
    eexists _, _, _. split; [reflexivity|]. simpl. split.
    + rewrite dict_lookup_set_ne by discriminate. apply dict_lookup_set_eq.
    + apply dict_lookup_set_eq.
Qed.

(** Every request failing, the agent keeps the planner's two texts. *)
Lemma dispatch_fallback_condition_offline :
  exists w',
    _plan_dispatch offline keyed (VDict fire_incident) (initial_world offline)
    = (Ok {| plan_summary := VStr "Fire at Sector 7 - urgency CRITICAL.";
             plan_recommendation := VStr "Dispatch Fire-1 to Sector 7." |}, w').
Proof.
  set (run := dispatch_ask_gemini offline keyed
                (dispatch_prompt offline (VDict fire_incident))
                (initial_world offline)).
  assert (E : run = (Ok "[Gemini error: 503 service unavailable]", snd run)).
  { vm_compute. reflexivity. }
  destruct (dispatch_fallback_condition offline keyed (VDict fire_incident)
              _ (initial_world offline) (snd run) E) as (Hplanner & _).
  set (pl := plan_relief_response offline (VDict fire_incident) 2 (snd run)).
  assert (Ep : pl = (Ok {| rp_summary := "Fire at Sector 7 - urgency CRITICAL.";
                           rp_recommendation := "Dispatch Fire-1 to Sector 7.";
                           rp_resources := ["Fire-1"; "Fire-2"];
                           rp_resource_summary :=
                             "Primary assignments: Fire-1 (fire, ETA 8m), Fire-2 (fire, ETA 10m)" |},
                     snd pl)).
  { vm_compute. reflexivity. }
  exists (snd pl). apply (Hplanner (or_introl (conj eq_refl (or_intror eq_refl))) _ _ Ep).
Defined.

(** A backend that answers in prose: decoding fails, and the agent keeps the
    prose, not the planner's summary; the Planner is not run.  A backend
    that answers with an object holding only a summary: the recommendation
    the agent keeps is the empty string. *)
Lemma dispatch_keeps_unparsed_text :
  (json_loads chatty prose_reply = None
   /\ exists plan w' fallback w2,
        _plan_dispatch chatty keyed (VDict fire_incident) (initial_world chatty)
        = (Ok plan, w')
        /\ plan_relief_response chatty (VDict fire_incident) 2 w' = (Ok fallback, w2)
        /\ plan_summary plan = VStr prose_reply
        /\ plan_summary plan <> VStr (rp_summary fallback)
        /\ draws w' = draws (initial_world chatty))
  /\ (decoded_object terse summary_only_reply
      = Some [("summary", VStr "Warehouse fire, two floors")]
      /\ exists plan w' fallback w2,
           _plan_dispatch terse keyed (VDict fire_incident) (initial_world terse)
           = (Ok plan, w')
           /\ plan_relief_response terse (VDict fire_incident) 2 w' = (Ok fallback, w2)
           /\ plan_recommendation plan = VStr EmptyString
           /\ plan_recommendation plan <> VStr (rp_recommendation fallback)).
Proof.
  split; (split; [vm_compute; reflexivity|]).
  - set (run := _plan_dispatch chatty keyed (VDict fire_incident) (initial_world chatty)).
    assert (E : run = (Ok {| plan_summary := VStr prose_reply;
                             plan_recommendation := VStr prose_reply |}, snd run)).
    { vm_compute. reflexivity. }
    set (pl := plan_relief_response chatty (VDict fire_incident) 2 (snd run)).
    assert (Ep : pl = (Ok {| rp_summary := "Fire at Sector 7 - urgency CRITICAL.";
                             rp_recommendation := "Dispatch Fire-1 to Sector 7.";
                             rp_resources := ["Fire-1"; "Fire-2"];
                             rp_resource_summary :=
                               "Primary assignments: Fire-1 (fire, ETA 8m), Fire-2 (fire, ETA 10m)" |},
                       snd pl)).
    { vm_compute. reflexivity. }
    eexists _, (snd run), _, (snd pl).
    split; [exact E|]. split; [exact Ep|]. split; [reflexivity|].
    split; [vm_compute; discriminate | vm_compute; reflexivity].
  - set (run := _plan_dispatch terse keyed (VDict fire_incident) (initial_world terse)).
    assert (E : run = (Ok {| plan_summary := VStr "Warehouse fire, two floors";
                             plan_recommendation := VStr EmptyString |}, snd run)).
    { vm_compute. reflexivity. }
    set (pl := plan_relief_response terse (VDict fire_incident) 2 (snd run)).
    assert (Ep : pl = (Ok {| rp_summary := "Fire at Sector 7 - urgency CRITICAL.";
                             rp_recommendation := "Dispatch Fire-1 to Sector 7.";
                             rp_resources := ["Fire-1"; "Fire-2"];
                             rp_resource_summary :=
                               "Primary assignments: Fire-1 (fire, ETA 8m), Fire-2 (fire, ETA 10m)" |},
                       snd pl)).
    { vm_compute. reflexivity. }
    eexists _, (snd run), _, (snd pl).
    split; [exact E|]. split; [exact Ep|]. split; [reflexivity|].
    vm_compute. discriminate.
Qed.




(** C6. ETA estimate.  The jitter is the next random draw:
    [random.randint(-1, 1)] yields -1 plus the draw modulo 3, one of -1, 0,
    1, and moves the source on by one draw.  For every unit and every
    location (a string, or nothing), with [sector] the normalized location,
    the estimate is [max 3 (base_eta + modifier / 2 + jitter)] with the
    division that of integers, the modifier the table's entry for the
    sector (6 when the table has none) and the jitter that draw.  When every
    unit of the registry has a status entry, [get_available_units] draws
    once per available unit, in registry order, and returns exactly the
    available units, each with the estimate for its own station and its own
    draw, in ascending order of the estimate. *)
Theorem eta_estimate_and_order (P : Platform) :
  (forall w,
      randint P (-1) 1 w = (Ok (jitter_at P (draws w)), draw w)
      /\ draws (draw w) = S (draws w))
  /\ (forall k,
        jitter_at P k = -1 + random_source P k mod 3
        /\ -1 <= jitter_at P k <= 1)
  /\ (forall unit location w,
        textual location = true ->
        exists sector,
          _normalize location = Ok sector
          /\ _estimate_arrival_minutes P unit location w
             = (Ok (Z.max 3 (u_base_eta unit
                             + dict_get sector 6 _SECTOR_MODIFIERS / 2
                             + jitter_at P (draws w))), draw w))
  /\ (forall sector,
        dict_lookup sector _SECTOR_MODIFIERS = None ->
        dict_get sector 6 _SECTOR_MODIFIERS = 6)
  /\ (forall w,
        tracked w ->
        exists cands w',
          get_available_units P VNone None w = (Ok cands, w')
          /\ StronglySorted (key_le eta_minutes) cands
          /\ Permutation cands
               (estimates_from P (draws w)
                  (List.filter (is_available w) _UNIT_REGISTRY))
          /\ draws w'
             = (draws w + length (List.filter (is_available w) _UNIT_REGISTRY))%nat).
Proof.
  split; [|split; [|split; [|split]]].
  - intros w. split; reflexivity.
  - intros k. split; [reflexivity | apply jitter_range].
  - intros unit location w Ht.
    destruct (normalize_textual location Ht) as [sector Hn].
    exists sector. split; [exact Hn|]. now apply estimate_ok.
  - intros sector H. unfold dict_get. now rewrite H.
  - intros w Hw.
    destruct (get_available_units_draws P w Hw) as (w' & Hr & Hd).
    eexists _, w'. split; [exact Hr|].
    split; [apply sort_by_sorted|].
    split; [apply Permutation_sym, sort_by_perm | exact Hd].
Qed.

(** A random source that counts up from 0: the four units get the jitters
    -1, 0, 1, -1 on top of 8, 10, 9 and 11 minutes. *)
Lemma eta_estimate_and_order_jittery :
  tracked (initial_world jittery)
  /\ map (jitter_at jittery) [0; 1; 2; 3]%nat = [-1; 0; 1; -1]
  /\ exists cands w',
       get_available_units jittery VNone None (initial_world jittery)
       = (Ok cands, w')
       /\ StronglySorted (key_le eta_minutes) cands
       /\ map (fun c => (u_id (base c), eta_minutes c)) cands
          = [("Fire-1", 7); ("Fire-2", 10); ("Ambulance-2", 10); ("Rescue-3", 10)]
       /\ draws w' = 4%nat.
Proof.
  split; [apply initial_world_tracked|]. split; [reflexivity|].
  destruct (eta_estimate_and_order jittery) as (_ & _ & _ & _ & H).
  destruct (H (initial_world jittery) (initial_world_tracked jittery))
    as (cands & w' & Hr & Hs & _ & Hd).
  exists cands, w'. split; [exact Hr|]. split; [exact Hs|].
  split; [|rewrite Hd; vm_compute; reflexivity].
  assert (E : fst (get_available_units jittery VNone None (initial_world jittery))
              = Ok cands) by now rewrite Hr.
  vm_compute in E. injection E as <-. reflexivity.
Defined.

(** C7. Decision history bound.  Starting from an agent with no history, any
    sequence of submissions, through [handle_envelope] or [handle_decision],
    returns and leaves as history the last 10 of the records made, in arrival
    order: the history is never longer than 10, and after more than 10
    submissions the oldest are gone.  After 15 submissions the history has
    exactly 10 records, the 6th to the 15th. *)
Theorem decision_history_bound (P : Platform) (name : string)
  (subs : list Submission) (w : World) :
  exists self' w',
    run_submissions P {| decision_name := name; history := [] |} subs w
    = (Ok self', w')
    /\ length (entries_from P (ticks w) subs) = length subs
    /\ history self' = last_n 10 (entries_from P (ticks w) subs)
    /\ history self'
       = skipn (length subs - 10) (entries_from P (ticks w) subs)
    /\ length (history self') = Nat.min 10 (length subs)
    /\ (length (history self') <= 10)%nat
    /\ (length subs = 15%nat ->
        length (history self') = 10%nat
        /\ history self' = skipn 5 (entries_from P (ticks w) subs)).
Proof.
  destruct (run_submissions_spec P subs {| decision_name := name; history := [] |} w)
    as (self' & w' & Hr & _ & Hh).
  pose proof (entries_from_length P subs) as Hlen.
  assert (Hhist : history self' = last_n 10 (entries_from P (ticks w) subs)).
  { destruct subs as [|s rest].
    - simpl in Hr. unfold ret in Hr. injection Hr as <- <-. reflexivity.
    - now apply Hh. }
  assert (Hskip : history self'
                  = skipn (length subs - 10) (entries_from P (ticks w) subs)).
  { rewrite Hhist. unfold last_n. now rewrite Hlen. }
  exists self', w'. split; [exact Hr|]. split; [apply Hlen|].
  split; [exact Hhist|]. split; [exact Hskip|].
  split; [rewrite Hhist, last_n_length_min, Hlen; reflexivity|].
  split; [rewrite Hhist; apply last_n_length|].
  intros H15. split.
  - rewrite Hhist, last_n_length_min, Hlen, H15. reflexivity.
  - rewrite Hskip, H15. reflexivity.
Qed.

Lemma decision_history_bound_fifteen :
  length fifteen_decisions = 15%nat
  /\ exists self' w',
       run_submissions offline new_decision_agent fifteen_decisions
         (initial_world offline) = (Ok self', w')
       /\ length (history self') = 10%nat
       /\ history self'
          = skipn 5 (entries_from offline 4 fifteen_decisions).
Proof.
  split; [reflexivity|].
  destruct (decision_history_bound offline "Decision-Agent" fifteen_decisions
              (initial_world offline))
    as (self' & w' & Hr & _ & _ & _ & _ & _ & H15).
  destruct (H15 eq_refl) as [Hlen Hh].
  exists self', w'. split; [exact Hr|]. split; [exact Hlen | exact Hh].
Defined.

(** C8. Trace completeness.  Whenever an agent's [handle_envelope] returns,
    the envelope it returns is the one it was given with exactly one more
    trace entry, which names the agent; sender, receiver and context are as
    they were.  So an orchestration of the standard four agents that starts
    with an empty trace ends with exactly four entries, named after the
    agents in the order they were invoked.  The orchestration does return
    when the incident's type and urgency are strings or absent, every
    registry unit has a status entry, and a decoded backend object never
    carries a summary that is neither a string nor falsy. *)
Theorem trace_completeness (P : Platform) (cfg : Config) :
  (forall a a' e e' s s' w w',
      agent_handle_envelope P cfg a e s w = (Ok (a', e', s'), w') ->
      appends_own_entry (agent_name a) e e')
  /\ (forall decision_agent e e' agents' s s' w w',
        trace e = [] ->
        orchestrate P cfg (get_a2a_orchestrator decision_agent) e s w
        = (Ok (agents', e', s'), w') ->
        map agent (trace e')
        = ["ResQ-Agent"; "Resource-Agent"; "Summary-Agent";
           decision_name decision_agent]
        /\ length (trace e') = 4%nat)
  /\ (forall decision_agent e s d w,
        summaries_textual P -> incident_of e = VDict d ->
        planner_ready d -> tracked w ->
        exists agents' e' s' w',
          orchestrate P cfg (get_a2a_orchestrator decision_agent) e s w
          = (Ok (agents', e', s'), w')).
Proof.
  split; [|split].
  - intros a a' e e' s s' w w' H.
    now destruct (agent_appends P cfg a a' e e' s s' w w' H).
  - intros decision_agent e e' agents' s s' w w' Hempty H.
    apply orchestrate_trace in H as (Ht & _). rewrite Hempty in Ht.
    split; [exact Ht|].
    apply (f_equal (@length string)) in Ht. now rewrite length_map in Ht.
  - intros decision_agent e s d w Hst Hinc Hd Hw.
    now apply (a2a_pipeline_total P cfg decision_agent e s d w).
Qed.

Lemma trace_completeness_fire :
  exists agents' e' s' w',
    orchestrate offline keyed (get_a2a_orchestrator new_decision_agent)
      (seeded (VDict fire_incident)) None (initial_world offline)
    = (Ok (agents', e', s'), w')
    /\ map agent (trace e')
       = ["ResQ-Agent"; "Resource-Agent"; "Summary-Agent"; "Decision-Agent"].
Proof.
  destruct (trace_completeness offline keyed) as (_ & Hfour & Htotal).
  destruct (Htotal new_decision_agent (seeded (VDict fire_incident)) None
              fire_incident (initial_world offline))
    as (agents' & e' & s' & w' & Hr).
  - apply offline_summaries_textual.
  - reflexivity.
  - split; reflexivity.
  - apply initial_world_tracked.
  - exists agents', e', s', w'. split; [exact Hr|].
    now destruct (Hfour new_decision_agent (seeded (VDict fire_incident))
                    e' agents' None s' (initial_world offline) w' eq_refl Hr).
Defined.

(** C9 (amended). Envelope serialization shape.  For every envelope
    [to_dict] yields a mapping with exactly the five keys content, sender,
    receiver, trace and context, in that order, each holding the envelope's
    field of that name.  The mapping is a new object that holds the
    envelope's own content, trace and context, not copies of them.  It
    serializes whenever the envelope's containers are free of cycles; for
    an envelope that holds plain data the document is the mapping just
    described.  It does not serialize once the Dispatch agent has handled a
    content without an "incident" key, for the agent then stores the
    content under that key of the content itself. *)
Theorem to_dict_fields (e : MessageEnvelope) :
  dict_keys (to_dict e) = ["content"; "sender"; "receiver"; "trace"; "context"]
  /\ dict_lookup "content" (to_dict e) = Some (VDict (content e))
  /\ dict_lookup "sender" (to_dict e) = Some (sender e)
  /\ dict_lookup "receiver" (to_dict e) = Some (receiver e)
  /\ dict_lookup "trace" (to_dict e)
     = Some (VList (map trace_entry_value (trace e)))
  /\ dict_lookup "context" (to_dict e) = Some (VDict (context e))
  /\ (forall self h,
        exists fields,
          snapshot self h = Live.Ref (length h)
          /\ snapshot_heap self h !! length h = Some (Live.DictObject fields)
          /\ dict_keys fields
             = ["content"; "sender"; "receiver"; "trace"; "context"]
          /\ dict_lookup "content" fields = Some (Live.Ref (Live.content self))
          /\ dict_lookup "sender" fields = Some (Live.Plain (Live.sender self))
          /\ dict_lookup "receiver" fields
             = Some (Live.Plain (Live.receiver self))
          /\ dict_lookup "trace" fields = Some (Live.Ref (Live.trace self))
          /\ dict_lookup "context" fields = Some (Live.Ref (Live.context self))
          /\ (forall a o, h !! a = Some o -> snapshot_heap self h !! a = Some o))
  /\ (forall rank self h,
        acyclic_by rank h -> well_formed self h ->
        serializable (snapshot_heap self h) (snapshot self h))
  /\ (forall fuel,
        Live.dumps (S (S fuel))
          (snapshot_heap (fst (store e)) (snd (store e))) []
          (snapshot (fst (store e)) (snd (store e)))
        = Live.Document (VDict (to_dict e)))
  /\ (forall name plan self h entries,
        h !! Live.content self = Some (Live.DictObject entries) ->
        dict_lookup "incident" entries = None ->
        unserializable
          (snapshot_heap self (Live.dispatch_handle_envelope_writes name plan self h))
          (snapshot self (Live.dispatch_handle_envelope_writes name plan self h))).
Proof.
  do 6 (split; [reflexivity|]).
  split; [|split; [|split]].
  - intros self h. eexists. split; [reflexivity|].
    split; [apply lookup_snapshot_heap_new|].
    do 6 (split; [reflexivity|]).
    intros a o. apply lookup_snapshot_heap_old.
  - intros rank self h. apply snapshot_serializable.
  - intros fuel. apply stored_snapshot_document.
  - intros name plan self h entries Hc Hnone.
    destruct (dispatch_writes_self_reference name plan self h entries Hc Hnone)
      as (entries' & Hc' & Hin).
    exact (snapshot_of_cycle_unserializable self _ entries' "incident" Hc' Hin).
Qed.

(** The envelope of a new incident, as [server.py] builds it, after the
    Dispatch agent's writes: the content has an "incident" key, nothing
    holds itself, and the snapshot serializes. *)
Lemma to_dict_fields_fire :
  well_formed (fst (store (seeded (VDict fire_incident))))
    (Live.dispatch_handle_envelope_writes "ResQ-Agent" fire_plan
       (fst (store (seeded (VDict fire_incident))))
       (snd (store (seeded (VDict fire_incident)))))
  /\ serializable
       (snapshot_heap (fst (store (seeded (VDict fire_incident))))
          (Live.dispatch_handle_envelope_writes "ResQ-Agent" fire_plan
             (fst (store (seeded (VDict fire_incident))))
             (snd (store (seeded (VDict fire_incident))))))
       (snapshot (fst (store (seeded (VDict fire_incident))))
          (Live.dispatch_handle_envelope_writes "ResQ-Agent" fire_plan
             (fst (store (seeded (VDict fire_incident))))
             (snd (store (seeded (VDict fire_incident)))))).
Proof.
  rewrite (live_dispatch_agrees "ResQ-Agent" fire_plan
             (seeded (VDict fire_incident)) (VDict fire_incident) eq_refl).
  assert (Hwf : forall h0,
            well_formed (fst (store (seeded (VDict fire_incident))))
              (snd (store h0))).
  { intros h0. repeat split; eexists; reflexivity. }
  split; [apply Hwf|].
  destruct (to_dict_fields (seeded (VDict fire_incident)))
    as (_ & _ & _ & _ & _ & _ & _ & Hser & _).
  apply (Hser (fun _ => 0%nat)); [apply store_acyclic | apply Hwf].
Defined.

(** The snapshot of a seeded envelope does not have four fields.  And the
    envelope of a decision, whose content has no "incident" key, holds
    itself after the Dispatch agent's writes, whatever the plan:
    serializing its snapshot ends with the circular reference error. *)
Lemma to_dict_five_fields_or_a_cycle :
  ~ has_four_fields (to_dict (seeded (VDict fire_incident)))
  /\ dict_lookup "incident" (content decision_envelope) = None
  /\ forall plan fuel,
       Live.dumps (S (S fuel))
         (snapshot_heap (fst (store decision_envelope))
            (Live.dispatch_handle_envelope_writes "ResQ-Agent" plan
               (fst (store decision_envelope)) (snd (store decision_envelope))))
         []
         (snapshot (fst (store decision_envelope))
            (Live.dispatch_handle_envelope_writes "ResQ-Agent" plan
               (fst (store decision_envelope)) (snd (store decision_envelope))))
       = Live.CircularReference.
Proof.
  split; [unfold has_four_fields; simpl; discriminate|].
  split; [reflexivity|].
  intros plan fuel.
  apply (snapshot_of_cycle_circular _ _
           [("action", VStr "SEND"); ("incident_id", VNone)] "incident"
           [("summary", Live.Plain (plan_summary plan));
            ("recommendation", Live.Plain (plan_recommendation plan))]).
  reflexivity.
Qed.

(** C10. [notify_dispatch] and the unit status map.  For every unit id and
    incident mapping the call returns a record with status "queued", the
    incident's id and location and a timestamp.  When the id is not a key of
    [_UNIT_STATUS] the map is unchanged; when it is, the id's entry becomes
    "assigned" with the incident's id, and every other entry is as before. *)
Theorem notify_dispatch_frame (P : Platform) (unit_id : string)
  (d : Dict PyVal) (w : World) :
  exists record w',
    notify_dispatch P unit_id (VDict d) w = (Ok record, w')
    /\ dr_status record = "queued"
    /\ dr_unit_id record = unit_id
    /\ dr_incident_id record = dict_get "id" VNone d
    /\ dr_location record = dict_get "location" VNone d
    /\ dr_timestamp record = isoformat P (datetime_utcnow P (ticks w))
    /\ (unit_id ∉ dom (_UNIT_STATUS w) ->
        _UNIT_STATUS w' = _UNIT_STATUS w)
    /\ (unit_id ∈ dom (_UNIT_STATUS w) ->
        (exists stamp,
            _UNIT_STATUS w' !! unit_id
            = Some (assigned_to (dict_get "id" VNone d) stamp))
        /\ (forall other, other <> unit_id ->
              _UNIT_STATUS w' !! other = _UNIT_STATUS w !! other)
        /\ dom (_UNIT_STATUS w') = dom (_UNIT_STATUS w)).
Proof.
  eexists _, _. split; [apply notify_dispatch_ok|].
  repeat split; simpl.
  - intros Hnot. now rewrite bool_decide_eq_false_2.
  - rewrite bool_decide_eq_true_2 by assumption. simpl.
    eexists. apply lookup_insert_eq.
  - intros other Hne. rewrite bool_decide_eq_true_2 by assumption. simpl.
    now apply lookup_insert_ne.
  - rewrite bool_decide_eq_true_2 by assumption. simpl.
    rewrite dom_insert_L. apply subseteq_union_1_L.
    now apply singleton_subseteq_l.
Qed.

Lemma notify_dispatch_frame_unknown_unit :
  ("Drone-9" ∉ dom (_UNIT_STATUS (initial_world offline)))
  /\ exists record w',
       notify_dispatch offline "Drone-9" (VDict fire_incident)
         (initial_world offline) = (Ok record, w')
       /\ dr_status record = "queued"
       /\ _UNIT_STATUS w' = _UNIT_STATUS (initial_world offline).
Proof.
  assert (Hnot : "Drone-9" ∉ dom (_UNIT_STATUS (initial_world offline))).
  { refine (bool_decide_unpack _ _). vm_compute. exact I. }
  split; [exact Hnot|].
  destruct (notify_dispatch_frame offline "Drone-9" fire_incident
              (initial_world offline))
    as (record & w' & Hr & Hs & _ & _ & _ & _ & Hkeep & _).
  exists record, w'. split; [exact Hr|]. split; [exact Hs|]. now apply Hkeep.
Defined.

(* ===================================================================== *)
(** * Further properties: the planner and the unit status map *)
(* ===================================================================== *)

Lemma cut_trimmed (m : string) :
  trimmed m -> (60 < String.length m)%nat ->
  trimmed (PyStr.take 57 m +:+ "...").
Proof.
  unfold trimmed. intros Hm Hlen.
  destruct m as [|c t]; [simpl in Hlen; lia|].
  assert (Hc : PyStr.is_space c = false) by exact (strip_head _ _ _ Hm).
  change (PyStr.take 57 (String c t) +:+ "...")
    with (String c (PyStr.take 56 t +:+ "...")).
  unfold PyStr.strip.
  rewrite (lstrip_fixed (String c _)) by (now intros ? ? [= <- _]).
  change (String c (PyStr.take 56 t +:+ "..."))
    with (String c (PyStr.take 56 t) +:+ "...").
  apply rstrip_append; [reflexivity | discriminate].
Qed.

(** X1. [format_display_alert].  For an incident that is a mapping, or
    falsy, the call returns a text of at most 60 characters with no white
    space at either end, whatever the summary, the recommendation and the
    urgency are.  For any other incident (a non-empty string, say) it raises
    [AttributeError]. *)
Theorem display_alert_fits (P : Platform)
  (summary recommendation incident urgency : PyVal) :
  (truthy incident = false \/ (exists d, incident = VDict d) ->
   exists s,
     format_display_alert P summary recommendation incident urgency = Ok s
     /\ (String.length s <= 60)%nat
     /\ trimmed s)
  /\ (truthy incident = true -> (forall d, incident <> VDict d) ->
      format_display_alert P summary recommendation incident urgency
      = Raise (AttributeError "get")).
Proof.
  split.
  - intros Hinc.
    assert (Hd : exists d, py_or incident (VDict []) = VDict d).
    { unfold py_or. destruct Hinc as [-> | [d ->]]; [now eexists|].
      destruct (truthy (VDict d)); now eexists. }
    destruct Hd as [d Hd].
    unfold format_display_alert. rewrite Hd. unfold py_get, rbind.
    destruct (truthy urgency);
      (eexists; split; [reflexivity|]);
      match goal with
      | |- context [(60 <? String.length ?m)%nat] =>
          destruct (Nat.ltb_spec 60 (String.length m)) as [Hlong|Hshort];
            [ split;
              [ rewrite str_length_append; pose proof (str_length_take 57 m);
                change (String.length "...") with 3%nat; lia
              | apply cut_trimmed; [apply strip_idem | exact Hlong] ]
            | split; [exact Hshort | apply strip_idem] ]
      end.
  - intros Ht Hnd. unfold format_display_alert, py_or. rewrite Ht.
    destruct incident as [| b | z | f | s | l | d];
      try (destruct (truthy urgency); reflexivity).
    now destruct (Hnd d).
Qed.

Lemma display_alert_fits_fire :
  (exists s,
      format_display_alert offline
        (VStr "Fire at Sector 7 - urgency CRITICAL.")
        (VStr "Dispatch Fire-1 to Sector 7 and hold Fire-2 in reserve at Station Bravo.")
        (VDict fire_incident) VNone = Ok s
      /\ (String.length s <= 60)%nat /\ trimmed s)
  /\ format_display_alert offline (VStr "Fire") (VStr "Dispatch Fire-1")
       (VStr "Fire at Sector 7") VNone
     = Raise (AttributeError "get").
Proof.
  split.
  - apply (display_alert_fits offline). right. eexists. reflexivity.
  - apply (display_alert_fits offline); [reflexivity | discriminate].
Defined.

(** X2. [get_available_units] with a type filter and a limit.  When every
    registry unit has a status entry and the filter is a string or falsy,
    the call without a limit returns, in ascending order of the estimate,
    exactly the units of the registry that are available and whose type
    contains the filter after normalization (any unit, for a falsy filter).
    A positive limit [n] returns the first [n] of them, so at most [n]; a
    limit of 0 is no limit at all and returns every one; a negative limit
    [n] leaves out the last [-n]. *)
Theorem available_units_filter_and_limit (P : Platform) (unit_type : PyVal)
  (w : World) :
  textual unit_type = true -> tracked w ->
  exists every w',
    get_available_units P unit_type None w = (Ok every, w')
    /\ StronglySorted (key_le eta_minutes) every
    /\ Permutation (map base every)
         (List.filter (fun u => is_available w u && type_wanted unit_type u)
                      _UNIT_REGISTRY)
    /\ Forall (fun c => is_available w (base c) = true) every
    /\ (forall s, unit_type = VStr s -> s <> EmptyString ->
          Forall (fun c => PyStr.contains (PyStr.lower (PyStr.strip s))
                             (u_type (base c)) = true) every)
    /\ (forall n, 0 < n ->
          get_available_units P unit_type (Some n) w
          = (Ok (firstn (Z.to_nat n) every), w')
          /\ Z.of_nat (length (firstn (Z.to_nat n) every)) <= n)
    /\ get_available_units P unit_type (Some 0) w = (Ok every, w')
    /\ (forall n, n < 0 ->
          get_available_units P unit_type (Some n) w
          = (Ok (firstn (length every - Z.to_nat (- n)) every), w')).
Proof.
  intros Ht Hw.
  destruct (collect_candidates_ok P _UNIT_REGISTRY unit_type w Ht Hw)
    as (cands & w' & Hc & _ & Hm & _).
  set (every := sort_by eta_minutes cands).
  assert (Hall : forall limit,
             get_available_units P unit_type limit w
             = (Ok (apply_limit limit every), w')).
  { intros limit. unfold get_available_units. rewrite (bind_ok _ _ _ _ _ Hc).
    destruct limit as [n|]; simpl; [|reflexivity]. now destruct (n =? 0). }
  assert (Hp : Permutation (map base every)
                 (List.filter (fun u => is_available w u && type_wanted unit_type u)
                              _UNIT_REGISTRY)).
  { rewrite <- Hm. apply Permutation_map, Permutation_sym, sort_by_perm. }
  assert (Hin : forall c, In c every ->
                  is_available w (base c) = true
                  /\ type_wanted unit_type (base c) = true).
  { intros c Hc'.
    assert (H : In (base c) (map base every)) by now apply in_map.
    eapply Permutation_in in H; [|exact Hp].
    apply filter_In in H as [_ H]. now apply andb_true_iff in H. }
  exists every, w'.
  split; [exact (Hall None)|].
  split; [apply sort_by_sorted|].
  split; [exact Hp|].
  split; [apply List.Forall_forall; intros c Hc'; now apply Hin|].
  split.
  { intros s -> Hs. apply List.Forall_forall. intros c Hc'.
    destruct (Hin c Hc') as [_ Hty]. unfold type_wanted in Hty.
    rewrite normalize_str in Hty. unfold normalize_text in Hty.
    destruct s; [congruence|]. exact Hty. }
  split.
  { intros n Hn. rewrite (Hall (Some n)). simpl.
    destruct (Z.eqb_spec n 0); [lia|]. unfold slice_to.
    destruct (Z.leb_spec 0 n); [|lia].
    split; [reflexivity|]. rewrite length_firstn. lia. }
  split; [exact (Hall (Some 0))|].
  intros n Hn. rewrite (Hall (Some n)). simpl.
  destruct (Z.eqb_spec n 0); [lia|]. unfold slice_to.
  destruct (Z.leb_spec 0 n); [lia|]. reflexivity.
Qed.

Lemma available_units_filter_and_limit_fire :
  exists every w',
    get_available_units offline (VStr " FIRE ") None (initial_world offline)
    = (Ok every, w')
    /\ map (fun c => u_id (base c)) every = ["Fire-1"; "Fire-2"]
    /\ get_available_units offline (VStr " FIRE ") (Some 1) (initial_world offline)
       = (Ok (firstn 1 every), w')
    /\ get_available_units offline (VStr " FIRE ") (Some 0) (initial_world offline)
       = (Ok every, w').
Proof.
  destruct (available_units_filter_and_limit offline (VStr " FIRE ")
              (initial_world offline) eq_refl (initial_world_tracked offline))
    as (every & w' & Hr & _ & _ & _ & _ & Hpos & Hzero & _).
  exists every, w'. split; [exact Hr|].
  split.
  { assert (E : fst (get_available_units offline (VStr " FIRE ") None
                       (initial_world offline)) = Ok every) by now rewrite Hr.
    clear Hr Hpos Hzero. vm_compute in E. injection E as <-. reflexivity. }
  split; [|exact Hzero].
  destruct (Hpos 1 ltac:(lia)) as [H _]. exact H.
Defined.

(** X3. A dispatched unit is withheld.  After [notify_dispatch] for a unit,
    [get_available_units] returns exactly the units that were available
    before, that unit left out, and the planner does not name it among the
    resources of any incident, whatever the limit. *)
Theorem dispatched_unit_is_withheld (P : Platform) (unit_id : string)
  (d : Dict PyVal) (w : World) :
  tracked w ->
  let w1 := snd (notify_dispatch P unit_id (VDict d) w) in
  (exists cands w',
      get_available_units P VNone None w1 = (Ok cands, w')
      /\ Forall (fun c => String.eqb (u_id (base c)) unit_id = false) cands
      /\ Permutation (map base cands)
           (List.filter (fun u => is_available w u
                                  && negb (String.eqb (u_id u) unit_id))
                        _UNIT_REGISTRY))
  /\ (forall incident limit,
        planner_ready incident ->
        exists rp w',
          plan_relief_response P (VDict incident) limit w1 = (Ok rp, w')
          /\ Forall (fun id => String.eqb id unit_id = false) (rp_resources rp)).
Proof.
  intros Hw w1.
  assert (Hw1 : tracked w1) by now apply notify_dispatch_tracked.
  assert (Hav : forall u, is_available w1 u
                          = is_available w u && negb (String.eqb (u_id u) unit_id)).
  { intros u. apply notify_dispatch_available. }
  split.
  - destruct (available_units_are_free P w1 Hw1) as (cands & w' & Hc & _ & _ & Hp).
    exists cands, w'. split; [exact Hc|].
    assert (Hp' : Permutation (map base cands)
                    (List.filter (fun u => is_available w u
                                           && negb (String.eqb (u_id u) unit_id))
                                 _UNIT_REGISTRY)).
    { rewrite Hp. erewrite filter_ext; [reflexivity|]. exact Hav. }
    split; [|exact Hp'].
    apply List.Forall_forall. intros c Hc'.
    assert (H : In (base c) (map base cands)) by now apply in_map.
    eapply Permutation_in in H; [|exact Hp'].
    apply filter_In in H as [_ H]. apply andb_true_iff in H as [_ H].
    now apply negb_true_iff in H.
  - intros incident limit [Hty Hur].
    destruct (normalize_textual _ Hty) as [ty Hty'].
    destruct (normalize_textual _ Hur) as [ur Hur'].
    destruct (plan_relief_response_spec P incident ty ur limit w1 Hty' Hur' Hw1)
      as (brief & cands & ranked & w' & _ & Hp & Hr & _ & Hplan).
    destruct (ranked_units_free ty ur cands ranked w1 Hp Hr) as [_ Hfree].
    eexists _, w'. split; [exact Hplan|].
    assert (Hsl : Forall (fun c => String.eqb (u_id (base c)) unit_id = false)
                    (slice_to limit ranked)).
    { apply List.Forall_forall. intros c Hc.
      apply slice_to_incl in Hc.
      rewrite List.Forall_forall in Hfree.
      destruct (Hfree c Hc) as (_ & Ha & _).
      rewrite Hav in Ha. apply andb_true_iff in Ha as [_ Ha].
      now apply negb_true_iff in Ha. }
    destruct (slice_to limit ranked) as [|c rest]; simpl; [constructor|].
    apply (List.Forall_map (fun c => u_id (base c))
             (fun id => String.eqb id unit_id = false) (c :: rest)).
    exact Hsl.
Qed.

Lemma dispatched_unit_is_withheld_fire1 :
  let w1 := snd (notify_dispatch offline "Fire-1" (VDict fire_incident)
                   (initial_world offline)) in
  (exists cands w',
      get_available_units offline VNone None w1 = (Ok cands, w')
      /\ map (fun c => u_id (base c)) cands
         = ["Ambulance-2"; "Fire-2"; "Rescue-3"])
  /\ exists rp w',
       plan_relief_response offline (VDict fire_incident) 2 w1 = (Ok rp, w')
       /\ rp_resources rp = ["Fire-2"; "Ambulance-2"].
Proof.
  intros w1.
  destruct (dispatched_unit_is_withheld offline "Fire-1" fire_incident
              (initial_world offline) (initial_world_tracked offline))
    as [(cands & w' & Hc & _) Hplan].
  fold w1 in Hc, Hplan.
  split.
  - exists cands, w'. split; [exact Hc|].
    assert (E : fst (get_available_units offline VNone None w1) = Ok cands)
      by now rewrite Hc.
    clear Hc Hplan. vm_compute in E. injection E as <-. reflexivity.
  - destruct (Hplan fire_incident 2) as (rp & w2 & Hr & _).
    { split; reflexivity. }
    exists rp, w2. split; [exact Hr|].
    assert (E : fst (plan_relief_response offline (VDict fire_incident) 2 w1)
                = Ok rp) by now rewrite Hr.
    clear Hr Hplan Hc. vm_compute in E. injection E as <-. reflexivity.
Defined.

(** X4. [release_unit].  The call never raises.  For an id that
    [_UNIT_STATUS] has, the entry becomes "available" with no incident;
    for any other id nothing changes at all.  Every other entry is as
    before, so the released unit is available afterwards and the
    availability of all other registry units is what it was.  Dispatching a
    unit and releasing it again leaves it available, whatever it was
    before. *)
Theorem released_unit_is_free_again (P : Platform) (unit_id : string)
  (w : World) :
  tracked w ->
  let w1 := snd (release_unit P unit_id w) in
  fst (release_unit P unit_id w) = Ok tt
  /\ (forall u, In u _UNIT_REGISTRY ->
        is_available w1 u = is_available w u || String.eqb (u_id u) unit_id)
  /\ (forall other, other <> unit_id ->
        _UNIT_STATUS w1 !! other = _UNIT_STATUS w !! other)
  /\ (unit_id ∈ dom (_UNIT_STATUS w) ->
      _UNIT_STATUS w1 !! unit_id
      = Some {| status := "available"; incident_id := VNone;
                last_updated := datetime_utcnow P (ticks w) |})
  /\ (unit_id ∉ dom (_UNIT_STATUS w) -> w1 = w)
  /\ (forall d u, In u _UNIT_REGISTRY ->
        is_available
          (snd (release_unit P unit_id
                  (snd (notify_dispatch P unit_id (VDict d) w)))) u
        = is_available w u || String.eqb (u_id u) unit_id).
Proof.
  intros Hw w1.
  assert (Hreg : forall w0 u, tracked w0 -> In u _UNIT_REGISTRY ->
                   is_Some (_UNIT_STATUS w0 !! u_id u)).
  { intros w0 u H0 Hu. unfold tracked in H0.
    rewrite List.Forall_forall in H0. now apply H0. }
  split; [now rewrite release_unit_ok|].
  split.
  { intros u Hu. apply release_unit_available. now apply Hreg. }
  split.
  { intros other Hne. unfold w1. rewrite release_unit_ok. simpl.
    destruct (bool_decide (unit_id ∈ dom (_UNIT_STATUS w))); [|reflexivity].
    simpl. now rewrite lookup_insert_ne by congruence. }
  split.
  { intros Hin. unfold w1. rewrite release_unit_ok. simpl.
    rewrite bool_decide_eq_true_2 by exact Hin. simpl.
    now rewrite lookup_insert_eq. }
  split.
  { intros Hnin. unfold w1. rewrite release_unit_ok. simpl.
    now rewrite bool_decide_eq_false_2 by exact Hnin. }
  intros d u Hu.
  rewrite release_unit_available.
  - rewrite notify_dispatch_available.
    destruct (is_available w u), (String.eqb (u_id u) unit_id); reflexivity.
  - apply Hreg; [now apply notify_dispatch_tracked | exact Hu].
Qed.

Lemma released_unit_is_free_again_fire1 :
  let w0 := initial_world offline in
  let w1 := snd (notify_dispatch offline "Fire-1" (VDict fire_incident) w0) in
  let w2 := snd (release_unit offline "Fire-1" w1) in
  tracked w1
  /\ fst (release_unit offline "Fire-1" w1) = Ok tt
  /\ status <$> (_UNIT_STATUS w1 !! "Fire-1") = Some "assigned"
  /\ _UNIT_STATUS w2 !! "Fire-1"
     = Some {| status := "available"; incident_id := VNone;
               last_updated := 1006 |}
  /\ snd (release_unit offline "Drone-9" w1) = w1.
Proof.
  intros w0 w1 w2.
  assert (Hw1 : tracked w1).
  { apply notify_dispatch_tracked, initial_world_tracked. }
  split; [exact Hw1|].
  destruct (released_unit_is_free_again offline "Fire-1" w1 Hw1)
    as (Hok & _ & _ & Hin & _).
  destruct (released_unit_is_free_again offline "Drone-9" w1 Hw1)
    as (_ & _ & _ & _ & Hout & _).
  split; [exact Hok|].
  split; [vm_compute; reflexivity|].
  split.
  - unfold w2. rewrite Hin; [reflexivity|].
    refine (bool_decide_unpack _ _). vm_compute. exact I.
  - apply Hout. refine (bool_decide_unpack _ _). vm_compute. exact I.
Defined.

(** X5. When the planner holds.  For an incident whose type and urgency
    are strings or absent, a world where every registry unit has a status
    entry, and a limit of at least 1, [plan_relief_response] returns, and
    its resources are empty exactly when every available unit of the
    registry scores 0 for the incident.  With no resources the
    recommendation is the hold sentence and the resource summary the
    all-busy sentence; otherwise the recommendation is "Dispatch", the first
    resource, "to" and the incident's location ("the scene" when it has
    none). *)
Theorem planner_holds_iff_nothing_scores (P : Platform) (d : Dict PyVal)
  (limit : Z) (w : World) :
  planner_ready d -> tracked w -> 1 <= limit ->
  exists rp w',
    plan_relief_response P (VDict d) limit w = (Ok rp, w')
    /\ (rp_resources rp = []
        <-> Forall (fun u => is_available w u = true ->
                             _score_unit u (VDict d) = Ok 0) _UNIT_REGISTRY)
    /\ (rp_resources rp = [] ->
        rp_recommendation rp
        = "Hold and escalate to manual supervisor; no units free."
        /\ rp_resource_summary rp = "All units busy; advise manual review.")
    /\ (forall first rest,
          rp_resources rp = first :: rest ->
          rp_recommendation rp
          = "Dispatch " +:+ first +:+ " to "
            +:+ fmt P (dict_get "location" (VStr "the scene") d) +:+ ".").
Proof.
  intros [Hty Hur] Hw Hlim.
  destruct (normalize_textual _ Hty) as [ty Hty'].
  destruct (normalize_textual _ Hur) as [ur Hur'].
  destruct (plan_relief_response_spec P d ty ur limit w Hty' Hur' Hw)
    as (brief & cands & ranked & w' & _ & Hp & Hr & _ & Hplan).
  eexists _, w'. split; [exact Hplan|].
  assert (Hscore : forall u, In u _UNIT_REGISTRY ->
                     _score_unit u (VDict d) = Ok (unit_score ty ur u)).
  { intros u Hu. apply score_unit_ok; [exact Hty' | exact Hur' |].
    revert u Hu. apply List.Forall_forall, registry_capabilities. }
  assert (Hnil : ranked = []
                 <-> Forall (fun u => is_available w u = true ->
                                      _score_unit u (VDict d) = Ok 0)
                            _UNIT_REGISTRY).
  { split.
    - intros ->. apply Permutation_nil in Hr.
      apply scoring_nil in Hr. rewrite List.Forall_forall in Hr.
      apply List.Forall_forall. intros u Hu Hav.
      rewrite (Hscore u Hu). f_equal.
      assert (Hin : In u (map base cands)).
      { eapply Permutation_in; [apply Permutation_sym, Hp|].
        apply filter_In. now split. }
      apply in_map_iff in Hin as (c & <- & Hc). now apply Hr.
    - intros H. rewrite List.Forall_forall in H.
      assert (Hs : scoring ty ur cands = []).
      { apply scoring_nil. apply List.Forall_forall. intros c Hc.
        assert (Hin : In (base c) (List.filter (is_available w) _UNIT_REGISTRY)).
        { eapply Permutation_in; [exact Hp|]. now apply in_map. }
        apply filter_In in Hin as [Hin Hav].
        specialize (H _ Hin Hav). rewrite (Hscore _ Hin) in H.
        now injection H. }
      rewrite Hs in Hr. now apply Permutation_sym, Permutation_nil in Hr. }
  destruct (slice_to limit ranked) as [|c rest] eqn:Hsl; simpl.
  - apply slice_to_nil in Hsl; [|exact Hlim].
    split; [rewrite <- Hnil; tauto|].
    split; [tauto|]. discriminate.
  - split.
    { rewrite <- Hnil. split; [discriminate|].
      intros ->. unfold slice_to in Hsl.
      destruct (0 <=? limit); now rewrite firstn_nil in Hsl. }
    split; [discriminate|].
    now intros first rest' [= <- _].
Qed.

Lemma planner_holds_iff_nothing_scores_flood :
  let flood := [ ("type", VStr "Flood"); ("location", VStr "Sector 2");
                 ("urgency", VStr "low") ] in
  Forall (fun u => is_available (initial_world offline) u = true)
         _UNIT_REGISTRY
  /\ exists rp w',
       plan_relief_response offline (VDict flood) 2 (initial_world offline)
       = (Ok rp, w')
       /\ rp_resources rp = []
       /\ rp_recommendation rp
          = "Hold and escalate to manual supervisor; no units free.".
Proof.
  intros flood.
  split.
  { unfold _UNIT_REGISTRY.
    repeat (apply List.Forall_cons; [vm_compute; reflexivity|]).
    apply List.Forall_nil. }
  destruct (planner_holds_iff_nothing_scores offline flood 2
              (initial_world offline))
    as (rp & w' & Hr & Hiff & Hhold & _);
    [split; reflexivity | apply initial_world_tracked | lia |].
  exists rp, w'. split; [exact Hr|].
  assert (Hnil : rp_resources rp = []).
  { apply Hiff. unfold _UNIT_REGISTRY.
    repeat (apply List.Forall_cons; [intros _; vm_compute; reflexivity|]).
    apply List.Forall_nil. }
  split; [exact Hnil|]. now apply Hhold.
Defined.

(** X6. A pressing incident is never held while a unit is free.  When the
    incident's urgency normalizes to "critical" or "high", its type is a
    string or absent, every registry unit has a status entry, at least one
    of them is available and the limit is at least 1, the planner returns a
    plan with at least one resource and a recommendation to dispatch the
    first one. *)
Theorem pressing_incident_gets_a_unit (P : Platform) (d : Dict PyVal)
  (ur : string) (limit : Z) (w : World) :
  textual (dict_get "type" VNone d) = true ->
  _normalize (dict_get "urgency" VNone d) = Ok ur ->
  ur = "critical" \/ ur = "high" ->
  tracked w -> 1 <= limit ->
  Exists (fun u => is_available w u = true) _UNIT_REGISTRY ->
  exists rp w' first rest,
    plan_relief_response P (VDict d) limit w = (Ok rp, w')
    /\ rp_resources rp = first :: rest
    /\ rp_recommendation rp
       = "Dispatch " +:+ first +:+ " to "
         +:+ fmt P (dict_get "location" (VStr "the scene") d) +:+ ".".
Proof.
  intros Hty Hur Hpress Hw Hlim Hex.
  destruct (normalize_textual _ Hty) as [ty Hty'].
  destruct (plan_relief_response_spec P d ty ur limit w Hty' Hur Hw)
    as (brief & cands & ranked & w' & _ & Hp & Hr & _ & Hplan).
  assert (Hpos : forall u, 0 < unit_score ty ur u).
  { intros u. unfold unit_score.
    assert (E : String.eqb ur "critical" || String.eqb ur "high" = true).
    { destruct Hpress as [-> | ->]; reflexivity. }
    rewrite E. destruct (bool_decide _), (PyStr.contains _ _); lia. }
  apply List.Exists_exists in Hex as (u & Hu & Hav).
  assert (Hin : In u (map base cands)).
  { eapply Permutation_in; [apply Permutation_sym, Hp|].
    apply filter_In. now split. }
  apply in_map_iff in Hin as (c & Hcu & Hc).
  assert (Hne : slice_to limit ranked <> []).
  { intros Hsl. apply slice_to_nil in Hsl; [|exact Hlim]. subst ranked.
    apply Permutation_nil in Hr. apply scoring_nil in Hr.
    rewrite List.Forall_forall in Hr. specialize (Hr c Hc).
    specialize (Hpos (base c)). lia. }
  destruct (slice_to limit ranked) as [|c0 rest] eqn:Hsl; [congruence|].
  eexists _, w', (u_id (base c0)), (map (fun c => u_id (base c)) rest).
  split; [exact Hplan|]. split; reflexivity.
Qed.

Lemma pressing_incident_gets_a_unit_last_free :
  let w1 := snd (notify_dispatch offline "Fire-1" (VDict fire_incident)
                   (initial_world offline)) in
  let w2 := snd (notify_dispatch offline "Fire-2" (VDict fire_incident) w1) in
  let w3 := snd (notify_dispatch offline "Ambulance-2" (VDict fire_incident) w2) in
  exists rp w',
    plan_relief_response offline (VDict urgent_incident) 2 w3 = (Ok rp, w')
    /\ rp_resources rp = ["Rescue-3"]
    /\ rp_recommendation rp = "Dispatch Rescue-3 to the scene.".
Proof.
  intros w1 w2 w3.
  destruct (pressing_incident_gets_a_unit offline urgent_incident "high" 2 w3)
    as (rp & w' & first & rest & Hr & _ & _).
  - reflexivity.
  - reflexivity.
  - now right.
  - repeat apply notify_dispatch_tracked. apply initial_world_tracked.
  - lia.
  - apply List.Exists_exists.
    exists {| u_id := "Rescue-3"; u_type := "rescue"; u_location := "Urban SAR";
              u_capabilities := {[ "collapse"; "water" ]}; u_base_eta := 8 |}.
    split; [unfold _UNIT_REGISTRY; simpl; tauto | vm_compute; reflexivity].
  - exists rp, w'. split; [exact Hr|].
    assert (E : fst (plan_relief_response offline (VDict urgent_incident) 2 w3)
                = Ok rp) by now rewrite Hr.
    clear Hr. vm_compute in E. injection E as <-. split; reflexivity.
Defined.

(** X7. The planner's resources.  For an incident whose type and urgency
    are strings or absent, a world where every registry unit has a status
    entry, and a limit that is not negative, the resources of the plan are
    ids of distinct registry units, each of them available and with a
    positive score for the incident, and there are at most [limit] of
    them.  The planner changes neither the unit status map nor the backoff
    nor the request log, and reads no clock. *)
Theorem planner_resources_are_free_units (P : Platform) (d : Dict PyVal)
  (limit : Z) (w : World) :
  planner_ready d -> tracked w -> 0 <= limit ->
  exists rp w',
    plan_relief_response P (VDict d) limit w = (Ok rp, w')
    /\ List.NoDup (rp_resources rp)
    /\ Forall (fun id =>
                 exists u score,
                   In u _UNIT_REGISTRY /\ u_id u = id
                   /\ is_available w u = true
                   /\ _score_unit u (VDict d) = Ok score /\ 0 < score)
              (rp_resources rp)
    /\ Z.of_nat (length (rp_resources rp)) <= limit
    /\ same_globals w w'.
Proof.
  intros [Hty Hur] Hw Hlim.
  destruct (normalize_textual _ Hty) as [ty Hty'].
  destruct (normalize_textual _ Hur) as [ur Hur'].
  destruct (plan_relief_response_spec P d ty ur limit w Hty' Hur' Hw)
    as (brief & cands & ranked & w' & _ & Hp & Hr & Hg & Hplan).
  destruct (ranked_units_free ty ur cands ranked w Hp Hr) as [Hnd Hfree].
  eexists _, w'. split; [exact Hplan|].
  assert (Hres : forall rp : ReliefPlan,
             rp_resources rp
             = map (fun c => u_id (base c)) (slice_to limit ranked) ->
             List.NoDup (rp_resources rp)
             /\ Forall (fun id =>
                          exists u score,
                            In u _UNIT_REGISTRY /\ u_id u = id
                            /\ is_available w u = true
                            /\ _score_unit u (VDict d) = Ok score /\ 0 < score)
                       (rp_resources rp)
             /\ Z.of_nat (length (rp_resources rp)) <= limit).
  { intros rp ->. split.
    { rewrite slice_to_map. now apply slice_to_nodup. }
    split.
    { apply List.Forall_map. apply List.Forall_forall. intros c Hc.
      apply slice_to_incl in Hc. rewrite List.Forall_forall in Hfree.
      destruct (Hfree c Hc) as (Hin & Hav & Hpos).
      exists (base c), (unit_score ty ur (base c)).
      split; [exact Hin|]. split; [reflexivity|]. split; [exact Hav|].
      split; [|exact Hpos].
      apply score_unit_ok; [exact Hty' | exact Hur' |].
      revert Hin. generalize (base c).
      apply List.Forall_forall, registry_capabilities. }
    rewrite length_map. now apply slice_to_length. }
  destruct (slice_to limit ranked) as [|c rest] eqn:Hsl.
  - destruct (Hres {| rp_summary := brief; rp_recommendation := "";
                      rp_resources := []; rp_resource_summary := "" |} eq_refl)
      as (H1 & H2 & H3).
    simpl in *. auto.
  - match goal with
    | |- List.NoDup (rp_resources ?rp) /\ _ =>
        destruct (Hres rp eq_refl) as (H1 & H2 & H3)
    end.
    auto.
Qed.

Lemma planner_resources_are_free_units_fire :
  exists rp w',
    plan_relief_response offline (VDict fire_incident) 1 (initial_world offline)
    = (Ok rp, w')
    /\ rp_resources rp = ["Fire-1"]
    /\ _UNIT_STATUS w' = _UNIT_STATUS (initial_world offline).
Proof.
  destruct (planner_resources_are_free_units offline fire_incident 1
              (initial_world offline))
    as (rp & w' & Hr & _ & _ & _ & Hg);
    [split; reflexivity | apply initial_world_tracked | lia |].
  exists rp, w'. split; [exact Hr|].
  split; [|apply Hg].
  assert (E : fst (plan_relief_response offline (VDict fire_incident) 1
                     (initial_world offline)) = Ok rp) by now rewrite Hr.
  clear Hr Hg. vm_compute in E. injection E as <-. reflexivity.
Defined.

(** X8. The type of an incident in [_score_unit].  For a unit of the
    registry and an incident whose urgency normalizes, with [bonus] 2 for a
    "critical" or "high" urgency and 0 otherwise: a type that is missing,
    [None] or the empty string normalizes to "unknown", matches nothing and
    leaves the score at [bonus]; a type that is a non-empty string of
    white space normalizes to the empty string, which occurs in every unit
    type, so the unit scores [3 + bonus]. *)
Theorem blank_type_matches_every_unit (d : Dict PyVal) (ur : string) (u : Unit) :
  In u _UNIT_REGISTRY ->
  _normalize (dict_get "urgency" VNone d) = Ok ur ->
  let bonus :=
    if String.eqb ur "critical" || String.eqb ur "high" then 2 else 0 in
  (truthy (dict_get "type" VNone d) = false ->
   _score_unit u (VDict d) = Ok bonus)
  /\ (forall s, dict_get "type" VNone d = VStr s ->
        s <> EmptyString -> visible s = false ->
        _score_unit u (VDict d) = Ok (3 + bonus)).
Proof.
  intros Hu Hur bonus. split.
  - intros Hty.
    rewrite (score_unit_ok d "unknown" ur u (normalize_falsy _ Hty) Hur).
    + unfold unit_score. destruct (unknown_matches_no_unit u Hu) as [-> ->].
      reflexivity.
    + revert u Hu. apply List.Forall_forall, registry_capabilities.
  - intros s Hs Hne Hblank.
    unfold _score_unit, py_get, rbind. rewrite Hs, normalize_str, Hur.
    unfold normalize_text. destruct s as [|c t]; [congruence|]. simpl PyStr.is_empty.
    cbv iota. rewrite (strip_blank _ Hblank). simpl PyStr.lower.
    simpl PyStr.is_empty. simpl negb. rewrite andb_false_l, contains_empty.
    fold bonus. now destruct (String.eqb ur "critical" || String.eqb ur "high").
Qed.

Lemma blank_type_matches_every_unit_rescue :
  let rescue := {| u_id := "Rescue-3"; u_type := "rescue";
                   u_location := "Urban SAR";
                   u_capabilities := {[ "collapse"; "water" ]};
                   u_base_eta := 8 |} in
  _score_unit rescue (VDict [("type", VStr ""); ("urgency", VStr "low")]) = Ok 0
  /\ _score_unit rescue (VDict [("type", VStr "  "); ("urgency", VStr "low")])
     = Ok 3.
Proof.
  intros rescue.
  assert (Hin : In rescue _UNIT_REGISTRY).
  { unfold _UNIT_REGISTRY, rescue. simpl. tauto. }
  split.
  - apply (blank_type_matches_every_unit
             [("type", VStr ""); ("urgency", VStr "low")] "low" rescue Hin);
      reflexivity.
  - apply (blank_type_matches_every_unit
             [("type", VStr "  "); ("urgency", VStr "low")] "low" rescue Hin
             eq_refl) with (s := "  "); [reflexivity | discriminate | reflexivity].
Defined.

(** X9. The planner reads five fields.  Two incident mappings that agree
    on [type], [location], [urgency], [details] and [description] get the
    same brief, the same plan (in every world, with every limit, also when
    the planner raises) and the same display alert: an [id], a [timestamp]
    or any other field makes no difference. *)
Theorem planner_reads_five_fields (P : Platform) (d d' : Dict PyVal) :
  (forall k, In k ["type"; "location"; "urgency"; "details"; "description"] ->
             dict_lookup k d' = dict_lookup k d) ->
  generate_incident_brief P (VDict d') = generate_incident_brief P (VDict d)
  /\ (forall limit w,
        plan_relief_response P (VDict d') limit w
        = plan_relief_response P (VDict d) limit w)
  /\ (forall summary recommendation urgency,
        format_display_alert P summary recommendation (VDict d') urgency
        = format_display_alert P summary recommendation (VDict d) urgency).
Proof.
  intros H. split; [now apply incident_brief_same|].
  split.
  - intros limit w. now apply plan_relief_response_same.
  - intros summary recommendation urgency. now apply format_display_alert_same.
Qed.

Lemma planner_reads_five_fields_stamped :
  let stamped := fire_incident ++ [("id", VStr "a-1"); ("reporter", VInt 7)] in
  generate_incident_brief offline (VDict stamped)
  = generate_incident_brief offline (VDict fire_incident)
  /\ plan_relief_response offline (VDict stamped) 2 (initial_world offline)
     = plan_relief_response offline (VDict fire_incident) 2 (initial_world offline).
Proof.
  intros stamped.
  destruct (planner_reads_five_fields offline fire_incident stamped)
    as (Hb & Hp & _).
  { intros k Hk. simpl in Hk.
    destruct Hk as [<-|[<-|[<-|[<-|[<-|[]]]]]]; reflexivity. }
  split; [exact Hb | apply Hp].
Defined.

(** X10. [_normalize] yields a canonical text.  Whatever it returns is
    lower-case and has no white space at either end, and normalizing a
    non-empty result again gives the same text.  The empty result, which a
    string of white space gives, is the one exception: normalized again it
    becomes "unknown", like a missing value. *)
Theorem normalize_is_canonical (v : PyVal) (r : string) :
  _normalize v = Ok r ->
  PyStr.lower r = r
  /\ trimmed r
  /\ (r <> EmptyString -> _normalize (VStr r) = Ok r)
  /\ (r = EmptyString -> _normalize (VStr r) = Ok "unknown").
Proof.
  intros H. destruct (normalize_inv v r H) as [s Hs].
  assert (Hl : PyStr.lower r = r) by (rewrite Hs; apply lower_idem).
  assert (Ht : trimmed r).
  { unfold trimmed. now rewrite Hs, strip_lower, strip_idem. }
  split; [exact Hl|]. split; [exact Ht|]. split.
  - intros Hne. rewrite normalize_str. unfold normalize_text.
    destruct r as [|c t]; [congruence|].
    simpl PyStr.is_empty. cbv iota. unfold trimmed in Ht. now rewrite Ht, Hl.
  - now intros ->.
Qed.

Lemma normalize_is_canonical_fire :
  _normalize (VStr "  Sector 7 ") = Ok "sector 7"
  /\ _normalize (VStr "sector 7") = Ok "sector 7"
  /\ _normalize (VStr "   ") = Ok ""
  /\ _normalize (VStr "") = Ok "unknown".
Proof.
  destruct (normalize_is_canonical (VStr "  Sector 7 ") "sector 7" eq_refl)
    as (_ & _ & Hagain & _).
  destruct (normalize_is_canonical (VStr "   ") "" eq_refl)
    as (_ & _ & _ & Hblank).
  split; [reflexivity|]. split; [apply Hagain; discriminate|].
  split; [reflexivity | now apply Hblank].
Defined.

(** X30. The estimates do not depend on the incident.  Every unit that
    [get_available_units] returns carries the estimate for its own station;
    no station of the registry is a sector of the modifier table, so the
    estimate is the unit's base value plus 3 plus a jitter of -1, 0 or 1,
    whatever the filter and the limit are: between 2 and 4 above the base
    value, and never at the floor of 3. *)
Theorem estimates_ignore_the_incident (P : Platform) (unit_type : PyVal)
  (limit : option Z) (w : World) :
  textual unit_type = true -> tracked w ->
  exists cands w',
    get_available_units P unit_type limit w = (Ok cands, w')
    /\ Forall (fun c => exists jitter,
                   -1 <= jitter <= 1
                   /\ eta_minutes c = u_base_eta (base c) + 3 + jitter)
              cands
    /\ Forall (fun c => 7 <= eta_minutes c <= 12) cands.
Proof.
  intros Ht Hw.
  destruct (get_available_units_ok P unit_type limit w Ht Hw)
    as (cands & w' & Hc & _ & _ & Hp & He).
  exists (apply_limit limit cands), w'. split; [exact Hc|].
  assert (Hone : forall c, In c (apply_limit limit cands) ->
                   exists jitter,
                     -1 <= jitter <= 1
                     /\ eta_minutes c = u_base_eta (base c) + 3 + jitter
                     /\ In (base c) _UNIT_REGISTRY).
  { intros c Hin. apply apply_limit_incl in Hin.
    rewrite List.Forall_forall in He. destruct (He c Hin) as (j & Hj & Heta).
    assert (Hreg : In (base c) _UNIT_REGISTRY).
    { assert (H : In (base c) (map base cands)) by now apply in_map.
      eapply Permutation_in in H; [|exact Hp].
      now apply filter_In in H as [H _]. }
    destruct (registry_stations _ Hreg) as [Hm Hb].
    exists j. split; [exact Hj|]. split; [|exact Hreg].
    rewrite Heta, Hm. unfold eta_formula.
    change (6 / 2) with 3. lia. }
  split; apply List.Forall_forall; intros c Hin;
    destruct (Hone c Hin) as (j & Hj & Heta & Hreg).
  - exists j. auto.
  - assert (Hb : 5 <= u_base_eta (base c) <= 8).
    { revert Hreg. generalize (base c). unfold _UNIT_REGISTRY.
      intros u [<-|[<-|[<-|[<-|[]]]]]; simpl; lia. }
    lia.
Qed.

Lemma estimates_ignore_the_incident_ems :
  exists cands w',
    get_available_units offline (VStr "ems") None (initial_world offline)
    = (Ok cands, w')
    /\ Forall (fun c => 7 <= eta_minutes c <= 12) cands
    /\ map eta_minutes cands = [9].
Proof.
  destruct (estimates_ignore_the_incident offline (VStr "ems") None
              (initial_world offline) eq_refl (initial_world_tracked offline))
    as (cands & w' & Hr & _ & Hrange).
  exists cands, w'. split; [exact Hr|]. split; [exact Hrange|].
  assert (E : fst (get_available_units offline (VStr "ems") None
                     (initial_world offline)) = Ok cands) by now rewrite Hr.
  clear Hr Hrange. vm_compute in E. injection E as <-. reflexivity.
Defined.

(* ===================================================================== *)
(** * Further properties: the configuration and the invoker *)
(* ===================================================================== *)

(** X11. [_parse_model_chain].  A variable that is unset or empty gives the
    default chain.  Any other value gives names that are not empty and have
    no white space at either end.  Joining a non-empty list of such names
    (none containing a comma) with commas and parsing the result gives the
    list back.  A non-empty value made of commas and white space only gives
    the empty chain, not the default. *)
Theorem parse_model_chain_round_trip (default : list string) :
  _parse_model_chain None default = default
  /\ _parse_model_chain (Some EmptyString) default = default
  /\ (forall v m, v <> EmptyString ->
        In m (_parse_model_chain (Some v) default) ->
        m <> EmptyString /\ trimmed m)
  /\ (forall names, names <> [] -> Forall clean_name names ->
        _parse_model_chain (Some (PyStr.join "," names)) default = names)
  /\ (forall v, v <> EmptyString -> only_separators v = true ->
        _parse_model_chain (Some v) default = []).
Proof.
  split; [reflexivity|]. split; [reflexivity|]. split; [|split].
  - intros v m Hv Hm. destruct v as [|c t]; [congruence|].
    unfold _parse_model_chain in Hm.
    apply in_map_iff in Hm as (x & <- & Hx).
    apply filter_In in Hx as [_ Hx].
    split.
    + apply is_empty_false. now apply negb_true_iff in Hx.
    + apply strip_idem.
  - intros names Hne Hclean.
    destruct names as [|x names]; [congruence|].
    assert (Hx : x <> EmptyString).
    { inversion Hclean as [|? ? [H _] _]. exact H. }
    destruct (join_nonempty names x Hx) as (c & t & E).
    unfold _parse_model_chain.
    rewrite E, <- E, split_join.
    + apply keep_named_clean. eapply Forall_impl; [exact Hclean|].
      now intros m (H1 & H2 & _).
    + discriminate.
    + eapply Forall_impl; [exact Hclean|]. now intros m (_ & _ & H3).
  - intros v Hv Hsep. destruct v as [|c t]; [congruence|].
    unfold _parse_model_chain.
    now rewrite (keep_named_blank _ (split_only_separators _ Hsep)).
Qed.

Lemma parse_model_chain_round_trip_flash :
  _parse_model_chain (Some (PyStr.join "," ["models/a"; "models/b"])) ["models/d"]
  = ["models/a"; "models/b"]
  /\ _parse_model_chain (Some " , ") ["models/d"] = []
  /\ (In "models/b" (_parse_model_chain (Some "models/a , models/b") ["models/d"])
      /\ trimmed "models/b").
Proof.
  destruct (parse_model_chain_round_trip ["models/d"])
    as (_ & _ & Hclean & Hround & Hsep).
  split.
  { apply Hround; [discriminate|].
    repeat (apply List.Forall_cons;
            [split; [discriminate | split; reflexivity]|]).
    apply List.Forall_nil. }
  split; [apply Hsep; [discriminate | reflexivity]|].
  assert (Hin : In "models/b"
                  (_parse_model_chain (Some "models/a , models/b") ["models/d"])).
  { vm_compute. tauto. }
  split; [exact Hin|].
  apply (Hclean "models/a , models/b" "models/b"); [discriminate | exact Hin].
Defined.

(** X12. Failures that are no rate-limit errors leave the backoff alone.
    With the gate open, when every model of the chain raises and none of the
    messages contains "429", "quota" or "rate limit", the invoker returns
    the error sentinel with the last message, the backoff is what it was,
    the clock was read once (by the gate) and one request per model was
    issued. *)
Theorem plain_failures_leave_backoff (P : Platform) (cfg : Config)
  (prompt : string) (chain errs : list string) (w : World) :
  gate_open P cfg w ->
  all_raise P (length (requests w)) prompt chain errs ->
  Forall (fun e => is_rate_limit e = false) errs ->
  exists w',
    _run_gemini P cfg prompt chain w
    = (Ok (error_sentinel (List.last errs EmptyString)), w')
    /\ _gemini_backoff_until w' = _gemini_backoff_until w
    /\ ticks w' = S (ticks w)
    /\ requests w' = requests w ++ requests_for prompt chain.
Proof.
  intros Hopen Hall Hplain.
  destruct (try_models_plain_failures P cfg prompt chain errs EmptyString
              (tick w) Hall Hplain) as (w' & Hr & Hb & Ht & Hq).
  exists w'. split.
  - eapply run_gemini_of_traced.
    rewrite (run_gemini_gate_open P cfg prompt chain w Hopen). exact Hr.
  - rewrite Hb, Ht, Hq. auto.
Qed.

Lemma plain_failures_leave_backoff_offline :
  exists w',
    _run_gemini offline keyed "p" ["m1"; "m2"] (initial_world offline)
    = (Ok "[Gemini error: 503 service unavailable]", w')
    /\ _gemini_backoff_until w' = 0
    /\ requests w' = [("m1", "p"); ("m2", "p")].
Proof.
  destruct (plain_failures_leave_backoff offline keyed "p" ["m1"; "m2"]
              ["503 service unavailable"; "503 service unavailable"]
              (initial_world offline))
    as (w' & Hr & Hb & _ & Hq).
  - repeat split; vm_compute; congruence.
  - simpl. auto.
  - repeat constructor.
  - exists w'. split; [exact Hr|]. split; [exact Hb | exact Hq].
Defined.

Lemma switched_off_config (env : Environ) :
  switched_off env ->
  has_api_key (load_config env) && USE_GEMINI (load_config env) = false.
Proof.
  intros [H | [H | (v & Hv & Hin)]].
  - unfold has_api_key. simpl. now rewrite H.
  - unfold has_api_key. simpl. now rewrite H.
  - apply andb_false_iff. right. simpl. rewrite Hv.
    simpl in Hin.
    destruct Hin as [<-|[<-|[<-|[<-|[]]]]]; reflexivity.
Qed.

Lemma quiet_refl (w : World) : quiet w w.
Proof. now split. Qed.

Lemma quiet_trans (w1 w2 w3 : World) : quiet w1 w2 -> quiet w2 w3 -> quiet w1 w3.
Proof. unfold quiet. intros [-> ->] [-> ->]. now split. Qed.

(** X13. A backend that is switched off is never asked.  When the
    environment has no credential (unset or empty), or sets [USE_GEMINI] to
    "0", "false", "no" or "off" in any letter case and with any white space
    around it, every invocation returns "[Gemini disabled]" without reading
    the clock, and an orchestration of any agents over any envelope, by
    either orchestrator, issues no request and leaves the backoff alone,
    whether it returns or raises. *)
Theorem switched_off_pipeline_is_silent (P : Platform) (env : Environ)
  (agents : list Agent) (e : MessageEnvelope) (s : option Session) (w : World) :
  switched_off env ->
  (forall prompt chain w0,
      _run_gemini P (load_config env) prompt chain w0
      = (Ok "[Gemini disabled]", w0))
  /\ quiet w (snd (orchestrate P (load_config env) agents e s w))
  /\ quiet w (snd (run_agents P (load_config env) agents e s w)).
Proof.
  intros Hoff. apply switched_off_config in Hoff.
  assert (Hrun : forall prompt chain w0,
             _run_gemini P (load_config env) prompt chain w0
             = (Ok "[Gemini disabled]", w0)).
  { intros. now apply run_gemini_switched_off. }
  assert (Hinv : forall prompt chain,
             keeps quiet (_run_gemini P (load_config env) prompt chain)).
  { intros prompt chain w0. rewrite Hrun. apply quiet_refl. }
  split; [exact Hrun|]. split.
  - apply (keeps_orchestrate quiet quiet_refl quiet_trans P (load_config env));
      try exact Hinv; intros w0; split; reflexivity.
  - apply (keeps_run_agents quiet quiet_refl quiet_trans P (load_config env));
      try exact Hinv; intros w0; split; reflexivity.
Qed.

Lemma switched_off_pipeline_is_silent_no_env :
  let run := orchestrate chatty (load_config no_env)
               (get_a2a_orchestrator new_decision_agent)
               (seeded (VDict fire_incident)) None (initial_world chatty) in
  requests (snd run) = []
  /\ _gemini_backoff_until (snd run) = 0
  /\ exists agents' e',
       fst run = Ok (agents', e', None)
       /\ dict_lookup "display_summary" (content e')
          = Some (VStr "CRITICAL Fire Sector 7: Dispatch Fire-1 to Sector 7.").
Proof.
  intros run.
  destruct (switched_off_pipeline_is_silent chatty no_env
              (get_a2a_orchestrator new_decision_agent)
              (seeded (VDict fire_incident)) None (initial_world chatty))
    as (_ & [Hq Hb] & _).
  { left. reflexivity. }
  split; [exact Hq|]. split; [exact Hb|].
  vm_compute. eexists _, _. split; reflexivity.
Defined.

(** X14. The agents never assign a unit.  An orchestration of any agents
    over any envelope, by either orchestrator, with any configuration and
    any backend, leaves [_UNIT_STATUS] as it was, whether it returns or
    raises: units are recommended, and only [notify_dispatch] and
    [release_unit] change their status. *)
Theorem pipeline_never_assigns_units (P : Platform) (cfg : Config)
  (agents : list Agent) (e : MessageEnvelope) (incident : PyVal)
  (s : option Session) (w : World) :
  _UNIT_STATUS (snd (orchestrate P cfg agents e s w)) = _UNIT_STATUS w
  /\ _UNIT_STATUS (snd (run_agents P cfg agents e s w)) = _UNIT_STATUS w
  /\ _UNIT_STATUS (snd (multiagent_orchestrate P cfg agents incident s w))
     = _UNIT_STATUS w.
Proof.
  assert (Hrefl : forall w0, same_status w0 w0) by reflexivity.
  assert (Htrans : forall w1 w2 w3,
             same_status w1 w2 -> same_status w2 w3 -> same_status w1 w3).
  { unfold same_status. intros w1 w2 w3 H1 H2. now rewrite H2. }
  assert (Hinv : forall prompt chain,
             keeps same_status (_run_gemini P cfg prompt chain)).
  { intros prompt chain w0.
    destruct (run_gemini_total P cfg prompt chain w0)
      as (text & w' & Hr & _ & Hs & _).
    rewrite Hr. exact Hs. }
  assert (Hrun : forall e0, same_status w (snd (run_agents P cfg agents e0 s w))).
  { intros e0.
    apply (keeps_run_agents same_status Hrefl Htrans P cfg);
      try exact Hinv; intros w0; reflexivity. }
  split; [|split].
  - apply (keeps_orchestrate same_status Hrefl Htrans P cfg);
      try exact Hinv; intros w0; reflexivity.
  - apply Hrun.
  - unfold multiagent_orchestrate, bind.
    match goal with
    | |- context [run_agents P cfg agents ?e0 s w] =>
        pose proof (Hrun e0) as H;
        destruct (run_agents P cfg agents e0 s w) as [[[[ag e1] s1]|x] w1]
    end; exact H.
Qed.

(** X29. The invoker does not raise.  For a backoff window within the range
    of floats, whatever else the configuration, the backend, the chain and
    the state of the backoff, [_run_gemini] returns a text; the text has no
    white space at either end; the requests it issued are those for a front
    part of the chain, one per model and in the order of the chain; and it
    neither touches the unit status map nor draws a random number. *)
Theorem invoker_never_raises (P : Platform) (cfg : Config)
  (prompt : string) (chain : list string) (w : World) :
  window_fits cfg ->
  exists text w' n,
    _run_gemini P cfg prompt chain w = (Ok text, w')
    /\ trimmed text
    /\ (n <= length chain)%nat
    /\ requests w' = requests w ++ requests_for prompt (firstn n chain)
    /\ _UNIT_STATUS w' = _UNIT_STATUS w
    /\ draws w' = draws w.
Proof.
  intros _.
  unfold _run_gemini, run_gemini_traced, bind.
  destruct (has_api_key cfg && USE_GEMINI cfg) eqn:Hcfg.
  - rewrite (gemini_available_configured P cfg w Hcfg).
    destruct (_gemini_backoff_until w <=? time_time P (ticks w)).
    + destruct (try_models_shape P cfg prompt chain EmptyString (tick w))
        as (text & le & w' & n & Hr & Ht & Hn & Hq & Hs & Hd).
      exists text, w', n. rewrite Hr. simpl.
      split; [reflexivity|]. split; [exact Ht|]. split; [exact Hn|].
      rewrite Hq, Hs, Hd. auto.
    + exists "[Gemini disabled]", (tick w), 0%nat. simpl.
      split; [reflexivity|]. split; [reflexivity|]. split; [lia|].
      rewrite app_nil_r. auto.
  - rewrite (gemini_available_closed_config P cfg w Hcfg).
    exists "[Gemini disabled]", w, 0%nat. simpl.
    split; [reflexivity|]. split; [reflexivity|]. split; [lia|].
    rewrite app_nil_r. auto.
Qed.

(** The default window of 45 seconds, a quota error, a server error, an
    answer: three requests, the third model's text. *)
Lemma invoker_never_raises_abc :
  window_fits keyed
  /\ exists w',
       _run_gemini abc keyed "p" ["A"; "B"; "C"; "D"] (initial_world abc)
       = (Ok "Send Fire-1 to Sector 7.", w')
       /\ requests w' = [("A", "p"); ("B", "p"); ("C", "p")].
Proof.
  assert (Hfits : window_fits keyed).
  { split; vm_compute; discriminate. }
  split; [exact Hfits|].
  destruct (invoker_never_raises abc keyed "p" ["A"; "B"; "C"; "D"]
              (initial_world abc) Hfits)
    as (text & w' & n & Hr & _).
  exists w'.
  assert (E : _run_gemini abc keyed "p" ["A"; "B"; "C"; "D"] (initial_world abc)
              = (Ok text, w')) by exact Hr.
  assert (Et : fst (_run_gemini abc keyed "p" ["A"; "B"; "C"; "D"] (initial_world abc))
               = Ok text) by now rewrite Hr.
  assert (Ew : snd (_run_gemini abc keyed "p" ["A"; "B"; "C"; "D"] (initial_world abc))
               = w') by now rewrite Hr.
  clear Hr. vm_compute in Et. injection Et as <-.
  split; [exact E|]. rewrite <- Ew. vm_compute. reflexivity.
Defined.

(* ===================================================================== *)
(** * Further properties: the agents and the orchestrators *)
(* ===================================================================== *)

(** The run of the standard pipeline over the fire incident with every
    request failing. *)
Lemma offline_pipeline_returns (e : MessageEnvelope) (s : option Session) :
  incident_of e = VDict fire_incident ->
  exists agents' e' s' w',
    orchestrate offline keyed (get_a2a_orchestrator new_decision_agent) e s
      (initial_world offline) = (Ok (agents', e', s'), w').
Proof.
  intros He.
  apply (a2a_pipeline_total offline keyed new_decision_agent e s fire_incident).
  - apply offline_summaries_textual.
  - exact He.
  - split; reflexivity.
  - apply initial_world_tracked.
Qed.

(** X15. The A2A orchestrator composes.  Orchestrating a list of agents
    followed by a second list is orchestrating the first list and then, on
    the envelope, session and world that come out, the second; when the
    first part raises, the second is not run. *)
Theorem orchestrate_composes (P : Platform) (cfg : Config)
  (xs ys : list Agent) (e : MessageEnvelope) (s : option Session) (w : World) :
  orchestrate P cfg (xs ++ ys) e s w
  = (r <- orchestrate P cfg xs e s ;;
     let '(xs', e1, s1) := r in
     r' <- orchestrate P cfg ys e1 s1 ;;
     let '(ys', e2, s2) := r' in
     ret (xs' ++ ys', e2, s2)) w.
Proof.
  revert e s w. induction xs as [|a xs IH]; intros e s w.
  - simpl. unfold bind, ret.
    destruct (orchestrate P cfg ys e s w) as [[[[ys' e2] s2]|x0] w2];
      reflexivity.
  - change ((a :: xs) ++ ys) with (a :: (xs ++ ys)).
    destruct (agent_handle_envelope P cfg a
                (set_routing (receiver e) (VStr (agent_name a)) e) s w)
      as [[[[a1 e1] s1]|x0] w1] eqn:Ha.
    + simpl. unfold bind.
      change (handle_envelope a
                (set_routing (receiver e) (VStr (name_of a)) e) s w)
        with (agent_handle_envelope P cfg a
                (set_routing (receiver e) (VStr (agent_name a)) e) s w).
      rewrite Ha, IH. unfold bind.
      destruct (orchestrate P cfg xs e1 s1 w1) as [[[[xs' e2] s2]|x0] w2];
        [|reflexivity].
      unfold ret. simpl.
      destruct (orchestrate P cfg ys e2 s2 w2) as [[[[ys' e3] s3]|x0] w3];
        reflexivity.
    + simpl. unfold bind.
      change (handle_envelope a
                (set_routing (receiver e) (VStr (name_of a)) e) s w)
        with (agent_handle_envelope P cfg a
                (set_routing (receiver e) (VStr (agent_name a)) e) s w).
      now rewrite Ha.
Qed.

(** X16. Routing under the A2A orchestrator.  When an orchestration
    returns, the envelope's receiver is the name of the last agent and its
    sender the name of the agent before it; with a single agent the sender
    is what the receiver was on entry.  The sender the caller had set is
    not kept: after the standard four agents the sender is "Summary-Agent"
    and the receiver the decision agent's name. *)
Theorem orchestrate_routing (P : Platform) (cfg : Config)
  (agents agents' : list Agent) (e e' : MessageEnvelope)
  (s s' : option Session) (w w' : World) :
  orchestrate P cfg agents e s w = (Ok (agents', e', s'), w') ->
  (sender e', receiver e') = route agents (sender e, receiver e)
  /\ (forall a, agents = [a] ->
        sender e' = receiver e /\ receiver e' = VStr (agent_name a))
  /\ (forall front a b, agents = front ++ [a; b] ->
        sender e' = VStr (agent_name a) /\ receiver e' = VStr (agent_name b))
  /\ (forall decision_agent, agents = get_a2a_orchestrator decision_agent ->
        sender e' = VStr "Summary-Agent"
        /\ receiver e' = VStr (decision_name decision_agent)).
Proof.
  intros H. apply orchestrate_route in H.
  split; [exact H|]. split; [|split].
  - intros a ->. simpl in H. now injection H.
  - intros front a b ->. unfold route in H.
    rewrite fold_left_app in H. simpl in H. now injection H.
  - intros decision_agent ->. simpl in H. now injection H.
Qed.

Lemma orchestrate_routing_fire :
  exists agents' e' s' w',
    orchestrate offline keyed (get_a2a_orchestrator new_decision_agent)
      (seeded (VDict fire_incident)) None (initial_world offline)
    = (Ok (agents', e', s'), w')
    /\ sender (seeded (VDict fire_incident)) = VStr "user"
    /\ sender e' = VStr "Summary-Agent"
    /\ receiver e' = VStr "Decision-Agent".
Proof.
  destruct (offline_pipeline_returns (seeded (VDict fire_incident)) None eq_refl)
    as (agents' & e' & s' & w' & Hr).
  exists agents', e', s', w'. split; [exact Hr|]. split; [reflexivity|].
  destruct (orchestrate_routing offline keyed _ _ _ _ _ _ _ _ Hr)
    as (_ & _ & _ & Hstd).
  now apply (Hstd new_decision_agent).
Defined.

(** X17. The two orchestrators agree.  On the same agents, envelope,
    session and world, [A2AOrchestrator.orchestrate] does what the loop of
    [MultiAgentSystem.orchestrate] does and stamps sender and receiver on
    the envelope that comes out; it raises exactly when the loop raises.
    So [MultiAgentSystem.orchestrate] on an incident returns the content of
    the envelope the A2A orchestrator returns for the envelope seeded with
    that incident, with the same agents, session and world. *)
Theorem a2a_agrees_with_multiagent (P : Platform) (cfg : Config)
  (agents : list Agent) (s : option Session) (w : World) :
  (forall e,
      orchestrate P cfg agents e s w
      = map_envelope
          (set_routing (fst (route agents (sender e, receiver e)))
                       (snd (route agents (sender e, receiver e))))
          (run_agents P cfg agents e s w))
  /\ (forall incident agents' e' s' w',
        orchestrate P cfg agents (seeded incident) s w
        = (Ok (agents', e', s'), w') ->
        multiagent_orchestrate P cfg agents incident s w
        = (Ok (agents', content e', s'), w'))
  /\ (forall incident x w',
        orchestrate P cfg agents (seeded incident) s w = (Raise x, w') ->
        multiagent_orchestrate P cfg agents incident s w = (Raise x, w')).
Proof.
  split; [intros e; apply orchestrate_as_run_agents|].
  split.
  - intros incident agents' e' s' w'.
    rewrite orchestrate_as_run_agents.
    unfold multiagent_orchestrate, bind. fold (seeded incident).
    destruct (run_agents P cfg agents (seeded incident) s w)
      as [[[[ag e1] s1]|x0] w1]; simpl; [|discriminate].
    now intros [= <- <- <- <-].
  - intros incident x w'.
    rewrite orchestrate_as_run_agents.
    unfold multiagent_orchestrate, bind. fold (seeded incident).
    destruct (run_agents P cfg agents (seeded incident) s w)
      as [[[[ag e1] s1]|x0] w1]; simpl; [discriminate|].
    now intros [= <- <-].
Qed.

Lemma a2a_agrees_with_multiagent_fire :
  exists agents' c' s' w',
    multiagent_orchestrate offline keyed get_multiagent_system
      (VDict fire_incident) None (initial_world offline)
    = (Ok (agents', c', s'), w')
    /\ dict_lookup "recommendation" c'
       = Some (VStr "Dispatch Fire-1 to Sector 7.")
    /\ dict_lookup "resources" c'
       = Some (VList [VStr "Fire-1"; VStr "Fire-2"]).
Proof.
  destruct (a2a_agrees_with_multiagent offline keyed get_multiagent_system
              None (initial_world offline)) as (_ & Hok & _).
  destruct (orchestrate offline keyed get_multiagent_system
              (seeded (VDict fire_incident)) None (initial_world offline))
    as [[[[agents' e'] s']|x] w'] eqn:E.
  - exists agents', (content e'), s', w'.
    split; [now apply Hok|].
    apply (f_equal fst) in E. vm_compute in E. injection E as <- <- <-.
    split; reflexivity.
  - apply (f_equal fst) in E. vm_compute in E. discriminate.
Defined.

(** X18. Each agent writes only its own keys.  When an agent's
    [handle_envelope] returns, every content key other than the ones the
    agent writes (the Dispatch agent: incident, summary, recommendation;
    the Resource agent: resources, resource_summary; the Summary agent:
    display_summary; the Decision agent: decision_status,
    decision_message) has the value it had, the agent's own keys are
    present, no key is removed, and an incident that was in the content is
    still there unchanged.  The same holds for an orchestration of any
    agents, for the keys none of them writes. *)
Theorem agents_write_only_their_keys (P : Platform) (cfg : Config) :
  (forall a a' e e' s s' w w',
      agent_handle_envelope P cfg a e s w = (Ok (a', e', s'), w') ->
      (forall k, ~ In k (keys_written a) ->
                 dict_lookup k (content e') = dict_lookup k (content e))
      /\ (forall k, In k (keys_written a) ->
                    is_Some (dict_lookup k (content e')))
      /\ (forall k, is_Some (dict_lookup k (content e)) ->
                    is_Some (dict_lookup k (content e')))
      /\ (forall v, dict_lookup "incident" (content e) = Some v ->
                    dict_lookup "incident" (content e') = Some v))
  /\ (forall agents agents' e e' s s' w w',
        orchestrate P cfg agents e s w = (Ok (agents', e', s'), w') ->
        (forall k, Forall (fun a => ~ In k (keys_written a)) agents ->
                   dict_lookup k (content e') = dict_lookup k (content e))
        /\ (forall k, is_Some (dict_lookup k (content e)) ->
                      is_Some (dict_lookup k (content e')))
        /\ (forall v, dict_lookup "incident" (content e) = Some v ->
                      dict_lookup "incident" (content e') = Some v)).
Proof.
  split.
  - intros a a' e e' s s' w w' H.
    exact (agent_content_frame P cfg a a' e e' s s' w w' H).
  - intros agents agents' e e' s s' w w' H.
    exact (orchestrate_content_frame P cfg agents agents' e e' s s' w w' H).
Qed.

Lemma agents_write_only_their_keys_ticket :
  exists agents' e' s' w',
    orchestrate offline keyed (get_a2a_orchestrator new_decision_agent)
      ticketed None (initial_world offline) = (Ok (agents', e', s'), w')
    /\ dict_lookup "ticket" (content e') = Some (VInt 4711)
    /\ dict_lookup "urgency" (content e') = Some (VStr "CRITICAL")
    /\ dict_lookup "incident" (content e') = Some (VDict fire_incident).
Proof.
  destruct (offline_pipeline_returns ticketed None eq_refl)
    as (agents' & e' & s' & w' & Hr).
  exists agents', e', s', w'. split; [exact Hr|].
  destruct (agents_write_only_their_keys offline keyed) as [_ Hrun].
  destruct (Hrun _ _ _ _ _ _ _ _ Hr) as (Hother & _ & Hinc).
  assert (Hfree : forall k,
             ~ In k ["incident"; "summary"; "recommendation"; "resources";
                     "resource_summary"; "display_summary";
                     "decision_status"; "decision_message"] ->
             Forall (fun a => ~ In k (keys_written a))
                    (get_a2a_orchestrator new_decision_agent)).
  { intros k Hk. unfold get_a2a_orchestrator.
    repeat (apply List.Forall_cons;
            [intros Hin; apply Hk; simpl in Hin |- *; tauto|]).
    apply List.Forall_nil. }
  split.
  { rewrite Hother; [reflexivity|].
    apply Hfree. simpl. intuition discriminate. }
  split.
  { rewrite Hother; [reflexivity|].
    apply Hfree. simpl. intuition discriminate. }
  now apply Hinc.
Defined.

(** X19. An incident run leaves an error in the decision history.  The
    standard pipeline ends with the Decision agent.  When the envelope's
    content has no [action] (as for every envelope built around a new
    incident) and the orchestration returns, the content ends up with
    decision_status "error" and the message "Unknown action: " followed by
    what [str(None)] prints, and the decision agent's history has gained a
    record with action [None], status "error" and the content's
    [incident_id] ([None] when it has none), within the bound of 10. *)
Theorem incident_run_records_unknown_action (P : Platform) (cfg : Config)
  (d : DecisionAgent) (e e' : MessageEnvelope) (agents' : list Agent)
  (s s' : option Session) (w w' : World) :
  dict_lookup "action" (content e) = None ->
  orchestrate P cfg (get_a2a_orchestrator d) e s w = (Ok (agents', e', s'), w') ->
  dict_lookup "decision_status" (content e') = Some (VStr "error")
  /\ dict_lookup "decision_message" (content e')
     = Some (VStr ("Unknown action: " +:+ py_str P VNone))
  /\ exists d' stamp,
       List.last agents' (ADecision d) = ADecision d'
       /\ history d'
          = last_n 10
              (history d
               ++ [VDict [ ("action", VNone); ("status", VStr "error");
                           ("message",
                            VStr ("Unknown action: " +:+ py_str P VNone));
                           ("incident_id",
                            dict_get "incident_id" VNone (content e));
                           ("timestamp", VStr stamp) ]]).
Proof.
  intros Hact H.
  change (get_a2a_orchestrator d)
    with ([ADispatch (get_dispatch_agent); AResource get_resource_agent;
           ASummary get_summary_agent] ++ [ADecision d]) in H.
  apply orchestrate_app_inv in H
    as (xs' & e1 & s1 & w1 & ys' & Hfront & Hlast & ->).
  apply orchestrate_content_frame in Hfront as (Hother & _ & _).
  assert (Hfree : forall k,
             ~ In k ["incident"; "summary"; "recommendation"; "resources";
                     "resource_summary"; "display_summary"] ->
             dict_lookup k (content e1) = dict_lookup k (content e)).
  { intros k Hk. apply Hother.
    repeat (apply List.Forall_cons;
            [intros Hin; apply Hk; simpl in Hin |- *; tauto|]).
    apply List.Forall_nil. }
  assert (Ha : dict_get "action" VNone (content e1) = VNone).
  { unfold dict_get. rewrite Hfree, Hact; [reflexivity|].
    simpl. intuition discriminate. }
  assert (Hi : dict_get "incident_id" VNone (content e1)
               = dict_get "incident_id" VNone (content e)).
  { unfold dict_get. rewrite Hfree; [reflexivity|].
    simpl. intuition discriminate. }
  apply orchestrate_inv_cons in Hlast
    as (a1 & e2 & s2 & w2 & rest1 & Hd & Hnil & ->).
  apply orchestrate_inv_nil in Hnil as (-> & -> & -> & ->).
  apply agent_handle_inv in Hd as (d' & -> & Hd).
  rewrite decision_handle_spec in Hd. simpl content in Hd.
  rewrite Ha, Hi in Hd. injection Hd as <- <- _ _.
  simpl content.
  split; [now rewrite dict_lookup_set_ne, dict_lookup_set_eq by discriminate|].
  split; [now rewrite dict_lookup_set_eq|].
  eexists _, _. split.
  - rewrite last_last. reflexivity.
  - reflexivity.
Qed.

Lemma incident_run_records_unknown_action_fire :
  exists agents' e' s' w',
    orchestrate offline keyed (get_a2a_orchestrator new_decision_agent)
      (seeded (VDict fire_incident)) None (initial_world offline)
    = (Ok (agents', e', s'), w')
    /\ dict_lookup "decision_status" (content e') = Some (VStr "error")
    /\ dict_lookup "decision_message" (content e')
       = Some (VStr "Unknown action: None")
    /\ exists d', List.last agents' (ADecision new_decision_agent) = ADecision d'
                  /\ length (history d') = 1%nat.
Proof.
  destruct (offline_pipeline_returns (seeded (VDict fire_incident)) None eq_refl)
    as (agents' & e' & s' & w' & Hr).
  exists agents', e', s', w'. split; [exact Hr|].
  destruct (incident_run_records_unknown_action offline keyed new_decision_agent
              (seeded (VDict fire_incident)) e' agents' None s'
              (initial_world offline) w' eq_refl Hr)
    as (Hs & Hm & d' & stamp & Hlast & Hh).
  split; [exact Hs|]. split; [exact Hm|].
  exists d'. split; [exact Hlast|]. now rewrite Hh.
Defined.

(** X20. What a run of the pipeline records.  Take the four agents of the
    standard pipeline, each with whatever it holds, and an envelope whose
    content has an incident.  When the orchestration returns: the Dispatch
    agent's memory has gained one fact, the incident with the summary that
    is in the final content; the Resource agent's memory has gained one
    fact, the incident with the final resources; the Summary agent is as it
    was; the Decision agent's history has gained one record, within its
    bound of 10; and a session, when one was given, has gained exactly two
    turns, both under the printed incident: the final recommendation and
    then the final resource summary.  Without a session none is made. *)
Theorem pipeline_bookkeeping (P : Platform) (cfg : Config)
  (a : DispatchAgent) (b : ResourceAgent) (c : SummaryAgent) (d : DecisionAgent)
  (e e' : MessageEnvelope) (incident : PyVal) (agents' : list Agent)
  (s s' : option Session) (w w' : World) :
  dict_lookup "incident" (content e) = Some incident ->
  orchestrate P cfg [ADispatch a; AResource b; ASummary c; ADecision d] e s w
  = (Ok (agents', e', s'), w') ->
  (exists entry,
      agents'
      = [ ADispatch
            {| dispatch_name := dispatch_name a;
               dispatch_memory :=
                 dispatch_memory a
                 ++ [dispatch_fact incident
                       (dict_get "summary" VNone (content e'))] |};
          AResource
            {| resource_name := resource_name b;
               resource_memory :=
                 resource_memory b
                 ++ [resource_fact incident
                       (dict_get "resources" VNone (content e'))] |};
          ASummary c;
          ADecision
            {| decision_name := decision_name d;
               history := last_n 10 (history d ++ [entry]) |} ])
  /\ s' = match s with
          | None => None
          | Some session =>
              Some {| session_id := session_id session;
                      session_history :=
                        session_history session
                        ++ [ (fmt P incident,
                              dict_get "recommendation" VNone (content e'));
                             (fmt P incident,
                              dict_get "resource_summary" VNone (content e')) ] |}
          end.
Proof.
  intros Hinc H.
  apply orchestrate_inv_cons in H
    as (a1 & e1 & s1 & w1 & rest1 & Ha & H & ->).
  apply agent_handle_inv in Ha as (a' & -> & Ha).
  apply dispatch_handle_inv in Ha as (plan & _ & -> & Hc1 & ->).
  assert (Hi0 : forall x y, incident_of (set_routing x y e) = incident).
  { intros x y. unfold incident_of, dict_get. simpl content. now rewrite Hinc. }
  rewrite Hi0 in Hc1 |- *. simpl content in Hc1.
  apply orchestrate_inv_cons in H
    as (b1 & e2 & s2 & w2 & rest2 & Hb & H & ->).
  apply agent_handle_inv in Hb as (b' & -> & Hb).
  apply resource_handle_inv in Hb as (r & rs & -> & Hc2 & ->).
  assert (Hi1 : forall x y, incident_of (set_routing x y e1) = incident).
  { intros x y. unfold incident_of, dict_get. simpl content. rewrite Hc1.
    rewrite !dict_lookup_set_ne by discriminate.
    now rewrite dict_lookup_set_eq. }
  rewrite Hi1 in *. simpl content in Hc2.
  apply orchestrate_inv_cons in H
    as (c1 & e3 & s3 & w3 & rest3 & Hs & H & ->).
  apply agent_handle_inv in Hs as (c' & -> & Hs).
  apply summary_handle_inv in Hs as (ds & -> & Hc3 & ->).
  simpl content in Hc3.
  apply orchestrate_inv_cons in H
    as (d1 & e4 & s4 & w4 & rest4 & Hd & H & ->).
  apply orchestrate_inv_nil in H as (-> & -> & -> & ->).
  apply agent_handle_inv in Hd as (d' & -> & Hd).
  rewrite decision_handle_spec in Hd. injection Hd as <- <- <- _.
  simpl content. rewrite Hc3, Hc2, Hc1.
  assert (Hsum : forall x y z u v t0 (c0 : Dict PyVal),
             dict_get "summary" VNone
               (dict_set "decision_message" x
                  (dict_set "decision_status" y
                     (dict_set "display_summary" z
                        (dict_set "resource_summary" u
                           (dict_set "resources" v
                              (dict_set "recommendation" t0
                                 (dict_set "summary" (plan_summary plan) c0)))))))
             = plan_summary plan).
  { intros. rewrite !dict_get_set_ne by discriminate. apply dict_get_set_eq. }
  assert (Hrec : forall x y z u v (c0 : Dict PyVal),
             dict_get "recommendation" VNone
               (dict_set "decision_message" x
                  (dict_set "decision_status" y
                     (dict_set "display_summary" z
                        (dict_set "resource_summary" u
                           (dict_set "resources" v
                              (dict_set "recommendation"
                                 (plan_recommendation plan) c0))))))
             = plan_recommendation plan).
  { intros. rewrite !dict_get_set_ne by discriminate. apply dict_get_set_eq. }
  assert (Hres : forall x y z u (c0 : Dict PyVal),
             dict_get "resources" VNone
               (dict_set "decision_message" x
                  (dict_set "decision_status" y
                     (dict_set "display_summary" z
                        (dict_set "resource_summary" u
                           (dict_set "resources" r c0)))))
             = r).
  { intros. rewrite !dict_get_set_ne by discriminate. apply dict_get_set_eq. }
  assert (Hrsum : forall x y z (c0 : Dict PyVal),
             dict_get "resource_summary" VNone
               (dict_set "decision_message" x
                  (dict_set "decision_status" y
                     (dict_set "display_summary" z
                        (dict_set "resource_summary" rs c0))))
             = rs).
  { intros. rewrite !dict_get_set_ne by discriminate. apply dict_get_set_eq. }
  rewrite Hsum, Hrec, Hres, Hrsum.
  split.
  - eexists. reflexivity.
  - destruct s as [session|]; [|reflexivity].
    simpl. unfold add_turn. simpl. now rewrite Hi0, <- app_assoc.
Qed.

Lemma pipeline_bookkeeping_fire :
  exists agents' e' s' w',
    orchestrate offline keyed (get_a2a_orchestrator new_decision_agent)
      ticketed (Some open_session) (initial_world offline)
    = (Ok (agents', e', s'), w')
    /\ (session_history <$> s')
       = Some [ ("hello", VStr "ready");
                ("{...}", VStr "Dispatch Fire-1 to Sector 7.");
                ("{...}",
                 VStr "Primary assignments: Fire-1 (fire, ETA 8m), Fire-2 (fire, ETA 10m)") ].
Proof.
  destruct (offline_pipeline_returns ticketed (Some open_session) eq_refl)
    as (agents' & e' & s' & w' & Hr).
  exists agents', e', s', w'. split; [exact Hr|].
  destruct (pipeline_bookkeeping offline keyed get_dispatch_agent
              get_resource_agent get_summary_agent new_decision_agent
              ticketed e' (VDict fire_incident) agents' (Some open_session) s'
              (initial_world offline) w' eq_refl Hr) as [_ Hs].
  assert (E : fst (orchestrate offline keyed
                     (get_a2a_orchestrator new_decision_agent)
                     ticketed (Some open_session) (initial_world offline))
              = Ok (agents', e', s')) by now rewrite Hr.
  clear Hr. rewrite Hs. clear Hs.
  vm_compute in E. injection E as _ <- _. reflexivity.
Defined.

(** X21. When the Resource agent falls back on the planner.  Let [text]
    be what the invoker returned for the incident's prompt.  When [text]
    decodes to an object whose [resources] is truthy and is not a string
    that begins with "[Gemini", the agent keeps that value (it is not
    checked against the unit registry) with the object's summary (the empty
    string when it has none), and the planner is not run.  In every other
    case ([text] does not decode to an object, or the object's [resources]
    is missing, empty, falsy, or a string that begins with "[Gemini") the
    agent runs the planner with limit 2 and keeps the planner's resources
    and resource summary; a text that does not decode is dropped. *)
Theorem resource_fallback_condition (P : Platform) (cfg : Config)
  (self : ResourceAgent) (e : MessageEnvelope) (s : option Session)
  (text : string) (w w1 : World) :
  resource_ask_gemini P cfg (resource_prompt P (incident_of e)) w
  = (Ok text, w1) ->
  (forall obj,
      decoded_object P text = Some obj ->
      truthy (dict_get "resources" (VList []) obj) = true ->
      (forall t, dict_get "resources" (VList []) obj = VStr t ->
                 PyStr.startswith t "[Gemini" = false) ->
      exists self' e' s',
        resource_handle_envelope P cfg self e s w = (Ok (self', e', s'), w1)
        /\ dict_lookup "resources" (content e')
           = Some (dict_get "resources" (VList []) obj)
        /\ dict_lookup "resource_summary" (content e')
           = Some (dict_get "summary" (VStr "") obj))
  /\ (decoded_object P text = None
      \/ (exists obj,
             decoded_object P text = Some obj
             /\ (truthy (dict_get "resources" (VList []) obj) = false
                 \/ exists t,
                      dict_get "resources" (VList []) obj = VStr t
                      /\ PyStr.startswith t "[Gemini" = true)) ->
      forall fallback w2,
        plan_relief_response P (incident_of e) 2 w1 = (Ok fallback, w2) ->
        exists self' e' s',
          resource_handle_envelope P cfg self e s w = (Ok (self', e', s'), w2)
          /\ dict_lookup "resources" (content e')
             = Some (VList (map VStr (rp_resources fallback)))
          /\ dict_lookup "resource_summary" (content e')
             = Some (VStr (rp_resource_summary fallback))).
Proof.
  intros Hask.
  unfold resource_handle_envelope.
  fold (incident_of e). fold (resource_prompt P (incident_of e)).
  rewrite (bind_ok _ _ _ _ _ Hask).
  split.
  - intros obj Hobj Htruthy Hnot.
    assert (Hparse : parse_resources P text
                     = (dict_get "resources" (VList []) obj,
                        dict_get "summary" (VStr "") obj)).
    { unfold parse_resources. unfold decoded_object in Hobj.
      destruct (json_loads P text) as [[]|]; try discriminate.
      now injection Hobj as ->. }
    rewrite Hparse.
    assert (Hus : resources_unusable (dict_get "resources" (VList []) obj)
                  = false).
    { unfold resources_unusable. rewrite Htruthy. simpl.
      destruct (dict_get "resources" (VList []) obj); try reflexivity.
      now apply Hnot. }
    rewrite Hus. unfold bind, ret. simpl.
    eexists _, _, _. split; [reflexivity|]. simpl content.
    split.
    + now rewrite dict_lookup_set_ne, dict_lookup_set_eq by discriminate.
    + now rewrite dict_lookup_set_eq.
  - intros Hcase fallback w2 Hplan.
    assert (Hus : resources_unusable (fst (parse_resources P text)) = true).
    { unfold parse_resources, decoded_object in *.
      destruct Hcase as [Hnone | (obj & Hobj & Hbad)].
      - destruct (json_loads P text) as [[]|]; try reflexivity. discriminate.
      - destruct (json_loads P text) as [[]|]; try discriminate.
        injection Hobj as ->. simpl.
        unfold resources_unusable.
        destruct Hbad as [Hf | (t & Ht & Hpre)].
        + now rewrite Hf.
        + rewrite Ht. rewrite Hpre. apply orb_true_r. }
    destruct (parse_resources P text) as [resources resource_summary].
    simpl in Hus. rewrite Hus.
    unfold bind at 1. unfold bind at 1. rewrite Hplan. unfold ret. simpl.
    eexists _, _, _. split; [reflexivity|]. simpl content.
    split.
    + now rewrite dict_lookup_set_ne, dict_lookup_set_eq by discriminate.
    + now rewrite dict_lookup_set_eq.
Qed.

Lemma resource_fallback_condition_both :
  (exists self' e' s' w',
      resource_handle_envelope resourceful keyed get_resource_agent
        (seeded (VDict fire_incident)) None (initial_world resourceful)
      = (Ok (self', e', s'), w')
      /\ dict_lookup "resources" (content e') = Some (VList [VStr "Engine 5"])
      /\ dict_lookup "resource_summary" (content e')
         = Some (VStr "Send Engine 5"))
  /\ (exists self' e' s' w',
        resource_handle_envelope offline keyed get_resource_agent
          (seeded (VDict fire_incident)) None (initial_world offline)
        = (Ok (self', e', s'), w')
        /\ dict_lookup "resources" (content e')
           = Some (VList [VStr "Fire-1"; VStr "Fire-2"])).
Proof.
  split.
  - set (e := seeded (VDict fire_incident)).
    set (w := initial_world resourceful).
    set (w1 := snd (resource_ask_gemini resourceful keyed
                      (resource_prompt resourceful (incident_of e)) w)).
    assert (Hask : resource_ask_gemini resourceful keyed
                     (resource_prompt resourceful (incident_of e)) w
                   = (Ok resources_reply, w1)).
    { unfold w1. vm_compute. reflexivity. }
    destruct (resource_fallback_condition resourceful keyed get_resource_agent
                e None resources_reply w w1 Hask) as [Hkeep _].
    destruct (Hkeep [("resources", VList [VStr "Engine 5"]);
                     ("summary", VStr "Send Engine 5")])
      as (self' & e' & s' & Hr & Hres & Hsum).
    + vm_compute. reflexivity.
    + reflexivity.
    + discriminate.
    + exists self', e', s', w1. split; [exact Hr|]. split; assumption.
  - set (e := seeded (VDict fire_incident)).
    set (w := initial_world offline).
    set (w1 := snd (resource_ask_gemini offline keyed
                      (resource_prompt offline (incident_of e)) w)).
    assert (Hask : resource_ask_gemini offline keyed
                     (resource_prompt offline (incident_of e)) w
                   = (Ok "[Gemini error: 503 service unavailable]", w1)).
    { unfold w1. vm_compute. reflexivity. }
    destruct (resource_fallback_condition offline keyed get_resource_agent
                e None _ w w1 Hask) as [_ Hfall].
    set (run := plan_relief_response offline (incident_of e) 2 w1).
    assert (Hplan : exists fallback,
               run = (Ok fallback, snd run)
               /\ rp_resources fallback = ["Fire-1"; "Fire-2"]).
    { vm_compute. eexists. split; reflexivity. }
    destruct Hplan as (fallback & Hplan & Hids).
    assert (Hnone : decoded_object offline
                      "[Gemini error: 503 service unavailable]" = None).
    { vm_compute. reflexivity. }
    destruct (Hfall (or_introl Hnone) fallback (snd run) Hplan)
      as (self' & e' & s' & Hr & Hres & _).
    exists self', e', s', (snd run). split; [exact Hr|].
    now rewrite Hres, Hids.
Defined.

(** X22. The two entry points of the Decision agent agree.  For any
    agent, action and incident id, [handle_decision] and [handle_envelope]
    (on an envelope that carries them) never raise, read the clock once,
    build the same record and leave the agent with the same history, of
    which the record is the last element.  The record is what
    [handle_decision] returns and what [handle_envelope] appends to the
    trace.  The status is "success" exactly for the strings "SEND" and
    "HOLD"; any other action, a lower-case "send" or a missing action
    included, is recorded as well, with status "error". *)
Theorem decision_entry_points_agree (P : Platform) (self : DecisionAgent)
  (e : MessageEnvelope) (s : option Session) (w : World) :
  let action := dict_get "action" VNone (content e) in
  let incident_id := dict_get "incident_id" VNone (content e) in
  exists entry self' e',
    handle_decision P self action incident_id w = (Ok (self', entry), tick w)
    /\ decision_handle_envelope P self e s w = (Ok (self', e', s), tick w)
    /\ trace e'
       = trace e ++ [ {| agent := decision_name self; message := entry |} ]
    /\ get_history self' = last_n 10 (history self ++ [entry])
    /\ List.last (get_history self') VNone = entry
    /\ (exists stamp,
           entry = VDict [ ("action", action);
                           ("status", VStr (decision_status action));
                           ("message", VStr (decision_message P action));
                           ("incident_id", incident_id);
                           ("timestamp", VStr stamp) ])
    /\ dict_lookup "decision_status" (content e')
       = Some (VStr (decision_status action))
    /\ (decision_status action = "success"
        <-> action = VStr "SEND" \/ action = VStr "HOLD")
    /\ (decision_status action = "success" \/ decision_status action = "error").
Proof.
  intros action incident_id.
  eexists _, _, _.
  split.
  { unfold handle_decision, bind. rewrite decision_entry_spec. reflexivity. }
  split; [apply decision_handle_spec|].
  split; [reflexivity|]. split; [reflexivity|].
  split; [apply last_n_snoc_last|].
  split; [eexists; reflexivity|].
  split.
  { simpl content.
    now rewrite dict_lookup_set_ne, dict_lookup_set_eq by discriminate. }
  split.
  - unfold decision_status, is_valid_action.
    fold action. destruct action as [| | | | a | |];
      try (split; [discriminate | intros [H|H]; discriminate]).
    destruct (String.eqb_spec a "SEND") as [->|H1].
    + split; auto.
    + destruct (String.eqb_spec a "HOLD") as [->|H2].
      * split; auto.
      * simpl. split; [discriminate|]. intros [[= ->]|[= ->]]; congruence.
  - unfold decision_status. destruct (is_valid_action action); auto.
Qed.

(** X27. When the Summary agent falls back on the formatter.  Let [text]
    be what the invoker returned for the prompt built from the content's
    summary, recommendation and urgency ("CRITICAL" when the content has
    none).  When [text] begins with "[Gemini" the display summary is what
    [format_display_alert] makes of the summary, the recommendation, the
    content's incident (the empty mapping when it has none) and that
    urgency, and the agent raises when the formatter does.  Otherwise the
    display summary is [text] trimmed, whatever its length, the empty text
    included.  The agent holds nothing and leaves the session alone. *)
Theorem summary_fallback_condition (P : Platform) (cfg : Config)
  (self : SummaryAgent) (e : MessageEnvelope) (s : option Session)
  (text : string) (w w1 : World) :
  let summary := dict_get "summary" (VStr "") (content e) in
  let recommendation := dict_get "recommendation" (VStr "") (content e) in
  let urgency := dict_get "urgency" (VStr "CRITICAL") (content e) in
  let incident := dict_get "incident" (VDict []) (content e) in
  _run_gemini P cfg (summary_prompt P summary recommendation urgency)
    (SUMMARY_MODEL_CHAIN cfg) w = (Ok text, w1) ->
  (PyStr.startswith text "[Gemini" = true ->
   (forall alert,
       format_display_alert P summary recommendation incident urgency
       = Ok alert ->
       exists e',
         summary_handle_envelope P cfg self e s w = (Ok (self, e', s), w1)
         /\ dict_lookup "display_summary" (content e') = Some (VStr alert))
   /\ (forall x,
         format_display_alert P summary recommendation incident urgency
         = Raise x ->
         summary_handle_envelope P cfg self e s w = (Raise x, w1)))
  /\ (PyStr.startswith text "[Gemini" = false ->
      exists e',
        summary_handle_envelope P cfg self e s w = (Ok (self, e', s), w1)
        /\ dict_lookup "display_summary" (content e')
           = Some (VStr (PyStr.strip text))).
Proof.
  intros summary recommendation urgency incident Hask.
  assert (Hrun :
    summary_handle_envelope P cfg self e s w
    = match (if PyStr.startswith text "[Gemini"
             then lift (format_display_alert P summary recommendation
                          incident urgency)
             else ret (PyStr.strip text)) w1 with
      | (Ok ds, w2) =>
          (Ok (self,
               set_content (dict_set "display_summary" (VStr ds) (content e))
                 (add_trace (summary_name self)
                    (VDict [("display_summary", VStr ds)]) e),
               s), w2)
      | (Raise x, w2) => (Raise x, w2)
      end).
  { unfold summary_handle_envelope, summarize_for_display.
    fold summary recommendation urgency incident.
    fold (summary_prompt P summary recommendation urgency).
    unfold bind. now rewrite Hask. }
  rewrite Hrun. split.
  - intros Hpre. rewrite Hpre. unfold lift. split.
    + intros alert Ha. rewrite Ha.
      eexists. split; [reflexivity|]. simpl content.
      apply dict_lookup_set_eq.
    + intros x Hx. now rewrite Hx.
  - intros Hpre. rewrite Hpre. unfold ret.
    eexists. split; [reflexivity|]. simpl content.
    apply dict_lookup_set_eq.
Qed.

Lemma summary_fallback_condition_both :
  (exists e' w',
      summary_handle_envelope offline keyed get_summary_agent
        ticketed None (initial_world offline)
      = (Ok (get_summary_agent, e', None), w')
      /\ dict_lookup "display_summary" (content e')
         = Some (VStr "CRITICAL Fire Sector 7:"))
  /\ (exists e' w',
        summary_handle_envelope concise keyed get_summary_agent
          ticketed None (initial_world concise)
        = (Ok (get_summary_agent, e', None), w')
        /\ dict_lookup "display_summary" (content e')
           = Some (VStr "Fire at Sector 7: send Fire-1 now")).
Proof.
  split.
  - set (w := initial_world offline).
    set (w1 := snd (_run_gemini offline keyed
                      (summary_prompt offline (VStr "") (VStr "") (VStr "CRITICAL"))
                      (SUMMARY_MODEL_CHAIN keyed) w)).
    destruct (summary_fallback_condition offline keyed get_summary_agent
                ticketed None "[Gemini error: 503 service unavailable]" w w1)
      as [Hfall _].
    { unfold w1. vm_compute. reflexivity. }
    destruct (Hfall eq_refl) as [Hok _].
    destruct (Hok "CRITICAL Fire Sector 7:") as (e' & Hr & Hd).
    { vm_compute. reflexivity. }
    exists e', w1. split; [exact Hr | exact Hd].
  - set (w := initial_world concise).
    set (w1 := snd (_run_gemini concise keyed
                      (summary_prompt concise (VStr "") (VStr "") (VStr "CRITICAL"))
                      (SUMMARY_MODEL_CHAIN keyed) w)).
    destruct (summary_fallback_condition concise keyed get_summary_agent
                ticketed None brief_reply w w1) as [_ Hkeep].
    { unfold w1. vm_compute. reflexivity. }
    destruct (Hkeep eq_refl) as (e' & Hr & Hd).
    exists e', w1. split; [exact Hr | exact Hd].
Defined.

(** X28. A decoded summary that is not text makes the Dispatch agent
    raise.  When the text the invoker returned decodes to an object whose
    [summary] is truthy and not a string (a number, a list, an object,
    [True]), [_plan_dispatch] raises [AttributeError]: the planner is not
    run, [handle_envelope] raises, and so does every orchestration in which
    the Dispatch agent comes first, with no later agent run.  The Resource
    agent, given the same kind of value as [resources], does not raise and
    keeps the value. *)
Theorem dispatch_raises_on_non_text_summary (P : Platform) (cfg : Config)
  (self : DispatchAgent) (e : MessageEnvelope) (s : option Session)
  (text : string) (obj : Dict PyVal) (w w1 : World) :
  dispatch_ask_gemini P cfg (dispatch_prompt P (incident_of e)) w
  = (Ok text, w1) ->
  decoded_object P text = Some obj ->
  truthy (dict_get "summary" (VStr "") obj) = true ->
  textual (dict_get "summary" (VStr "") obj) = false ->
  _plan_dispatch P cfg (incident_of e) w
  = (Raise (AttributeError "startswith"), w1)
  /\ dispatch_handle_envelope P cfg self e s w
     = (Raise (AttributeError "startswith"), w1)
  /\ (forall rest,
        orchestrate P cfg (ADispatch self :: rest) e s w
        = (Raise (AttributeError "startswith"), w1)).
Proof.
  intros Hask Hobj Htruthy Htext.
  assert (Hplan : _plan_dispatch P cfg (incident_of e) w
                  = (Raise (AttributeError "startswith"), w1)).
  { rewrite (plan_dispatch_unfold P cfg (incident_of e) text w w1 Hask).
    rewrite (parse_plan_object P text obj Hobj). simpl plan_summary.
    unfold needs_fallback. rewrite Htruthy. simpl.
    destruct (dict_get "summary" (VStr "") obj); try reflexivity.
    simpl in Htext. discriminate. }
  assert (Hh : forall x y,
             dispatch_handle_envelope P cfg self (set_routing x y e) s w
             = (Raise (AttributeError "startswith"), w1)).
  { intros x y. unfold dispatch_handle_envelope. simpl content.
    fold (incident_of e). unfold bind. now rewrite Hplan. }
  split; [exact Hplan|]. split.
  - rewrite <- (set_routing_same e). apply Hh.
  - intros rest. simpl. unfold bind.
    change (handle_envelope self
              (set_routing (receiver e) (VStr (dispatch_name self)) e) s w)
      with (dispatch_handle_envelope P cfg self
              (set_routing (receiver e) (VStr (dispatch_name self)) e) s w).
    now rewrite Hh.
Qed.

Lemma dispatch_raises_on_non_text_summary_numeric :
  (exists w',
      orchestrate numeric keyed (get_a2a_orchestrator new_decision_agent)
        (seeded (VDict fire_incident)) None (initial_world numeric)
      = (Raise (AttributeError "startswith"), w')
      /\ length (requests w') = 1%nat)
  /\ exists self' e' s' w',
       resource_handle_envelope numeric keyed get_resource_agent
         (seeded (VDict fire_incident)) None (initial_world numeric)
       = (Ok (self', e', s'), w')
       /\ dict_lookup "resources" (content e') = Some (VInt 7).
Proof.
  split.
  - set (e := seeded (VDict fire_incident)).
    set (w := initial_world numeric).
    set (w1 := snd (dispatch_ask_gemini numeric keyed
                      (dispatch_prompt numeric (incident_of e)) w)).
    destruct (dispatch_raises_on_non_text_summary numeric keyed
                get_dispatch_agent e None numeric_reply
                [("summary", VInt 7); ("resources", VInt 7)] w w1)
      as (_ & _ & Hrun).
    + unfold w1. vm_compute. reflexivity.
    + vm_compute. reflexivity.
    + reflexivity.
    + reflexivity.
    + exists w1. split; [apply Hrun|]. vm_compute. reflexivity.
  - vm_compute. eexists _, _, _, _. split; reflexivity.
Defined.

(* ===================================================================== *)
(** * Further properties: the system state *)
(* ===================================================================== *)

Lemma id_differs_spec (incident_id : string) (i : Dict PyVal) :
  id_differs incident_id i = true <-> dict_get "id" VNone i <> VStr incident_id.
Proof.
  unfold id_differs. destruct (dict_get "id" VNone i);
    try (split; [discriminate | reflexivity]).
  destruct (String.eqb_spec s incident_id) as [->|Hne]; simpl.
  - split; [discriminate | congruence].
  - split; [congruence | reflexivity].
Qed.

(** X23. [SystemState.add_incident].  The call never raises and reads the
    clock once.  The record it returns is appended to the active incidents
    and holds every field of the incident with the value the caller gave,
    an [id] or a [timestamp] of the caller included (whatever the value,
    [None] too); only when the incident has no [id] does the record get the
    fresh identifier, and only when it has no [timestamp] the time of the
    call.  The count of incidents goes up by one; the count of decisions
    and the sessions are untouched. *)
Theorem add_incident_stamps (P : Platform) (fresh_id : string)
  (incident : Dict PyVal) (self : SystemState) (w : World) :
  exists record self',
    add_incident P fresh_id incident self w = (Ok (record, self'), tick w)
    /\ active_incidents self' = active_incidents self ++ [record]
    /\ (forall k v, dict_lookup k incident = Some v ->
                    dict_lookup k record = Some v)
    /\ (forall k, k <> "id" -> k <> "timestamp" ->
                  dict_lookup k record = dict_lookup k incident)
    /\ (dict_lookup "id" incident = None ->
        dict_lookup "id" record = Some (VStr fresh_id))
    /\ (dict_lookup "timestamp" incident = None ->
        dict_lookup "timestamp" record
        = Some (VStr (isoformat P (datetime_utcnow P (ticks w)))))
    /\ metric_incidents (metrics self') = metric_incidents (metrics self) + 1
    /\ metric_decisions (metrics self') = metric_decisions (metrics self)
    /\ sessions self' = sessions self.
Proof.
  eexists _, _. split; [apply add_incident_spec|]. simpl.
  split; [reflexivity|]. split.
  { intros k v H. now repeat apply dict_lookup_setdefault_keeps. }
  split; [intros k H1 H2; now apply stamped_lookup_other|].
  split; [intros H; now rewrite stamped_lookup_id, H|].
  split; [intros H; now rewrite stamped_lookup_timestamp, H|].
  auto.
Qed.

Lemma add_incident_stamps_fire :
  exists record self',
    add_incident offline "u-7" fire_incident busy_state (initial_world offline)
    = (Ok (record, self'), tick (initial_world offline))
    /\ dict_lookup "type" record = Some (VStr "Fire")
    /\ dict_lookup "id" record = Some (VStr "u-7")
    /\ dict_lookup "timestamp" record = Some (VStr "t1004")
    /\ length (active_incidents self') = 3%nat.
Proof.
  destruct (add_incident_stamps offline "u-7" fire_incident busy_state
              (initial_world offline))
    as (record & self' & Hr & Hact & Hkeep & _ & Hid & Hts & _).
  exists record, self'. split; [exact Hr|].
  split; [now apply Hkeep|].
  split; [now apply Hid|].
  split; [now rewrite Hts|].
  now rewrite Hact, length_app.
Defined.

(** X24. [SystemState.resolve_incident] for an id that is a string.  The
    active incidents that remain are exactly those whose [id] is not that
    string, in their order; resolving twice is resolving once; counts and
    sessions are untouched.  Adding an incident without an [id] and
    resolving the fresh identifier restores the active incidents, provided
    no active incident had that identifier.  An incident that brings an
    [id] is removed together with every older incident of the same id. *)
Theorem resolve_incident_round_trip (P : Platform) (fresh_id : string)
  (incident : Dict PyVal) (self : SystemState) (w : World) :
  (forall id i,
      In i (active_incidents (resolve_incident id self))
      <-> In i (active_incidents self) /\ dict_get "id" VNone i <> VStr id)
  /\ (forall id, exists dropped,
        Permutation (active_incidents self)
          (active_incidents (resolve_incident id self) ++ dropped)
        /\ Forall (fun i => dict_get "id" VNone i = VStr id) dropped)
  /\ (forall id,
        resolve_incident id (resolve_incident id self) = resolve_incident id self)
  /\ (forall id,
        metrics (resolve_incident id self) = metrics self
        /\ sessions (resolve_incident id self) = sessions self)
  /\ exists record self',
       add_incident P fresh_id incident self w = (Ok (record, self'), tick w)
       /\ (dict_lookup "id" incident = None ->
           Forall (fun i => dict_get "id" VNone i <> VStr fresh_id)
                  (active_incidents self) ->
           active_incidents (resolve_incident fresh_id self')
           = active_incidents self)
       /\ (forall x, dict_lookup "id" incident = Some (VStr x) ->
             active_incidents (resolve_incident x self')
             = active_incidents (resolve_incident x self)).
Proof.
  split.
  { intros id i. simpl. rewrite filter_In, id_differs_spec. tauto. }
  split.
  { intros id. exists (List.filter (fun i => negb (id_differs id i))
                                   (active_incidents self)).
    split.
    - simpl. induction (active_incidents self) as [|i l IH]; simpl; [constructor|].
      destruct (id_differs id i); simpl.
      + now constructor.
      + now apply Permutation_cons_app.
    - apply List.Forall_forall. intros i Hi.
      apply filter_In in Hi as [_ Hi]. apply negb_true_iff in Hi.
      unfold id_differs in Hi.
      destruct (dict_get "id" VNone i); try discriminate.
      apply negb_false_iff, String.eqb_eq in Hi. now subst. }
  split.
  { intros id. unfold resolve_incident. simpl. now rewrite filter_idem. }
  split; [intros id; split; reflexivity|].
  eexists _, _. split; [apply add_incident_spec|]. simpl.
  split.
  - intros Hnone Hfree. rewrite List.filter_app. simpl.
    assert (E : id_differs fresh_id
                  (dict_setdefault "timestamp"
                     (VStr (isoformat P (datetime_utcnow P (ticks w))))
                     (dict_setdefault "id" (VStr fresh_id) incident))
                = false).
    { unfold id_differs, dict_get.
      rewrite stamped_lookup_id, Hnone. now rewrite String.eqb_refl. }
    rewrite E, app_nil_r. apply filter_all.
    eapply Forall_impl; [exact Hfree|].
    intros i Hi. now apply id_differs_spec.
  - intros x Hx. rewrite List.filter_app. simpl.
    assert (E : id_differs x
                  (dict_setdefault "timestamp"
                     (VStr (isoformat P (datetime_utcnow P (ticks w))))
                     (dict_setdefault "id" (VStr fresh_id) incident))
                = false).
    { unfold id_differs, dict_get.
      rewrite stamped_lookup_id, Hx. now rewrite String.eqb_refl. }
    now rewrite E, app_nil_r.
Qed.

Lemma resolve_incident_round_trip_fire :
  exists record self',
    add_incident offline "u-7" fire_incident busy_state (initial_world offline)
    = (Ok (record, self'), tick (initial_world offline))
    /\ active_incidents (resolve_incident "u-7" self')
       = active_incidents busy_state
    /\ length (active_incidents (resolve_incident "a-1" busy_state)) = 1%nat.
Proof.
  destruct (resolve_incident_round_trip offline "u-7" fire_incident busy_state
              (initial_world offline))
    as (_ & _ & _ & _ & record & self' & Hr & Hround & _).
  exists record, self'. split; [exact Hr|].
  split; [|reflexivity].
  apply Hround; [reflexivity|].
  unfold busy_state. simpl.
  repeat (apply List.Forall_cons; [discriminate|]). apply List.Forall_nil.
Defined.

(** X25. [SystemState.get_or_create_session].  In a state where every
    session is stored under its own id, the call keeps that so, and the
    session it returns is the one stored under its id afterwards; no other
    session, no incident and no count changes.  For a non-empty id the
    session has that id: the stored one when there is one (and then the
    state is unchanged), a new one with no history otherwise.  Without an
    id (or with the empty one) a new session is made under the fresh
    identifier.  Asking again for the id of the session that was returned
    gives the same session and changes nothing. *)
Theorem session_registry (fresh_id : string) (wanted : option string)
  (self : SystemState) :
  well_keyed self ->
  let session := fst (get_or_create_session fresh_id wanted self) in
  let self' := snd (get_or_create_session fresh_id wanted self) in
  well_keyed self'
  /\ sessions self' !! session_id session = Some session
  /\ (forall k, k <> session_id session ->
                sessions self' !! k = sessions self !! k)
  /\ active_incidents self' = active_incidents self
  /\ metrics self' = metrics self
  /\ (forall sid, wanted = Some sid -> sid <> EmptyString ->
        session_id session = sid
        /\ match sessions self !! sid with
           | Some old => session = old /\ self' = self
           | None => session_history session = []
           end)
  /\ (wanted = None \/ wanted = Some EmptyString ->
      session_id session = fresh_id /\ session_history session = [])
  /\ (session_id session <> EmptyString ->
      forall fresh2,
        get_or_create_session fresh2 (Some (session_id session)) self'
        = (session, self')).
Proof.
  intros Hwk session self'.
  assert (Hnew : forall sid,
             well_keyed
               {| active_incidents := active_incidents self;
                  memory := memory self;
                  sessions := <[ sid := {| session_id := sid;
                                           session_history := [] |} ]>
                                (sessions self);
                  metrics := metrics self |}).
  { intros sid k ss. simpl.
    destruct (decide (sid = k)) as [->|Hne].
    - rewrite lookup_insert_eq. now intros [= <-].
    - rewrite lookup_insert_ne by exact Hne. apply Hwk. }
  assert (Hagain : forall (ss : Session) (st : SystemState) fresh2,
             sessions st !! session_id ss = Some ss ->
             session_id ss <> EmptyString ->
             get_or_create_session fresh2 (Some (session_id ss)) st = (ss, st)).
  { intros ss st fresh2 Hst Hne. unfold get_or_create_session.
    destruct (session_id ss) eqn:E; [congruence|]. now rewrite Hst. }
  unfold get_or_create_session in session, self'.
  destruct wanted as [[|c t]|].
  - (* the empty id *)
    simpl in session, self'. subst session self'. simpl.
    split; [apply Hnew|]. split; [now rewrite lookup_insert_eq|].
    split; [intros k Hk; now rewrite lookup_insert_ne by congruence|].
    split; [reflexivity|]. split; [reflexivity|].
    split; [intros sid [= <-]; congruence|].
    split; [auto|].
    intros Hne fresh2. apply (Hagain (new_session fresh_id (Some EmptyString))); [|exact Hne].
    simpl. now rewrite lookup_insert_eq.
  - (* a non-empty id *)
    destruct (sessions self !! String c t) as [old|] eqn:E.
    + simpl in session, self'. subst session self'.
      pose proof (Hwk _ _ E) as Hid.
      split; [exact Hwk|]. split; [now rewrite Hid|].
      split; [reflexivity|]. split; [reflexivity|]. split; [reflexivity|].
      split.
      { intros sid [= <-] _. split; [exact Hid|]. now rewrite E. }
      split; [intros [H|H]; discriminate|].
      intros Hne fresh2. apply (Hagain old); [now rewrite Hid | exact Hne].
    + simpl in session, self'. subst session self'. simpl.
      split; [apply Hnew|]. split; [now rewrite lookup_insert_eq|].
      split; [intros k Hk; now rewrite lookup_insert_ne by congruence|].
      split; [reflexivity|]. split; [reflexivity|].
      split.
      { intros sid [= <-] _. split; [reflexivity|]. now rewrite E. }
      split; [intros [H|H]; discriminate|].
      intros Hne fresh2. apply (Hagain (new_session fresh_id (Some (String c t)))); [|exact Hne].
      simpl. now rewrite lookup_insert_eq.
  - (* no id *)
    simpl in session, self'. subst session self'. simpl.
    split; [apply Hnew|]. split; [now rewrite lookup_insert_eq|].
    split; [intros k Hk; now rewrite lookup_insert_ne by congruence|].
    split; [reflexivity|]. split; [reflexivity|].
    split; [intros sid H; discriminate|].
    split; [auto|].
    intros Hne fresh2. apply (Hagain (new_session fresh_id None)); [|exact Hne].
    simpl. now rewrite lookup_insert_eq.
Qed.

Lemma busy_state_well_keyed : well_keyed busy_state.
Proof.
  intros k ss. unfold busy_state. simpl.
  destruct (decide ("s-1" = k)) as [<-|Hne].
  - rewrite lookup_singleton_eq. now intros [= <-].
  - rewrite lookup_singleton_ne by exact Hne. discriminate.
Qed.

Lemma session_registry_busy :
  fst (get_or_create_session "u-9" (Some "s-1") busy_state) = open_session
  /\ snd (get_or_create_session "u-9" (Some "s-1") busy_state) = busy_state
  /\ session_id (fst (get_or_create_session "u-9" None busy_state)) = "u-9"
  /\ sessions (snd (get_or_create_session "u-9" None busy_state)) !! "s-1"
     = Some open_session.
Proof.
  destruct (session_registry "u-9" (Some "s-1") busy_state busy_state_well_keyed)
    as (_ & _ & _ & _ & _ & Hsid & _).
  destruct (session_registry "u-9" None busy_state busy_state_well_keyed)
    as (_ & _ & Hother & _ & _ & _ & Hnone & _).
  destruct (Hsid "s-1" eq_refl ltac:(discriminate)) as [_ Hold].
  assert (E : sessions busy_state !! "s-1" = Some open_session).
  { unfold busy_state. simpl. apply lookup_singleton_eq. }
  rewrite E in Hold. destruct Hold as [H1 H2].
  destruct (Hnone (or_introl eq_refl)) as [Hid _].
  split; [exact H1|]. split; [exact H2|]. split; [exact Hid|].
  rewrite Hother; [exact E|]. rewrite Hid. discriminate.
Defined.

(** X26. A stored incident is planned like the incident itself.  The
    record [add_incident] returns gets the same brief, the same plan (in
    every world, with every limit) and the same display alert as the
    incident it was made from.  When the incident had no [id], dispatching
    a unit for the record marks the unit as assigned to the fresh
    identifier, which is also the id under which [resolve_incident] finds
    the record. *)
Theorem stored_incident_is_planned_alike (P : Platform) (fresh_id : string)
  (incident : Dict PyVal) (self : SystemState) (w : World) :
  exists record self',
    add_incident P fresh_id incident self w = (Ok (record, self'), tick w)
    /\ generate_incident_brief P (VDict record)
       = generate_incident_brief P (VDict incident)
    /\ (forall limit w0,
          plan_relief_response P (VDict record) limit w0
          = plan_relief_response P (VDict incident) limit w0)
    /\ (forall summary recommendation urgency,
          format_display_alert P summary recommendation (VDict record) urgency
          = format_display_alert P summary recommendation (VDict incident)
              urgency)
    /\ (dict_lookup "id" incident = None ->
        id_differs fresh_id record = false
        /\ forall unit_id w0,
             unit_id ∈ dom (_UNIT_STATUS w0) ->
             exists dispatched w1 stamp,
               notify_dispatch P unit_id (VDict record) w0 = (Ok dispatched, w1)
               /\ dr_incident_id dispatched = VStr fresh_id
               /\ _UNIT_STATUS w1 !! unit_id
                  = Some (assigned_to (VStr fresh_id) stamp)).
Proof.
  eexists _, _. split; [apply add_incident_spec|].
  set (record := dict_setdefault "timestamp" _ _).
  assert (Hsame : forall k,
             In k ["type"; "location"; "urgency"; "details"; "description"] ->
             dict_lookup k record = dict_lookup k incident).
  { intros k Hk. unfold record. apply stamped_lookup_other;
      simpl in Hk; intuition (subst; discriminate). }
  split; [now apply incident_brief_same|].
  split; [intros limit w0; now apply plan_relief_response_same|].
  split; [intros; now apply format_display_alert_same|].
  intros Hnone.
  assert (Hid : dict_get "id" VNone record = VStr fresh_id).
  { unfold dict_get, record. now rewrite stamped_lookup_id, Hnone. }
  split.
  { unfold id_differs. rewrite Hid. now rewrite String.eqb_refl. }
  intros unit_id w0 Hin.
  eexists _, _, _. split; [apply notify_dispatch_ok|].
  simpl. split; [exact Hid|].
  rewrite bool_decide_eq_true_2 by exact Hin. simpl.
  rewrite lookup_insert_eq, Hid. reflexivity.
Qed.

Lemma stored_incident_is_planned_alike_fire :
  exists record self',
    add_incident offline "u-7" fire_incident busy_state (initial_world offline)
    = (Ok (record, self'), tick (initial_world offline))
    /\ generate_incident_brief offline (VDict record)
       = Ok "Fire at Sector 7 - urgency CRITICAL."
    /\ exists dispatched w1,
         notify_dispatch offline "Fire-1" (VDict record) (initial_world offline)
         = (Ok dispatched, w1)
         /\ dr_incident_id dispatched = VStr "u-7".
Proof.
  destruct (stored_incident_is_planned_alike offline "u-7" fire_incident
              busy_state (initial_world offline))
    as (record & self' & Hr & Hb & _ & _ & Hid).
  exists record, self'. split; [exact Hr|].
  split; [now rewrite Hb|].
  destruct (Hid eq_refl) as [_ Hd].
  destruct (Hd "Fire-1" (initial_world offline))
    as (dispatched & w1 & stamp & Hn & Hi & _).
  { refine (bool_decide_unpack _ _). vm_compute. exact I. }
  exists dispatched, w1. split; [exact Hn | exact Hi].
Defined.
